(** * Product-Importer admin console: the browser scripts, embedded and verified

    Two scripts drive the console.  The product page script (CSV upload with
    progress polling, product CRUD, bulk delete) is embedded in
    [Module ProductPage]; [static/webhooks.js] is embedded in
    [Module WebhooksPage].  Both run on the browser's single-threaded event
    loop: a handler runs to completion, network calls only register a
    continuation.  A handler is therefore a function from the page state to a
    new page state and the list of effects it performed, and the page is a
    step function over events (user actions, timer ticks, settled requests).

    [Module JS] holds the pieces of JavaScript the scripts rely on. *)

From Stdlib Require Import ZArith QArith Qround DecimalString Ascii String.
From stdpp Require Import gmap strings list.

Open Scope Z_scope.

(* ===================================================================== *)
(** ** JavaScript values and built-ins                                     *)
(* ===================================================================== *)

Module JS.

(** The primitive values a parsed JSON body can put in a field.  Numbers are
    the integers (every number the server contract of the console sends is an
    integer count, percentage, identifier or status code, far below 2^53); a
    missing property reads as [JUndefined]. *)
Inductive jsval : Type :=
| JUndefined
| JNull
| JBool (b : bool)
| JNum (n : Z)
| JStr (s : string).

(** The double quote character, which the scripts write inside their HTML
    templates. *)
Definition dquote : string := String "034"%char EmptyString.

Definition is_empty (s : string) : bool :=
  match s with EmptyString => true | String _ _ => false end.

(** ToBoolean: what [if (v)], [!v], [v || d] and [v ? a : b] test. *)
Definition truthy (v : jsval) : bool :=
  match v with
  | JUndefined | JNull => false
  | JBool b => b
  | JNum n => negb (n =? 0)
  | JStr s => negb (is_empty s)
  end.

(** [a || b] *)
Definition js_or (a b : jsval) : jsval := if truthy a then a else b.

(** Number to string, for integers (below 10^21 in size): the decimal
    digits, with a leading minus sign below zero. *)
Definition string_of_Z (n : Z) : string := NilZero.string_of_int (Z.to_int n).

(** ToString: what a template literal [`${v}`] and [string + v] insert. *)
Definition ToString (v : jsval) : string :=
  match v with
  | JUndefined => "undefined"
  | JNull => "null"
  | JBool true => "true"
  | JBool false => "false"
  | JNum n => string_of_Z n
  | JStr s => s
  end.

(** [v === "literal"] *)
Definition strict_eq_str (v : jsval) (lit : string) : bool :=
  match v with
  | JStr s => String.eqb s lit
  | _ => false
  end.

(** [s.endsWith(search)]: the last [search.length] code units of [s] are
    compared with [search]; a [search] longer than [s] never matches. *)
Definition endsWith (s search : string) : bool :=
  let len := String.length s in
  let searchLength := String.length search in
  if (len <? searchLength)%nat then false
  else String.eqb (substring (len - searchLength) searchLength s) search.

(** [Math.ceil(a / b)] for integers [a] and [b]: the quotient is taken in
    the rationals and rounded up.  The script divides doubles; for a count
    below 2^53 and [b = 20] the double quotient is an integer exactly when
    the exact one is, and lies between the same two integers otherwise, so
    both round up to the same integer.  [None] is NaN, which a missing
    operand gives. *)
Definition Math_ceil_div (a : option Z) (b : Z) : option Z :=
  match a with
  | None => None
  | Some n => Some (Qceiling (inject_Z n / inject_Z b))
  end.

(** [x || d] on a number: NaN and 0 are falsy. *)
Definition num_or (x : option Z) (d : Z) : Z :=
  match x with
  | None => d
  | Some n => if n =? 0 then d else n
  end.

(** [text.replace(/[...]/g, m => f(m))] for a character class: every
    character of the class is replaced by what the callback returns for it,
    every other character is copied. *)
Fixpoint replace_class (cls : ascii -> bool) (f : ascii -> string)
    (text : string) : string :=
  match text with
  | EmptyString => EmptyString
  | String c rest =>
      if cls c then f c +:+ replace_class cls f rest
      else String c (replace_class cls f rest)
  end.

(** Property lookup [map[m]] in an object literal with one-character keys. *)
Fixpoint obj_get (map : list (ascii * string)) (m : ascii) : jsval :=
  match map with
  | [] => JUndefined
  | (k, v) :: rest => if Ascii.eqb k m then JStr v else obj_get rest m
  end.

End JS.

Import JS.


(* ===================================================================== *)
(** ** Handlers: state transformers that log their effects                 *)
(* ===================================================================== *)

Module Handler.

Section Monad.
Context {S E : Type}.

(** A handler reads and writes the page state [S] and performs effects
    [E], in order. *)
Definition M (A : Type) : Type := S -> A * S * list E.

Definition ret {A} (a : A) : M A := fun s => (a, s, []).

Definition bind {A B} (m : M A) (k : A -> M B) : M B :=
  fun s =>
    let r1 := m s in
    let r2 := k r1.1.1 r1.1.2 in
    (r2.1.1, r2.1.2, r1.2 ++ r2.2).

Definition get : M S := fun s => (s, s, []).
Definition modify (f : S -> S) : M unit := fun s => (tt, f s, []).
Definition emit (e : E) : M unit := fun s => (tt, s, [e]).
Definition skip : M unit := ret tt.

(** Running a handler: the state it leaves and the effects it performed. *)
Definition exec (m : M unit) (s : S) : S * list E :=
  ((m s).1.2, (m s).2).

(** [hoare Pre m I P]: started in a state satisfying [Pre], the handler
    [m] leaves a state satisfying [I], and every effect it performs
    satisfies [P]. *)
Definition hoare (Pre : S -> Prop) {A} (m : M A) (I : S -> Prop)
    (P : E -> Prop) : Prop :=
  forall s, Pre s -> I (m s).1.2 /\ Forall P (m s).2.

(** [m] keeps the invariant [I]. *)
Definition inv (I : S -> Prop) (P : E -> Prop) {A} (m : M A) : Prop :=
  hoare I m I P.
End Monad.

Arguments M : clear implicits.

Notation "x <- m ;; k" := (bind m (fun x => k))
  (at level 100, m at next level, right associativity).
Notation "m ;; k" := (bind m (fun _ => k))
  (at level 100, right associativity).

End Handler.

Import Handler.

(* ===================================================================== *)
(** ** The product page: CSV upload, progress polling, product CRUD        *)
(* ===================================================================== *)

Module ProductPage.

(** *** Data *)

(** A [File] picked in the dialog or dropped on the upload area. *)
Record File : Type := { file_name : string; file_content : string }.

(** The object literal [product] built by [saveProduct] and serialised as
    the request body. *)
Record ProductForm : Type := {
  productId_value : string;      (* #productId .value *)
  sku_value : string;            (* #sku .value *)
  name_value : string;           (* #name .value *)
  description_value : string;    (* #description .value *)
  active_checked : bool          (* #active .checked *)
}.

(** A request body. *)
Inductive Body : Type :=
| BNone
| BFormData (field : string) (file : File)     (* multipart form, one file *)
| BJson (product : ProductForm).               (* JSON.stringify(product) *)

(** What a settled request resumes.  [KProgress interval] is the pair of
    callbacks created by one tick of the timer [interval]; they close over
    that timer's handle. *)
Inductive Cont : Type :=
| KUpload
| KProgress (interval : nat)
| KLoadProducts
| KSaveProduct
| KDeleteProduct
| KBulkDelete.

(** What a handler does to the outside world. *)
Inductive Effect : Type :=
| EFetch (r : nat) (method url : string) (body : Body)   (* fetch(url, {method, body}) *)
| EAlert (msg : string)                                  (* alert(msg) *)
| EConfirm (msg : string)                                (* confirm(msg) *)
| EConsoleError (err : string)                           (* console.error(err) *)
| EOpenFileDialog                                        (* fileInput.click() *)
| EUncaught (err : string).                              (* exception leaving the handler *)

(** A settled request: rejected (network failure, body that is not JSON, or
    a JSON [null] whose property read throws), or the parsed object. *)
Inductive Result (A : Type) : Type :=
| Err (err : string)
| Ok (data : A).
Arguments Err {A} err.
Arguments Ok {A} data.

(** The parsed bodies, by endpoint, with the fields the script reads. *)
Record UploadData : Type := { task_id : jsval }.
Record ProgressData : Type := { state : jsval; progress : jsval; status : jsval }.
Record Product : Type := {
  p_id : jsval; p_sku : jsval; p_name : jsval; p_description : jsval; p_active : jsval
}.
Record ProductsData : Type := {
  products : list Product;
  page : jsval;
  total : option Z               (* the product count; [None] when absent *)
}.
Record SaveData : Type := { save_status : jsval; save_message : jsval }.
Record DeleteData : Type := { delete_status : jsval }.
Record BulkData : Type := {
  bulk_status : jsval; deleted_count : jsval; bulk_message : jsval
}.

(** *** Page state *)

(** The upload section of the document. *)
Record UploadView : Type := {
  area_hover : bool;                    (* uploadArea.classList has 'hover' *)
  status_text : string;                 (* status.textContent *)
  container_display : string;           (* progressContainer.style.display *)
  bar_width : string;                   (* progressBar.style.width *)
  progress_text : string;               (* progressText.textContent *)
  retry_display : string                (* retryBtn.style.display *)
}.

(** The product table, its filter inputs and the page label. *)
Record ListView : Type := {
  search_value : string;                (* #search .value *)
  activeFilter_value : string;          (* #activeFilter .value *)
  pageInfo_text : string;               (* #pageInfo .textContent *)
  tbody_rows : list string              (* innerHTML of each <tr> of the body *)
}.

Record Modal : Type := {
  modal_display : string;               (* #modal .style.display *)
  modalTitle_text : string              (* #modalTitle .textContent *)
}.

Record Button : Type := {
  btn_disabled : bool;
  btn_text : string
}.

(** The browser's side of the event loop: interval timers (each polling
    loop's handle with the task id its callback closes over) and the
    requests in flight with what they resume. *)
Record Runtime : Type := {
  timers : gmap nat jsval;
  next_timer : nat;
  pending : gmap nat Cont;
  next_req : nat
}.

Record State : Type := {
  upload : UploadView;
  currentFile : option File;            (* let currentFile = null *)
  currentPage : Z;                      (* let currentPage = 1 *)
  listing : ListView;
  modal : Modal;
  form : ProductForm;                   (* the inputs of #productForm *)
  form_default : ProductForm;           (* their default values, for reset() *)
  bulk_btn : Button;                    (* #bulk-delete-btn *)
  listeners : bool;                     (* initEventListeners has run *)
  rt : Runtime
}.

(** const perPage = 20 *)
Definition perPage : Z := 20.

(** Field updates. *)
Definition with_upload (f : UploadView -> UploadView) (s : State) : State :=
  {| upload := f (upload s); currentFile := currentFile s;
     currentPage := currentPage s; listing := listing s; modal := modal s;
     form := form s; form_default := form_default s; bulk_btn := bulk_btn s;
     listeners := listeners s; rt := rt s |}.
Definition with_currentFile (v : option File) (s : State) : State :=
  {| upload := upload s; currentFile := v;
     currentPage := currentPage s; listing := listing s; modal := modal s;
     form := form s; form_default := form_default s; bulk_btn := bulk_btn s;
     listeners := listeners s; rt := rt s |}.
Definition with_currentPage (v : Z) (s : State) : State :=
  {| upload := upload s; currentFile := currentFile s;
     currentPage := v; listing := listing s; modal := modal s;
     form := form s; form_default := form_default s; bulk_btn := bulk_btn s;
     listeners := listeners s; rt := rt s |}.
Definition with_listing (f : ListView -> ListView) (s : State) : State :=
  {| upload := upload s; currentFile := currentFile s;
     currentPage := currentPage s; listing := f (listing s); modal := modal s;
     form := form s; form_default := form_default s; bulk_btn := bulk_btn s;
     listeners := listeners s; rt := rt s |}.
Definition with_modal (f : Modal -> Modal) (s : State) : State :=
  {| upload := upload s; currentFile := currentFile s;
     currentPage := currentPage s; listing := listing s; modal := f (modal s);
     form := form s; form_default := form_default s; bulk_btn := bulk_btn s;
     listeners := listeners s; rt := rt s |}.
Definition with_form (f : ProductForm -> ProductForm) (s : State) : State :=
  {| upload := upload s; currentFile := currentFile s;
     currentPage := currentPage s; listing := listing s; modal := modal s;
     form := f (form s); form_default := form_default s; bulk_btn := bulk_btn s;
     listeners := listeners s; rt := rt s |}.
Definition with_bulk_btn (v : Button) (s : State) : State :=
  {| upload := upload s; currentFile := currentFile s;
     currentPage := currentPage s; listing := listing s; modal := modal s;
     form := form s; form_default := form_default s; bulk_btn := v;
     listeners := listeners s; rt := rt s |}.
Definition with_listeners (v : bool) (s : State) : State :=
  {| upload := upload s; currentFile := currentFile s;
     currentPage := currentPage s; listing := listing s; modal := modal s;
     form := form s; form_default := form_default s; bulk_btn := bulk_btn s;
     listeners := v; rt := rt s |}.
Definition with_rt (f : Runtime -> Runtime) (s : State) : State :=
  {| upload := upload s; currentFile := currentFile s;
     currentPage := currentPage s; listing := listing s; modal := modal s;
     form := form s; form_default := form_default s; bulk_btn := bulk_btn s;
     listeners := listeners s; rt := f (rt s) |}.

Definition upd_hover (v : bool) (u : UploadView) : UploadView :=
  {| area_hover := v; status_text := status_text u;
     container_display := container_display u; bar_width := bar_width u;
     progress_text := progress_text u; retry_display := retry_display u |}.
Definition upd_status (v : string) (u : UploadView) : UploadView :=
  {| area_hover := area_hover u; status_text := v;
     container_display := container_display u; bar_width := bar_width u;
     progress_text := progress_text u; retry_display := retry_display u |}.
Definition upd_container (v : string) (u : UploadView) : UploadView :=
  {| area_hover := area_hover u; status_text := status_text u;
     container_display := v; bar_width := bar_width u;
     progress_text := progress_text u; retry_display := retry_display u |}.
Definition upd_bar (v : string) (u : UploadView) : UploadView :=
  {| area_hover := area_hover u; status_text := status_text u;
     container_display := container_display u; bar_width := v;
     progress_text := progress_text u; retry_display := retry_display u |}.
Definition upd_progress_text (v : string) (u : UploadView) : UploadView :=
  {| area_hover := area_hover u; status_text := status_text u;
     container_display := container_display u; bar_width := bar_width u;
     progress_text := v; retry_display := retry_display u |}.
Definition upd_retry (v : string) (u : UploadView) : UploadView :=
  {| area_hover := area_hover u; status_text := status_text u;
     container_display := container_display u; bar_width := bar_width u;
     progress_text := progress_text u; retry_display := v |}.

Definition upd_search (v : string) (l : ListView) : ListView :=
  {| search_value := v; activeFilter_value := activeFilter_value l;
     pageInfo_text := pageInfo_text l; tbody_rows := tbody_rows l |}.
Definition upd_activeFilter (v : string) (l : ListView) : ListView :=
  {| search_value := search_value l; activeFilter_value := v;
     pageInfo_text := pageInfo_text l; tbody_rows := tbody_rows l |}.
Definition upd_pageInfo (v : string) (l : ListView) : ListView :=
  {| search_value := search_value l; activeFilter_value := activeFilter_value l;
     pageInfo_text := v; tbody_rows := tbody_rows l |}.
Definition upd_tbody (v : list string) (l : ListView) : ListView :=
  {| search_value := search_value l; activeFilter_value := activeFilter_value l;
     pageInfo_text := pageInfo_text l; tbody_rows := v |}.

Definition upd_modal_display (v : string) (m : Modal) : Modal :=
  {| modal_display := v; modalTitle_text := modalTitle_text m |}.
Definition upd_modalTitle (v : string) (m : Modal) : Modal :=
  {| modal_display := modal_display m; modalTitle_text := v |}.

Definition upd_productId (v : string) (f : ProductForm) : ProductForm :=
  {| productId_value := v; sku_value := sku_value f; name_value := name_value f;
     description_value := description_value f; active_checked := active_checked f |}.
Definition upd_sku (v : string) (f : ProductForm) : ProductForm :=
  {| productId_value := productId_value f; sku_value := v; name_value := name_value f;
     description_value := description_value f; active_checked := active_checked f |}.
Definition upd_name (v : string) (f : ProductForm) : ProductForm :=
  {| productId_value := productId_value f; sku_value := sku_value f; name_value := v;
     description_value := description_value f; active_checked := active_checked f |}.
Definition upd_description (v : string) (f : ProductForm) : ProductForm :=
  {| productId_value := productId_value f; sku_value := sku_value f;
     name_value := name_value f; description_value := v;
     active_checked := active_checked f |}.
Definition upd_active (v : bool) (f : ProductForm) : ProductForm :=
  {| productId_value := productId_value f; sku_value := sku_value f;
     name_value := name_value f; description_value := description_value f;
     active_checked := v |}.

Definition upd_timers (f : gmap nat jsval -> gmap nat jsval) (r : Runtime) : Runtime :=
  {| timers := f (timers r); next_timer := next_timer r;
     pending := pending r; next_req := next_req r |}.
Definition upd_next_timer (v : nat) (r : Runtime) : Runtime :=
  {| timers := timers r; next_timer := v;
     pending := pending r; next_req := next_req r |}.
Definition upd_pending (f : gmap nat Cont -> gmap nat Cont) (r : Runtime) : Runtime :=
  {| timers := timers r; next_timer := next_timer r;
     pending := f (pending r); next_req := next_req r |}.
Definition upd_next_req (v : nat) (r : Runtime) : Runtime :=
  {| timers := timers r; next_timer := next_timer r;
     pending := pending r; next_req := v |}.

(** *** Handlers *)

(** A handler of this page. *)
Definition M (A : Type) : Type := Handler.M State Effect A.

(** Assignments to the document and to the script's variables. *)
Definition set_status (v : string) : M unit := modify (with_upload (upd_status v)).
Definition set_container_display (v : string) : M unit :=
  modify (with_upload (upd_container v)).
Definition set_bar_width (v : string) : M unit := modify (with_upload (upd_bar v)).
Definition set_progress_text (v : string) : M unit :=
  modify (with_upload (upd_progress_text v)).
Definition set_retry_display (v : string) : M unit :=
  modify (with_upload (upd_retry v)).
Definition set_hover (v : bool) : M unit := modify (with_upload (upd_hover v)).
Definition set_currentFile (v : option File) : M unit := modify (with_currentFile v).
Definition set_currentPage (v : Z) : M unit := modify (with_currentPage v).
Definition set_pageInfo (v : string) : M unit := modify (with_listing (upd_pageInfo v)).
Definition set_tbody (v : list string) : M unit := modify (with_listing (upd_tbody v)).
Definition set_modal_display (v : string) : M unit :=
  modify (with_modal (upd_modal_display v)).
Definition set_modalTitle (v : string) : M unit :=
  modify (with_modal (upd_modalTitle v)).
Definition set_bulk_btn (disabled : bool) (text : string) : M unit :=
  modify (with_bulk_btn {| btn_disabled := disabled; btn_text := text |}).

Definition alert (msg : string) : M unit := emit (EAlert msg).
Definition console_error (err : string) : M unit := emit (EConsoleError err).

(** [fetch(url, {method, body})] followed by [.then]/[.catch] or [await]:
    the request leaves, and its continuation waits for it to settle. *)
Definition fetch (method url : string) (body : Body) (k : Cont) : M unit :=
  s <- get ;;
  let r := next_req (rt s) in
  modify (with_rt (fun x => upd_next_req (S r) (upd_pending (insert r k) x))) ;;
  emit (EFetch r method url body).

(** [setInterval(callback, 1000)]: a fresh handle; the callback closes over
    [taskId]. *)
Definition setInterval (taskId : jsval) : M nat :=
  s <- get ;;
  let i := next_timer (rt s) in
  modify (with_rt (fun x => upd_next_timer (S i) (upd_timers (insert i taskId) x))) ;;
  ret i.

(** [clearInterval(interval)] *)
Definition clearInterval (interval : nat) : M unit :=
  modify (with_rt (upd_timers (delete interval))).


(** *** CSV upload section *)

(** Upload CSV to backend: the synchronous part of [uploadCSV], up to the
    [fetch]. *)
Definition uploadCSV (file : File) : M unit :=
  fetch "POST" "/upload" (BFormData "file" file) KUpload.

(** Poll Celery task progress: [pollProgress] only installs the timer. *)
Definition pollProgress (taskId : jsval) : M unit :=
  _ <- setInterval taskId ;; skip.

(** The [.catch] of [uploadCSV]. *)
Definition uploadCSV_catch : M unit :=
  set_status "Upload failed. Please try again." ;;
  set_retry_display "inline-block".

(** The [.then(data => ...)] of [uploadCSV]; its [throw] lands in the
    [.catch] of the same chain. *)
Definition uploadCSV_then (data : UploadData) : M unit :=
  if truthy (task_id data) then pollProgress (task_id data)
  else uploadCSV_catch.

Definition uploadCSV_settled (res : Result UploadData) : M unit :=
  match res with
  | Ok data => uploadCSV_then data
  | Err _ => uploadCSV_catch
  end.

(** Handle file validation.  [files[0]] of an empty list is [undefined],
    and reading its [name] throws. *)
Definition handleFiles (files : list File) : M unit :=
  match files with
  | [] => emit (EUncaught "TypeError")
  | file :: _ =>
      if negb (endsWith (file_name file) ".csv") then
        set_status "Please upload a valid CSV file."
      else
        set_status EmptyString ;;
        set_container_display "block" ;;
        set_bar_width "0%" ;;
        set_progress_text "0%" ;;
        set_retry_display "none" ;;
        set_currentFile (Some file) ;;
        uploadCSV file
  end.

(** Retry *)
Definition retry_click : M unit :=
  s <- get ;;
  match currentFile s with
  | Some file => uploadCSV file
  | None => skip
  end.

(** Drop file: the second [drop] listener. *)
Definition drop_files (files : list File) : M unit :=
  match files with
  | [] => skip
  | _ :: _ => handleFiles files
  end.

(** The callback given to [setInterval] by [pollProgress], up to its
    [fetch]. *)
Definition pollProgress_tick (interval : nat) (taskId : jsval) : M unit :=
  fetch "GET" ("/progress/" +:+ ToString taskId) BNone (KProgress interval).

(** *** Product listing *)

(** The synchronous part of [loadProducts], up to the first [await]. *)
Definition loadProducts : M unit :=
  s <- get ;;
  let search := ToString (js_or (JStr (search_value (listing s))) (JStr EmptyString)) in
  let active := ToString (js_or (JStr (activeFilter_value (listing s))) (JStr EmptyString)) in
  fetch "GET"
    ("/api/products?page=" +:+ string_of_Z (currentPage s) +:+
     "&per_page=" +:+ string_of_Z perPage +:+
     "&search=" +:+ search +:+ "&active=" +:+ active)
    BNone KLoadProducts.

Definition nl : string := String "010"%char EmptyString.

Fixpoint spaces (n : nat) : string :=
  match n with
  | O => EmptyString
  | S k => String " "%char (spaces k)
  end.

(** The template literal assigned to [tr.innerHTML] for one product. *)
Definition product_row (p : Product) : string :=
  nl +:+ spaces 12 +:+ "<td>" +:+ ToString (p_sku p) +:+ "</td>" +:+
  nl +:+ spaces 12 +:+ "<td>" +:+ ToString (p_name p) +:+ "</td>" +:+
  nl +:+ spaces 12 +:+ "<td>" +:+ ToString (p_description p) +:+ "</td>" +:+
  nl +:+ spaces 12 +:+ "<td>" +:+ (if truthy (p_active p) then "Yes" else "No") +:+ "</td>" +:+
  nl +:+ spaces 12 +:+ "<td>" +:+
  nl +:+ spaces 16 +:+ "<button class=" +:+ dquote +:+ "edit-btn" +:+ dquote +:+
    " onclick=" +:+ dquote +:+ "editProduct(" +:+ ToString (p_id p) +:+
    ", '" +:+ ToString (p_sku p) +:+ "', '" +:+ ToString (p_name p) +:+
    "', '" +:+ ToString (p_description p) +:+ "', " +:+ ToString (p_active p) +:+
    ")" +:+ dquote +:+ ">Edit</button>" +:+
  nl +:+ spaces 16 +:+ "<button class=" +:+ dquote +:+ "delete-btn" +:+ dquote +:+
    " onclick=" +:+ dquote +:+ "deleteProduct(" +:+ ToString (p_id p) +:+
    ")" +:+ dquote +:+ ">Delete</button>" +:+
  nl +:+ spaces 12 +:+ "</td>" +:+
  nl +:+ spaces 8.

(** The single cell of the row shown for an empty result. *)
Definition no_products_row : string :=
  "<td colspan=" +:+ dquote +:+ "5" +:+ dquote +:+ " style=" +:+ dquote +:+
  "text-align:center;" +:+ dquote +:+ ">No products found.</td>".

Definition renderProductsTable (ps : list Product) : M unit :=
  set_tbody [] ;;
  match ps with
  | [] => set_tbody [no_products_row]
  | _ :: _ => set_tbody (map product_row ps)
  end.

(** The text of the page label. *)
Definition page_label (data : ProductsData) : string :=
  "Page " +:+ ToString (page data) +:+ " of " +:+
  string_of_Z (num_or (Math_ceil_div (total data) perPage) 1).

(** [loadProducts] after its awaits: the [try] body, or the [catch]. *)
Definition loadProducts_settled (res : Result ProductsData) : M unit :=
  match res with
  | Ok data =>
      renderProductsTable (products data) ;;
      set_pageInfo (page_label data)
  | Err err =>
      alert "Failed to load products." ;;
      console_error err
  end.

(** *** Modal *)

Definition openModal : M unit := set_modal_display "block".
Definition closeModal : M unit := set_modal_display "none".

Definition openCreateModal : M unit :=
  openModal ;;
  set_modalTitle "Create Product" ;;
  s <- get ;;
  modify (with_form (fun _ => form_default s)) ;;
  modify (with_form (upd_productId EmptyString)).

(** Assigning to [input.value]: [null] becomes the empty string, anything
    else its string. *)
Definition to_value (v : jsval) : string :=
  match v with
  | JNull => EmptyString
  | _ => ToString v
  end.

Definition editProduct (id sku name description active : jsval) : M unit :=
  openModal ;;
  set_modalTitle "Edit Product" ;;
  modify (with_form (upd_productId (to_value id))) ;;
  modify (with_form (upd_sku (to_value sku))) ;;
  modify (with_form (upd_name (to_value name))) ;;
  modify (with_form (upd_description (to_value description))) ;;
  modify (with_form (upd_active (truthy active))).

(** *** Create / update product *)

(** The synchronous part of [saveProduct], up to the [fetch]. *)
Definition saveProduct : M unit :=
  s <- get ;;
  let product := form s in
  if negb (truthy (JStr (sku_value product))) || negb (truthy (JStr (name_value product)))
  then alert "SKU and Name are required."
  else fetch "POST" "/api/products" (BJson product) KSaveProduct.

Definition saveProduct_settled (res : Result SaveData) : M unit :=
  match res with
  | Ok data =>
      if strict_eq_str (save_status data) "success" then
        closeModal ;; loadProducts
      else
        alert ("Error: " +:+
               ToString (js_or (save_message data) (JStr "Failed to save product")))
  | Err err =>
      console_error err ;;
      alert "Failed to save product."
  end.

(** *** Delete product *)

(** [confirm(msg)]: the prompt is shown and the user's answer returned. *)
Definition confirm (msg : string) (answer : bool) : M bool :=
  emit (EConfirm msg) ;; ret answer.

Definition deleteProduct (id : jsval) (answer : bool) : M unit :=
  ok <- confirm "Are you sure you want to delete this product?" answer ;;
  if negb ok then skip
  else fetch "DELETE" ("/api/products/" +:+ ToString id) BNone KDeleteProduct.

Definition deleteProduct_settled (res : Result DeleteData) : M unit :=
  match res with
  | Ok data =>
      if strict_eq_str (delete_status data) "deleted" then loadProducts
      else alert "Failed to delete product."
  | Err err =>
      console_error err ;;
      alert "Failed to delete product."
  end.

(** *** Bulk delete *)

(** The synchronous part of [bulkDeleteProducts], up to the [fetch]. *)
Definition bulkDeleteProducts (answer : bool) : M unit :=
  ok <- confirm "Are you sure? This cannot be undone." answer ;;
  if negb ok then skip
  else
    set_bulk_btn true "Deleting..." ;;
    fetch "POST" "/api/products/bulk_delete" BNone KBulkDelete.

(** The rest of the [try], or the [catch]; then the [finally]. *)
Definition bulkDeleteProducts_settled (res : Result BulkData) : M unit :=
  match res with
  | Ok data =>
      if strict_eq_str (bulk_status data) "success" then
        alert ("All products deleted (" +:+ ToString (deleted_count data) +:+ ")") ;;
        loadProducts
      else
        alert ("Failed: " +:+ ToString (bulk_message data))
  | Err err =>
      console_error err ;;
      alert ("Error: " +:+ err)
  end ;;
  set_bulk_btn false "Delete All Products".

(** The [.then(data => ...)] of one poll tick. *)
Definition pollProgress_then (interval : nat) (data : ProgressData) : M unit :=
  let percent := js_or (progress data) (JNum 0) in
  set_bar_width (ToString percent +:+ "%") ;;
  set_progress_text (ToString percent +:+ "%") ;;
  set_status (ToString (js_or (status data) (JStr "Processing..."))) ;;
  (if strict_eq_str (state data) "SUCCESS" then
     clearInterval interval ;;
     set_status "Import Complete!" ;;
     loadProducts
   else skip) ;;
  (if strict_eq_str (state data) "FAILURE" then
     clearInterval interval ;;
     set_status ("Failed: " +:+ ToString (js_or (status data) (JStr "Error"))) ;;
     set_retry_display "inline-block"
   else skip).

(** The [.catch] of one poll tick. *)
Definition pollProgress_catch (interval : nat) : M unit :=
  clearInterval interval ;;
  set_status "Error fetching progress." ;;
  set_retry_display "inline-block".

Definition pollProgress_settled (interval : nat) (res : Result ProgressData) : M unit :=
  match res with
  | Ok data => pollProgress_then interval data
  | Err _ => pollProgress_catch interval
  end.

(** *** The event loop *)

Inductive Field : Type := FSearch | FActiveFilter | FSku | FName | FDescription.

(** What the browser can deliver to the page: user actions, a tick of an
    interval timer, and the settling of a request in flight. *)
Inductive Event : Type :=
| UploadAreaClick
| DragEnter
| DragOver
| DragLeave
| Drop (files : list File)
| FileInputChange (files : list File)
| RetryClick
| TimerFire (interval : nat)
| UploadSettled (r : nat) (res : Result UploadData)
| ProgressSettled (r : nat) (res : Result ProgressData)
| ProductsSettled (r : nat) (res : Result ProductsData)
| SaveSettled (r : nat) (res : Result SaveData)
| DeleteSettled (r : nat) (res : Result DeleteData)
| BulkSettled (r : nat) (res : Result BulkData)
| DOMContentLoaded
| FilterClick
| PrevPageClick
| NextPageClick
| CreateClick
| CloseClick
| FormSubmit
| BulkDeleteClick (answer : bool)             (* with the answer to confirm() *)
| EditClick (id sku name description active : jsval)
| DeleteClick (id : jsval) (answer : bool)
| UserInput (f : Field) (v : string)          (* typing into an input *)
| UserCheck (b : bool).                       (* ticking #active *)

(** A request settles once: its continuation is taken out of the table and
    run.  [select] picks the continuation this kind of response resumes. *)
Definition settle (r : nat) (select : Cont -> option (M unit)) : M unit :=
  s <- get ;;
  match pending (rt s) !! r with
  | Some c =>
      match select c with
      | Some k => modify (with_rt (upd_pending (delete r))) ;; k
      | None => skip
      end
  | None => skip
  end.

(** Listeners attached by [initEventListeners] exist once it has run. *)
Definition when_listening (m : M unit) : M unit :=
  s <- get ;;
  if listeners s then m else skip.

Definition user_input (f : Field) (v : string) : M unit :=
  match f with
  | FSearch => modify (with_listing (upd_search v))
  | FActiveFilter => modify (with_listing (upd_activeFilter v))
  | FSku => modify (with_form (upd_sku v))
  | FName => modify (with_form (upd_name v))
  | FDescription => modify (with_form (upd_description v))
  end.

Definition handle (ev : Event) : M unit :=
  match ev with
  (* Click -> open file dialog *)
  | UploadAreaClick => emit EOpenFileDialog
  (* Drag enter / over *)
  | DragEnter | DragOver => set_hover true
  (* Drag leave / drop *)
  | DragLeave => set_hover false
  | Drop files => set_hover false ;; drop_files files
  (* File selected *)
  | FileInputChange files => handleFiles files
  | RetryClick => retry_click
  (* a cleared timer does not fire *)
  | TimerFire interval =>
      s <- get ;;
      match timers (rt s) !! interval with
      | Some taskId => pollProgress_tick interval taskId
      | None => skip
      end
  | UploadSettled r res =>
      settle r (fun c => match c with
                         | KUpload => Some (uploadCSV_settled res)
                         | _ => None
                         end)
  | ProgressSettled r res =>
      settle r (fun c => match c with
                         | KProgress interval => Some (pollProgress_settled interval res)
                         | _ => None
                         end)
  | ProductsSettled r res =>
      settle r (fun c => match c with
                         | KLoadProducts => Some (loadProducts_settled res)
                         | _ => None
                         end)
  | SaveSettled r res =>
      settle r (fun c => match c with
                         | KSaveProduct => Some (saveProduct_settled res)
                         | _ => None
                         end)
  | DeleteSettled r res =>
      settle r (fun c => match c with
                         | KDeleteProduct => Some (deleteProduct_settled res)
                         | _ => None
                         end)
  | BulkSettled r res =>
      settle r (fun c => match c with
                         | KBulkDelete => Some (bulkDeleteProducts_settled res)
                         | _ => None
                         end)
  (* Init when page loads; the browser fires it once *)
  | DOMContentLoaded =>
      s <- get ;;
      if listeners s then skip
      else modify (with_listeners true) ;; loadProducts
  | FilterClick =>
      when_listening (set_currentPage 1 ;; loadProducts)
  | PrevPageClick =>
      when_listening (
        s <- get ;;
        if 1 <? currentPage s then
          set_currentPage (currentPage s - 1) ;; loadProducts
        else skip)
  | NextPageClick =>
      when_listening (
        s <- get ;;
        set_currentPage (currentPage s + 1) ;; loadProducts)
  | CreateClick => when_listening openCreateModal
  | CloseClick => when_listening closeModal
  | FormSubmit => when_listening saveProduct
  (* a disabled button dispatches no click *)
  | BulkDeleteClick answer =>
      when_listening (
        s <- get ;;
        if btn_disabled (bulk_btn s) then skip else bulkDeleteProducts answer)
  | EditClick id sku name description active =>
      editProduct id sku name description active
  | DeleteClick id answer => deleteProduct id answer
  | UserInput f v => user_input f v
  | UserCheck b => modify (with_form (upd_active b))
  end.

(** One turn of the event loop. *)
Definition step (ev : Event) (s : State) : State * list Effect :=
  exec (handle ev) s.

(** A sequence of turns, with everything the page did along the way. *)
Fixpoint run (evs : list Event) (s : State) : State * list Effect :=
  match evs with
  | [] => (s, [])
  | ev :: rest =>
      let r1 := step ev s in
      let r2 := run rest r1.1 in
      (r2.1, r1.2 ++ r2.2)
  end.

(** The page as the script leaves it when it is loaded: nothing uploaded,
    first page, no timer, no request in flight.  The document's own content
    (texts, styles, form defaults) is whatever the HTML says. *)
Definition freshly_loaded (s : State) : Prop :=
  currentFile s = None /\ currentPage s = 1 /\ listeners s = false /\
  timers (rt s) = ∅ /\ next_timer (rt s) = 0%nat /\
  pending (rt s) = ∅ /\ next_req (rt s) = 0%nat.

(** A concrete document, for examples. *)
Definition blank_form : ProductForm :=
  {| productId_value := EmptyString; sku_value := EmptyString;
     name_value := EmptyString; description_value := EmptyString;
     active_checked := false |}.

Definition blank_page : State :=
  {| upload := {| area_hover := false; status_text := EmptyString;
                  container_display := "none"; bar_width := "0%";
                  progress_text := "0%"; retry_display := "none" |};
     currentFile := None;
     currentPage := 1;
     listing := {| search_value := EmptyString; activeFilter_value := EmptyString;
                   pageInfo_text := EmptyString; tbody_rows := [] |};
     modal := {| modal_display := "none"; modalTitle_text := EmptyString |};
     form := blank_form;
     form_default := blank_form;
     bulk_btn := {| btn_disabled := false; btn_text := "Delete All Products" |};
     listeners := false;
     rt := {| timers := ∅; next_timer := 0; pending := ∅; next_req := 0 |} |}.

(** *** Vocabulary of the properties *)

(** The turns of a run, each with the effects it performed. *)
Fixpoint trace (evs : list Event) (s : State) : list (Event * list Effect) :=
  match evs with
  | [] => []
  | ev :: rest => (ev, (step ev s).2) :: trace rest (step ev s).1
  end.

(** The URL [loadProducts] asks for in state [s]. *)
Definition products_url (s : State) : string :=
  "/api/products?page=" +:+ string_of_Z (currentPage s) +:+
  "&per_page=20&search=" +:+ search_value (listing s) +:+
  "&active=" +:+ activeFilter_value (listing s).

(** A request to the network. *)
Definition is_fetch (e : Effect) : bool :=
  match e with EFetch _ _ _ _ => true | _ => false end.

(** A reload of the product listing: a GET of the product list. *)
Definition is_reload (e : Effect) : bool :=
  match e with
  | EFetch _ method url _ =>
      String.eqb method "GET" && String.prefix "/api/products?" url
  | _ => false
  end.

(** A progress request: a GET under [/progress/]. *)
Definition is_progress (e : Effect) : bool :=
  match e with
  | EFetch _ method url _ =>
      String.eqb method "GET" && String.prefix "/progress/" url
  | _ => false
  end.

(** The polling loop with handle [i] is stopped: its timer is cleared and
    its handle was handed out already (handles are not reused). *)
Definition stopped (i : nat) (s : State) : Prop :=
  timers (rt s) !! i = None /\ (i < next_timer (rt s))%nat.

(** A turn in which the polling loop [i] asks for nothing: if it is a tick
    of its timer it performs nothing, and if it does ask for progress it is
    the tick of another loop. *)
Definition quiet (i : nat) (ev : Event) (effs : list Effect) : Prop :=
  (ev = TimerFire i -> effs = []) /\
  (Exists (fun e => is_progress e = true) effs ->
   exists j, ev = TimerFire j /\ j <> i).

(** From state [s] on, the polling loop [i] never asks for progress again,
    whatever the events that follow. *)
Definition silent_from (i : nat) (s : State) : Prop :=
  forall evs, Forall (fun t => quiet i t.1 t.2) (trace evs s).

(** A turn of polling that brings no SUCCESS: a tick, a rejected progress
    request, or a progress response in another state. *)
Definition polls_without_success (ev : Event) : bool :=
  match ev with
  | TimerFire _ => true
  | ProgressSettled _ (Err _) => true
  | ProgressSettled _ (Ok d) => negb (strict_eq_str (state d) "SUCCESS")
  | _ => false
  end.

(** Handles in use, and handles the continuations in flight refer to, were
    handed out by [setInterval]. *)
Definition wf (s : State) : Prop :=
  (forall i v, timers (rt s) !! i = Some v -> (i < next_timer (rt s))%nat) /\
  (forall r i, pending (rt s) !! r = Some (KProgress i) -> (i < next_timer (rt s))%nat).

(** A bulk delete is in flight as request [r]: its continuation waits, and
    the trigger is disabled and relabelled. *)
Definition bulk_in_flight (r : nat) (s : State) : Prop :=
  pending (rt s) !! r = Some KBulkDelete /\ (r < next_req (rt s))%nat /\
  bulk_btn s = {| btn_disabled := true; btn_text := "Deleting..." |}.

(** The settling of a bulk delete request. *)
Definition is_bulk_settled (ev : Event) : bool :=
  match ev with BulkSettled _ _ => true | _ => false end.

(** The file an event submits through validation, if it passes. *)
Definition validated (ev : Event) : option File :=
  match ev with
  | Drop (file :: _) | FileInputChange (file :: _) =>
      if endsWith (file_name file) ".csv" then Some file else None
  | _ => None
  end.

(** The last file that passed validation in a history starting from [cur]. *)
Definition last_valid (cur : option File) (evs : list Event) : option File :=
  fold_left (fun c ev => match validated ev with Some f => Some f | None => c end)
            evs cur.

(** The name of [f] ends in [.csv]. *)
Definition file_ok (f : File) : Prop := exists stem, file_name f = stem +:+ ".csv".

(** The tracked file, if any, has such a name. *)
Definition tracks_valid_file (s : State) : Prop :=
  forall f, currentFile s = Some f -> file_ok f.

(** An effect that sends a file sends one with such a name. *)
Definition uploads_valid_file (e : Effect) : Prop :=
  forall r method url field f,
    e = EFetch r method url (BFormData field f) -> file_ok f.



(** The failure text as the specification words it: the response's status
    field, or Error when the field is absent. *)
Definition claimed_failure_text (d : ProgressData) : string :=
  match status d with
  | JUndefined => "Error"
  | v => ToString v
  end.

(** The failure text with the script's prefix: the prefix, then the status
    field when it is present and truthy, else Error. *)
Definition prefixed_failure_text (d : ProgressData) : string :=
  "Failed: " +:+ (if truthy (status d) then ToString (status d) else "Error").

(** *** Sample data *)

Definition sample_csv : File := {| file_name := "data.csv"; file_content := "sku,name" |}.
Definition sample_txt : File := {| file_name := "notes.txt"; file_content := "hello" |}.

(** The page while the import of [sample_csv] is being polled: request 1 is
    the first tick of loop 0. *)
Definition polling_page : State :=
  (run [FileInputChange [sample_csv];
        UploadSettled 0 (Ok {| task_id := JStr "abc" |});
        TimerFire 0] blank_page).1.

Definition poll_success : ProgressData :=
  {| state := JStr "SUCCESS"; progress := JNum 100; status := JStr "done" |}.
Definition poll_failure : ProgressData :=
  {| state := JStr "FAILURE"; progress := JNum 40; status := JStr "disk full" |}.

(** The page once [DOMContentLoaded] has fired. *)
Definition loaded_page : State := (step DOMContentLoaded blank_page).1.

Definition bulk_success : BulkData :=
  {| bulk_status := JStr "success"; deleted_count := JNum 7;
     bulk_message := JUndefined |}.

Definition first_page_of_45 : ProductsData :=
  {| products := []; page := JNum 1; total := Some 45 |}.

(** The loaded page with the product form filled in. *)
Definition filled_page : State :=
  with_form (fun _ => {| productId_value := EmptyString; sku_value := "SKU-1";
                         name_value := "Lamp"; description_value := EmptyString;
                         active_checked := true |}) loaded_page.



End ProductPage.

(* ===================================================================== *)
(** ** The webhooks page: static/webhooks.js                               *)
(* ===================================================================== *)

Module WebhooksPage.

(** *** Escaping *)

Definition amp : ascii := "&"%char.
Definition lt : ascii := "<"%char.
Definition gt : ascii := ">"%char.
Definition quot : ascii := "034"%char.
Definition apos : ascii := "'"%char.

(** The object literal [map] of [escapeHtml]: each of the five characters
    with its entity. *)
Definition map : list (ascii * string) :=
  [ (amp, "&amp;"); (lt, "&lt;"); (gt, "&gt;"); (quot, "&quot;"); (apos, "&#039;") ].

(** The character class of the regular expression of [escapeHtml]:
    ampersand, less-than, greater-than, double quote, apostrophe. *)
Definition special (c : ascii) : bool :=
  Ascii.eqb c amp || Ascii.eqb c lt || Ascii.eqb c gt ||
  Ascii.eqb c quot || Ascii.eqb c apos.

Definition escapeHtml (text : string) : string :=
  replace_class special (fun m => ToString (obj_get map m)) text.

(** [escapeHtml(v)] on a field of a parsed body: [v.replace] exists on
    strings only, the call throws on anything else. *)
Definition escapeHtml_call (v : jsval) : option string :=
  match v with
  | JStr text => Some (escapeHtml text)
  | _ => None
  end.

(** *** Data *)

Record Webhook : Type := {
  w_id : jsval; w_url : jsval; w_event_type : jsval; w_enabled : jsval
}.

Record WebhookForm : Type := {
  webhookId_value : string;      (* #webhookId .value *)
  url_value : string;            (* #url .value *)
  event_type_value : string;     (* #event_type .value *)
  enabled_checked : bool         (* #enabled .checked *)
}.

Inductive Body : Type :=
| BNone
| BJson (url event_type : string) (enabled : bool).   (* JSON.stringify({url, event_type, enabled}) *)

Inductive Cont : Type := KLoadWebhooks | KSaveWebhook | KDeleteWebhook.

Inductive Effect : Type :=
| EFetch (r : nat) (method url : string) (body : Body)
| EAlert (msg : string)
| EConfirm (msg : string).

Inductive Result (A : Type) : Type :=
| Err (err : string)
| Ok (data : A).
Arguments Err {A} err.
Arguments Ok {A} data.

Record WebhooksData : Type := { webhooks : list Webhook }.
Record StatusData : Type := { status : jsval; message : jsval }.

Record State : Type := {
  tbody_rows : list string;             (* innerHTML of each <tr> of #webhooksTable *)
  modal_display : string;               (* #modal .style.display *)
  modal_fade_in : bool;                 (* #modal .classList has 'fade-in' *)
  modalTitle_text : string;             (* #modalTitle .textContent *)
  form : WebhookForm;
  form_default : WebhookForm;           (* for reset() *)
  submit_disabled : bool;               (* the form's submit button *)
  submit_text : string;
  pending : gmap nat Cont;
  next_req : nat
}.

Definition M (A : Type) : Type := Handler.M State Effect A.

Definition set_tbody (v : list string) : M unit :=
  modify (fun s =>
    {| tbody_rows := v; modal_display := modal_display s;
       modal_fade_in := modal_fade_in s; modalTitle_text := modalTitle_text s;
       form := form s; form_default := form_default s;
       submit_disabled := submit_disabled s; submit_text := submit_text s;
       pending := pending s; next_req := next_req s |}).

Definition set_modal (display : string) (fade_in : bool) : M unit :=
  modify (fun s =>
    {| tbody_rows := tbody_rows s; modal_display := display;
       modal_fade_in := fade_in; modalTitle_text := modalTitle_text s;
       form := form s; form_default := form_default s;
       submit_disabled := submit_disabled s; submit_text := submit_text s;
       pending := pending s; next_req := next_req s |}).

Definition set_modalTitle (v : string) : M unit :=
  modify (fun s =>
    {| tbody_rows := tbody_rows s; modal_display := modal_display s;
       modal_fade_in := modal_fade_in s; modalTitle_text := v;
       form := form s; form_default := form_default s;
       submit_disabled := submit_disabled s; submit_text := submit_text s;
       pending := pending s; next_req := next_req s |}).

Definition set_form (v : WebhookForm) : M unit :=
  modify (fun s =>
    {| tbody_rows := tbody_rows s; modal_display := modal_display s;
       modal_fade_in := modal_fade_in s; modalTitle_text := modalTitle_text s;
       form := v; form_default := form_default s;
       submit_disabled := submit_disabled s; submit_text := submit_text s;
       pending := pending s; next_req := next_req s |}).

Definition set_submit (disabled : bool) (text : string) : M unit :=
  modify (fun s =>
    {| tbody_rows := tbody_rows s; modal_display := modal_display s;
       modal_fade_in := modal_fade_in s; modalTitle_text := modalTitle_text s;
       form := form s; form_default := form_default s;
       submit_disabled := disabled; submit_text := text;
       pending := pending s; next_req := next_req s |}).

Definition fetch (method url : string) (body : Body) (k : Cont) : M unit :=
  s <- get ;;
  let r := next_req s in
  modify (fun s =>
    {| tbody_rows := tbody_rows s; modal_display := modal_display s;
       modal_fade_in := modal_fade_in s; modalTitle_text := modalTitle_text s;
       form := form s; form_default := form_default s;
       submit_disabled := submit_disabled s; submit_text := submit_text s;
       pending := <[r := k]> (pending s); next_req := S r |}) ;;
  emit (EFetch r method url body).

Definition alert (msg : string) : M unit := emit (EAlert msg).

(** *** Listing *)

Definition loadWebhooks : M unit :=
  fetch "GET" "/api/webhooks" BNone KLoadWebhooks.

Definition nl : string := String "010"%char EmptyString.

Fixpoint spaces (n : nat) : string :=
  match n with
  | O => EmptyString
  | S k => String " "%char (spaces k)
  end.

(** The template literal assigned to [tr.innerHTML], given the results of
    its four [escapeHtml] calls. *)
Definition row_template (w : Webhook) (url1 event1 url2 event2 : string) : string :=
  nl +:+ spaces 20 +:+ "<td>" +:+ url1 +:+ "</td>" +:+
  nl +:+ spaces 20 +:+ "<td>" +:+ event1 +:+ "</td>" +:+
  nl +:+ spaces 20 +:+ "<td>" +:+ (if truthy (w_enabled w) then "Yes" else "No") +:+ "</td>" +:+
  nl +:+ spaces 20 +:+ "<td>" +:+
  nl +:+ spaces 24 +:+ "<button class=" +:+ dquote +:+ "action-btn edit-btn" +:+ dquote +:+
    " onclick=" +:+ dquote +:+ "editWebhook(" +:+ ToString (w_id w) +:+
    ", '" +:+ url2 +:+ "', '" +:+ event2 +:+ "', " +:+ ToString (w_enabled w) +:+
    ")" +:+ dquote +:+ ">Edit</button>" +:+
  nl +:+ spaces 24 +:+ "<button class=" +:+ dquote +:+ "action-btn delete-btn" +:+ dquote +:+
    " onclick=" +:+ dquote +:+ "deleteWebhook(" +:+ ToString (w_id w) +:+
    ")" +:+ dquote +:+ ">Delete</button>" +:+
  nl +:+ spaces 24 +:+ "<button class=" +:+ dquote +:+ "action-btn test-btn" +:+ dquote +:+
    " onclick=" +:+ dquote +:+ "testWebhook(" +:+ ToString (w_id w) +:+
    ", this)" +:+ dquote +:+ ">Test</button>" +:+
  nl +:+ spaces 20 +:+ "</td>" +:+
  nl +:+ spaces 16.

(** One row; [None] when an [escapeHtml] call throws. *)
Definition webhook_row (w : Webhook) : option string :=
  match escapeHtml_call (w_url w), escapeHtml_call (w_event_type w) with
  | Some url, Some event_type => Some (row_template w url event_type url event_type)
  | _, _ => None
  end.

Definition no_webhooks_row : string :=
  "<td colspan=" +:+ dquote +:+ "4" +:+ dquote +:+ " style=" +:+ dquote +:+
  "text-align:center; padding:20px;" +:+ dquote +:+ ">No webhooks found</td>".

(** The [forEach]: rows are appended one by one; an exception ends the loop,
    and the rows appended so far stay. *)
Fixpoint append_rows (ws : list Webhook) (rows : list string) : list string * bool :=
  match ws with
  | [] => (rows, false)
  | w :: rest =>
      match webhook_row w with
      | Some tr => append_rows rest (rows ++ [tr])
      | None => (rows, true)
      end
  end.

Definition loadWebhooks_settled (res : Result WebhooksData) : M unit :=
  match res with
  | Ok data =>
      set_tbody [] ;;
      match webhooks data with
      | [] => set_tbody [no_webhooks_row]
      | _ :: _ =>
          let r := append_rows (webhooks data) [] in
          set_tbody r.1 ;;
          (* the chain's catch; the engine words the TypeError *)
          if r.2 then alert ("Failed to load webhooks: " +:+ "TypeError") else skip
      end
  | Err err => alert ("Failed to load webhooks: " +:+ err)
  end.

(** *** Modal *)

Definition openModal : M unit :=
  set_modal "flex" true ;;
  set_modalTitle "Create Webhook" ;;
  s <- get ;;
  set_form (form_default s) ;;
  s <- get ;;
  set_form {| webhookId_value := EmptyString; url_value := url_value (form s);
              event_type_value := event_type_value (form s);
              enabled_checked := enabled_checked (form s) |}.

Definition closeModal : M unit := set_modal "none" false.

Definition to_value (v : jsval) : string :=
  match v with
  | JNull => EmptyString
  | _ => ToString v
  end.

Definition editWebhook (id url event_type enabled : jsval) : M unit :=
  openModal ;;
  set_modalTitle "Edit Webhook" ;;
  set_form {| webhookId_value := to_value id; url_value := to_value url;
              event_type_value := to_value event_type;
              enabled_checked := truthy enabled |}.

(** *** Save *)

(** The synchronous part of [saveWebhook], up to the [fetch]. *)
Definition saveWebhook : M unit :=
  s <- get ;;
  let id := webhookId_value (form s) in
  let url := url_value (form s) in
  let event_type := event_type_value (form s) in
  let enabled := enabled_checked (form s) in
  let method := if truthy (JStr id) then "PUT" else "POST" in
  let apiUrl := if truthy (JStr id) then "/api/webhooks/" +:+ id else "/api/webhooks" in
  set_submit true "Saving..." ;;
  fetch method apiUrl (BJson url event_type enabled) KSaveWebhook.

Definition saveWebhook_settled (res : Result StatusData) : M unit :=
  match res with
  | Ok data =>
      if strict_eq_str (status data) "success" then
        closeModal ;; loadWebhooks
      else
        alert ("Failed: " +:+ ToString (message data))
  | Err err => alert ("Error: " +:+ err)
  end ;;
  set_submit false "Save".

(** *** Delete *)

Definition deleteWebhook (id : jsval) (answer : bool) : M unit :=
  emit (EConfirm "Are you sure you want to delete this webhook?") ;;
  if negb answer then skip
  else fetch "DELETE" ("/api/webhooks/" +:+ ToString id) BNone KDeleteWebhook.

Definition deleteWebhook_settled (res : Result StatusData) : M unit :=
  match res with
  | Ok data =>
      if strict_eq_str (status data) "success" then loadWebhooks
      else alert ("Failed: " +:+ ToString (message data))
  | Err err => alert ("Error: " +:+ err)
  end.

(** *** Vocabulary of the properties *)

(** Escaping as the specification words it: each of the five characters is
    replaced by its entity, every other character is left as it is. *)
Definition entity (c : ascii) : string :=
  if Ascii.eqb c "&"%char then "&amp;"
  else if Ascii.eqb c "<"%char then "&lt;"
  else if Ascii.eqb c ">"%char then "&gt;"
  else if Ascii.eqb c "034"%char then "&quot;"
  else if Ascii.eqb c "'"%char then "&#039;"
  else String c EmptyString.

Fixpoint escaped (text : string) : string :=
  match text with
  | EmptyString => EmptyString
  | String c rest => entity c +:+ escaped rest
  end.


(** *** Sample data *)

Definition blank_form : WebhookForm :=
  {| webhookId_value := EmptyString; url_value := EmptyString;
     event_type_value := EmptyString; enabled_checked := false |}.

Definition page_with (f : WebhookForm) : State :=
  {| tbody_rows := []; modal_display := "flex"; modal_fade_in := true;
     modalTitle_text := "Create Webhook"; form := f; form_default := blank_form;
     submit_disabled := false; submit_text := "Save";
     pending := ∅; next_req := 0 |}.

Definition new_hook : WebhookForm :=
  {| webhookId_value := EmptyString; url_value := "https://example.org/hook";
     event_type_value := "product.created"; enabled_checked := true |}.

Definition edited_hook : WebhookForm :=
  {| webhookId_value := "12"; url_value := "https://example.org/hook";
     event_type_value := "product.created"; enabled_checked := true |}.


End WebhooksPage.

(* ===================================================================== *)
(** ** The test button of a webhook row: testWebhook                       *)
(* ===================================================================== *)

Module WebhookTest.

(** A Test button of the table, as [testWebhook(id, this)] sees it. *)
Record Button : Type := { btn_disabled : bool; btn_text : string }.

Inductive Effect : Type :=
| EFetch (r : nat) (method url : string)
| EAlert (msg : string).

Record TestData : Type := {
  status : jsval; response_code : jsval; response_time : jsval; message : jsval
}.

(** The buttons of the rows by element, and the test requests in flight,
    each with the button its callbacks close over. *)
Record State : Type := {
  buttons : gmap nat Button;
  pending : gmap nat nat;
  next_req : nat
}.

Definition M (A : Type) : Type := Handler.M State Effect A.

Definition set_btn (btn : nat) (disabled : bool) (text : string) : M unit :=
  modify (fun s =>
    {| buttons := <[btn := {| btn_disabled := disabled; btn_text := text |}]> (buttons s);
       pending := pending s; next_req := next_req s |}).

Definition fetch (method url : string) (btn : nat) : M unit :=
  s <- get ;;
  let r := next_req s in
  modify (fun s =>
    {| buttons := buttons s; pending := <[r := btn]> (pending s); next_req := S r |}) ;;
  emit (EFetch r method url).

Definition alert (msg : string) : M unit := emit (EAlert msg).

(** The synchronous part of [testWebhook], up to the [fetch]. *)
Definition testWebhook (id : jsval) (btn : nat) : M unit :=
  set_btn btn true "Testing..." ;;
  fetch "POST" ("/api/webhooks/" +:+ ToString id +:+ "/test") btn.

(** The [.then], or the [.catch]; then the [.finally]. *)
Definition testWebhook_settled (btn : nat) (res : WebhooksPage.Result TestData) : M unit :=
  match res with
  | WebhooksPage.Ok data =>
      if strict_eq_str (status data) "success" then
        alert ("Webhook test successful! Response code: " +:+
               ToString (response_code data) +:+ ", Time: " +:+
               ToString (response_time data) +:+ "ms")
      else
        alert ("Webhook test failed: " +:+ ToString (message data))
  | WebhooksPage.Err err => alert ("Error testing webhook: " +:+ err)
  end ;;
  set_btn btn false "Test".

Inductive Event : Type :=
| TestClick (id : jsval) (btn : nat)
| TestSettled (r : nat) (res : WebhooksPage.Result TestData).

(** A click reaches the inline handler of a button that exists and is not
    disabled; a request settles once. *)
Definition handle (ev : Event) : M unit :=
  match ev with
  | TestClick id btn =>
      s <- get ;;
      match buttons s !! btn with
      | Some b => if btn_disabled b then skip else testWebhook id btn
      | None => skip
      end
  | TestSettled r res =>
      s <- get ;;
      match pending s !! r with
      | Some btn =>
          modify (fun s =>
            {| buttons := buttons s; pending := delete r (pending s);
               next_req := next_req s |}) ;;
          testWebhook_settled btn res
      | None => skip
      end
  end.

Definition step (ev : Event) (s : State) : State * list Effect :=
  exec (handle ev) s.

Fixpoint run (evs : list Event) (s : State) : State * list Effect :=
  match evs with
  | [] => (s, [])
  | ev :: rest =>
      let r1 := step ev s in
      let r2 := run rest r1.1 in
      (r2.1, r1.2 ++ r2.2)
  end.

(** *** Vocabulary of the properties *)

(** A freshly rendered table: every Test button enabled and labelled Test,
    no test in flight. *)
Definition rendered (s : State) : Prop :=
  (forall btn b, buttons s !! btn = Some b ->
     b = {| btn_disabled := false; btn_text := "Test" |}) /\
  pending s = ∅.

(** A test of button [btn] is in flight. *)
Definition testing (btn : nat) (s : State) : Prop :=
  exists r, pending s !! r = Some btn.

(** Each button is either idle (enabled, labelled Test, no test of it in
    flight) or busy (disabled, labelled Testing..., exactly one test of it
    in flight); tests in flight belong to buttons that exist. *)
Definition consistent (s : State) : Prop :=
  (forall btn b, buttons s !! btn = Some b ->
     (b = {| btn_disabled := false; btn_text := "Test" |} /\ ~ testing btn s) \/
     (b = {| btn_disabled := true; btn_text := "Testing..." |} /\ testing btn s)) /\
  (forall r1 r2 btn, pending s !! r1 = Some btn -> pending s !! r2 = Some btn -> r1 = r2) /\
  (forall r btn, pending s !! r = Some btn -> (r < next_req s)%nat /\ is_Some (buttons s !! btn)).

Definition three_rows : State :=
  {| buttons := <[0%nat := {| btn_disabled := false; btn_text := "Test" |}]>
               (<[1%nat := {| btn_disabled := false; btn_text := "Test" |}]>
               (<[2%nat := {| btn_disabled := false; btn_text := "Test" |}]> ∅));
     pending := ∅; next_req := 0 |}.

End WebhookTest.

(* ===================================================================== *)
(** ** Vocabulary for the flows of the product page                        *)
(* ===================================================================== *)

Module Flows.
Import ProductPage.

(** The events of the upload flow: the drop zone, the file input, retry,
    timer ticks and the settling of upload and progress requests. *)
Definition is_upload_event (ev : Event) : bool :=
  match ev with
  | UploadAreaClick | DragEnter | DragOver | DragLeave | Drop _
  | FileInputChange _ | RetryClick | TimerFire _
  | UploadSettled _ _ | ProgressSettled _ _ => true
  | _ => false
  end.

Definition is_progress_settled (ev : Event) : bool :=
  match ev with ProgressSettled _ _ => true | _ => false end.

(** What the upload flow owns, and what the product management owns. *)
Definition upload_side (s : State)
    : UploadView * option File * gmap nat jsval * nat :=
  (upload s, currentFile s, timers (rt s), next_timer (rt s)).

Definition crud_side (s : State)
    : Z * ListView * Modal * ProductForm * ProductForm * Button * bool :=
  (currentPage s, listing s, modal s, form s, form_default s, bulk_btn s,
   listeners s).

(** A request to the product API. *)
Definition is_api_request (e : Effect) : bool :=
  match e with
  | EFetch _ _ url _ => String.prefix "/api/" url
  | _ => false
  end.

(** A request that deletes: a DELETE, or the bulk delete. *)
Definition is_destructive (e : Effect) : bool :=
  match e with
  | EFetch _ method url _ =>
      String.eqb method "DELETE" || String.eqb url "/api/products/bulk_delete"
  | _ => false
  end.

(** A bulk delete is in flight. *)
Definition bulk_pending (s : State) : Prop :=
  exists r, pending (rt s) !! r = Some KBulkDelete.

(** The bulk-delete control guards its request: it is disabled exactly
    while a bulk delete is in flight, and there is never more than one. *)
Definition bulk_guarded (s : State) : Prop :=
  (btn_disabled (bulk_btn s) = true <-> bulk_pending s) /\
  (forall r1 r2, pending (rt s) !! r1 = Some KBulkDelete ->
                 pending (rt s) !! r2 = Some KBulkDelete -> r1 = r2) /\
  (forall r k, pending (rt s) !! r = Some k -> (r < next_req (rt s))%nat).


Definition progress_update : ProgressData :=
  {| state := JStr "PROGRESS"; progress := JNum 40; status := JUndefined |}.

End Flows.

(* ===================================================================== *)
(** ** Vocabulary for the webhooks page                                    *)
(* ===================================================================== *)

Module WebhookProps.

(** No character of [text] is one of the five that [escapeHtml] replaces. *)
Fixpoint plain (text : string) : bool :=
  match text with
  | EmptyString => true
  | String c rest => negb (WebhooksPage.special c) && plain rest
  end.

Definition is_text (v : jsval) : bool :=
  match v with JStr _ => true | _ => false end.

(** A webhook whose url and event type are strings. *)
Definition well_formed (w : WebhooksPage.Webhook) : bool :=
  is_text (WebhooksPage.w_url w) && is_text (WebhooksPage.w_event_type w).

(** The row of a well-formed webhook. *)
Definition row_html (w : WebhooksPage.Webhook) : string :=
  WebhooksPage.row_template w
    (WebhooksPage.escapeHtml (ToString (WebhooksPage.w_url w)))
    (WebhooksPage.escapeHtml (ToString (WebhooksPage.w_event_type w)))
    (WebhooksPage.escapeHtml (ToString (WebhooksPage.w_url w)))
    (WebhooksPage.escapeHtml (ToString (WebhooksPage.w_event_type w))).

Definition good_hook : WebhooksPage.Webhook :=
  {| WebhooksPage.w_id := JNum 1; WebhooksPage.w_url := JStr "https://a.example/x?y=1&z=2";
     WebhooksPage.w_event_type := JStr "product.created";
     WebhooksPage.w_enabled := JBool true |}.

Definition bad_hook : WebhooksPage.Webhook :=
  {| WebhooksPage.w_id := JNum 2; WebhooksPage.w_url := JNull;
     WebhooksPage.w_event_type := JStr "product.deleted";
     WebhooksPage.w_enabled := JBool false |}.

End WebhookProps.

(* ===================================================================== *)
(** ** Reasoning about handlers                                            *)
(* ===================================================================== *)

Section HandlerRules.
Context {S E : Type} (I : S -> Prop) (P : E -> Prop).

Lemma hoare_ret (Pre : S -> Prop) {A} (a : A) :
  (forall s, Pre s -> I s) -> hoare Pre (ret a) I P.
Proof. intros H s Hs. split; [apply H, Hs | constructor]. Qed.

Lemma hoare_get (Pre : S -> Prop) :
  (forall s, Pre s -> I s) -> hoare Pre get I P.
Proof. intros H s Hs. split; [apply H, Hs | constructor]. Qed.

Lemma hoare_modify (Pre : S -> Prop) (f : S -> S) :
  (forall s, Pre s -> I (f s)) -> hoare Pre (modify f) I P.
Proof. intros H s Hs. split; [apply H, Hs | constructor]. Qed.

Lemma hoare_emit (Pre : S -> Prop) (e : E) :
  (forall s, Pre s -> I s) -> P e -> hoare Pre (emit e) I P.
Proof.
  intros H He s Hs. split; [apply H, Hs | ].
  cbn. constructor; [exact He | constructor].
Qed.

Lemma hoare_bind (Pre : S -> Prop) {A B} (m : M S E A) (k : A -> M S E B) :
  hoare Pre m I P -> (forall a, hoare I (k a) I P) ->
  hoare Pre (bind m k) I P.
Proof.
  intros Hm Hk s Hs. destruct (Hm s Hs) as [H1 H2].
  destruct (Hk (m s).1.1 (m s).1.2 H1) as [H3 H4].
  split; [exact H3 | ]. cbn. apply Forall_app. split; assumption.
Qed.

(** Reading the state first: what follows starts from the state read. *)
Lemma hoare_get_bind (Pre : S -> Prop) {B} (k : S -> M S E B) :
  (forall s0, Pre s0 -> hoare (eq s0) (k s0) I P) ->
  hoare Pre (bind get k) I P.
Proof.
  intros Hk s Hs. destruct (Hk s Hs s eq_refl) as [H1 H2].
  split; [exact H1 | exact H2].
Qed.

End HandlerRules.

(** Case analysis on the innermost scrutinee of nested matches. *)
Ltac destruct_scrutinee x :=
  lazymatch x with
  | match ?y with _ => _ end => destruct_scrutinee y
  | _ => destruct x eqn:?
  end.

(** One rule at a time, by the shape of the handler; [leaf] discharges what
    the rules leave about single assignments and effects. *)
Ltac hoare_step leaf :=
  lazymatch goal with
  | |- hoare _ (bind get _) _ _ => apply hoare_get_bind; intros ? ?
  | |- hoare _ (bind _ _) _ _ => apply hoare_bind; [ | intros ? ]
  | |- hoare _ (ret _) _ _ => apply hoare_ret; leaf
  | |- hoare _ get _ _ => apply hoare_get; leaf
  | |- hoare _ (modify _) _ _ => apply hoare_modify; leaf
  | |- hoare _ (emit _) _ _ => apply hoare_emit; leaf
  | |- hoare _ (match ?x with _ => _ end) _ _ => destruct_scrutinee x
  end.

(** [unfolder] exposes the body of the page's named handlers. *)
Ltac hoare_auto unfolder leaf :=
  unfold inv;
  repeat first [ hoare_step leaf | progress unfolder | progress (unfold skip) ].

(* ===================================================================== *)
(** ** Facts about the JavaScript built-ins                                *)
(* ===================================================================== *)

Section JSFacts.

Lemma length_append (a b : string) :
  String.length (a +:+ b) = (String.length a + String.length b)%nat.
Proof. induction a as [|c a IH]; simpl; [reflexivity | now rewrite IH]. Qed.

Lemma substring_whole (t : string) : substring 0 (String.length t) t = t.
Proof. induction t as [|c t IH]; simpl; [reflexivity | now rewrite IH]. Qed.

Lemma substring_skip (p t : string) :
  substring (String.length p) (String.length t) (p +:+ t) = t.
Proof. induction p as [|c p IH]; simpl; [apply substring_whole | exact IH]. Qed.

(** A string is its first [n] characters followed by the rest. *)
Lemma substring_split (s : string) (n : nat) :
  (n <= String.length s)%nat ->
  s = substring 0 n s +:+ substring n (String.length s - n) s.
Proof.
  revert n. induction s as [|c s IH]; intros n Hn; cbn in Hn.
  - assert (n = 0%nat) as -> by lia. reflexivity.
  - destruct n as [|n].
    + simpl. now rewrite substring_whole.
    + simpl. change (String c (substring 0 n s) +:+ ?t)
        with (String c (substring 0 n s +:+ t)).
      f_equal. apply IH. lia.
Qed.

(** [endsWith] decides "has this suffix". *)
Lemma endsWith_spec (s search : string) :
  endsWith s search = true <-> exists stem, s = stem +:+ search.
Proof.
  unfold endsWith. split.
  - destruct (Nat.ltb_spec (String.length s) (String.length search)) as [Hlt|Hge];
      [discriminate | ].
    intros H. apply String.eqb_eq in H.
    exists (substring 0 (String.length s - String.length search) s).
    pose proof (substring_split s (String.length s - String.length search)
                  ltac:(lia)) as Hs.
    replace (String.length s - (String.length s - String.length search))%nat
      with (String.length search) in Hs by lia.
    rewrite H in Hs. exact Hs.
  - intros [stem ->]. rewrite length_append.
    destruct (Nat.ltb_spec (String.length stem + String.length search)
                           (String.length search)) as [Hlt|Hge]; [lia | ].
    replace (String.length stem + String.length search - String.length search)%nat
      with (String.length stem) by lia.
    rewrite substring_skip. apply String.eqb_refl.
Qed.

Lemma endsWith_false (s search : string) :
  endsWith s search = false <-> ~ exists stem, s = stem +:+ search.
Proof.
  rewrite <- endsWith_spec. destruct (endsWith s search); split; congruence.
Qed.


Lemma truthy_JStr (s : string) : truthy (JStr s) = true <-> s <> EmptyString.
Proof. destruct s; cbn; split; congruence. Qed.

Lemma strict_eq_str_spec (v : jsval) (lit : string) :
  strict_eq_str v lit = true <-> v = JStr lit.
Proof.
  destruct v; cbn; try (split; [discriminate | congruence]).
  rewrite String.eqb_eq. split; congruence.
Qed.

End JSFacts.

(* ===================================================================== *)
(** ** The product page: what every turn of the event loop preserves       *)
(* ===================================================================== *)

Import ProductPage.

Ltac unfold_handlers :=
  unfold handle, settle, when_listening, user_input,
    uploadCSV_settled, uploadCSV_then, uploadCSV_catch, handleFiles, drop_files,
    retry_click, pollProgress_tick, pollProgress_settled, pollProgress_then,
    pollProgress_catch, pollProgress, loadProducts_settled, renderProductsTable,
    openCreateModal, editProduct, openModal, closeModal, saveProduct,
    saveProduct_settled, deleteProduct, deleteProduct_settled, confirm,
    bulkDeleteProducts, bulkDeleteProducts_settled, loadProducts, uploadCSV,
    fetch, setInterval, clearInterval,
    set_status, set_container_display, set_bar_width, set_progress_text,
    set_retry_display, set_hover, set_currentFile, set_currentPage, set_pageInfo,
    set_tbody, set_modal_display, set_modalTitle, set_bulk_btn, alert,
    console_error.

Ltac page_auto leaf := hoare_auto ltac:(unfold_handlers) leaf.

Section Runs.

Lemma step_inv (I : State -> Prop) (P : Effect -> Prop) (ev : Event) (s : State) :
  inv I P (handle ev) -> I s -> I (step ev s).1 /\ Forall P (step ev s).2.
Proof. intros H Hs. exact (H s Hs). Qed.

(** What every handler keeps, a whole run keeps. *)
Lemma run_inv (I : State -> Prop) (P : Effect -> Prop) (evs : list Event) :
  (forall ev, ev ∈ evs -> inv I P (handle ev)) ->
  forall s, I s -> I (run evs s).1 /\ Forall P (run evs s).2.
Proof.
  induction evs as [|ev evs IH]; intros Hall s Hs; cbn.
  - split; [exact Hs | constructor].
  - destruct (step_inv I P ev s) as [H1 H2]; [apply Hall; left | exact Hs | ].
    destruct (IH (fun e He => Hall e (list_elem_of_further _ _ _ He)) _ H1)
      as [H3 H4].
    split; [exact H3 | apply Forall_app; split; assumption].
Qed.

Lemma run_app (evs1 evs2 : list Event) (s : State) :
  run (evs1 ++ evs2) s =
  ((run evs2 (run evs1 s).1).1, (run evs1 s).2 ++ (run evs2 (run evs1 s).1).2).
Proof.
  revert s. induction evs1 as [|ev evs1 IH]; intros s; cbn.
  - now destruct (run evs2 s).
  - rewrite IH. cbn. now rewrite app_assoc.
Qed.

(** In a run that keeps [I], every turn starts from a state satisfying
    [I]. *)
Lemma trace_inv (I : State -> Prop) (Q : Event -> list Effect -> Prop)
    (evs : list Event) :
  (forall ev, inv I (fun _ => True) (handle ev)) ->
  (forall ev s, I s -> Q ev (step ev s).2) ->
  forall s, I s -> Forall (fun t => Q t.1 t.2) (trace evs s).
Proof.
  intros Hinv HQ. induction evs as [|ev evs IH]; intros s Hs; cbn.
  - constructor.
  - constructor; [apply HQ, Hs | ].
    apply IH. exact (proj1 (step_inv _ _ ev s (Hinv ev) Hs)).
Qed.

End Runs.

Section Listing.

(** An input's value or the empty string is the value. *)
Lemma or_empty (x : string) : ToString (js_or (JStr x) (JStr EmptyString)) = x.
Proof. now destruct x. Qed.

(** What [loadProducts] does, in any state. *)
Lemma exec_loadProducts (s : State) :
  (exec loadProducts s).2 = [EFetch (next_req (rt s)) "GET" (products_url s) BNone].
Proof.
  unfold exec, loadProducts, products_url. cbn. rewrite !or_empty. reflexivity.
Qed.

Lemma products_url_is_reload (r : nat) (s : State) :
  is_reload (EFetch r "GET" (products_url s) BNone) = true.
Proof. reflexivity. Qed.

End Listing.

Section Invariants.

Ltac stopped_leaf :=
  try exact I; intros ? ?; subst; unfold stopped in *; cbn; try assumption;
  match goal with
  | H : _ /\ _ |- _ => destruct H; split;
      [ first [ rewrite lookup_insert_ne by lia; assumption
              | rewrite lookup_delete_None; right; assumption ]
      | lia ]
  end.

(** A polling loop that is stopped stays stopped, whatever happens. *)
Lemma handle_keeps_stopped (i : nat) (ev : Event) :
  inv (stopped i) (fun _ => True) (handle ev).
Proof. destruct ev; page_auto stopped_leaf. Qed.

Ltac wf_leaf :=
  try exact I; intros ? ?; subst; unfold wf in *; cbn; try assumption;
  match goal with
  | H : _ /\ _ |- _ => destruct H as [Ht Hp]; split; intros ? ?;
      rewrite ?lookup_insert, ?lookup_delete; repeat case_decide; subst;
      intros; simplify_eq; eauto using Nat.lt_lt_succ_r
  end.

Lemma handle_keeps_wf (ev : Event) : inv wf (fun _ => True) (handle ev).
Proof. destruct ev; page_auto wf_leaf. Qed.

Lemma freshly_loaded_wf (s : State) : freshly_loaded s -> wf s.
Proof.
  intros (_ & _ & _ & Ht & _ & Hp & _). split; intros ? ?.
  - rewrite Ht, lookup_empty. discriminate.
  - rewrite Hp, lookup_empty. discriminate.
Qed.

(** Every state the page can reach is well-formed. *)
Lemma reachable_wf (s0 : State) (evs : list Event) :
  freshly_loaded s0 -> wf (run evs s0).1.
Proof.
  intros H0. apply (run_inv wf (fun _ => True)).
  - intros ev _. apply handle_keeps_wf.
  - apply freshly_loaded_wf, H0.
Qed.

(** In a reachable state, a progress request in flight belongs to a loop
    whose handle was handed out. *)
Lemma reachable_poll_handle (s0 : State) (evs : list Event) (r i : nat) :
  freshly_loaded s0 ->
  pending (rt (run evs s0).1) !! r = Some (KProgress i) ->
  (i < next_timer (rt (run evs s0).1))%nat.
Proof. intros H0 Hp. exact (proj2 (reachable_wf s0 evs H0) r i Hp). Qed.

(** Only a tick of a timer asks for progress. *)
Lemma progress_only_from_timer (ev : Event) :
  (forall j, ev <> TimerFire j) ->
  inv (fun _ => True) (fun e => is_progress e = false) (handle ev).
Proof.
  intros Hev. destruct ev; try (exfalso; eapply Hev; reflexivity);
    page_auto ltac:(try exact I; try (intros; exact I); try reflexivity).
Qed.

End Invariants.

(* ===================================================================== *)
(** ** Upload and validation                                               *)
(* ===================================================================== *)

Section Upload.

Lemma file_ok_endsWith (f : File) :
  endsWith (file_name f) ".csv" = true <-> file_ok f.
Proof. apply endsWith_spec. Qed.

(** The file input and the drop zone both go through [handleFiles]. *)
Lemma step_FileInputChange (files : list File) (s : State) :
  step (FileInputChange files) s = exec (handleFiles files) s.
Proof. reflexivity. Qed.

Lemma step_Drop (file : File) (rest : list File) (s : State) :
  step (Drop (file :: rest)) s =
  exec (handleFiles (file :: rest)) (with_upload (upd_hover false) s).
Proof. reflexivity. Qed.

Lemma handleFiles_accept (file : File) (rest : list File) (s : State) :
  endsWith (file_name file) ".csv" = true ->
  (exec (handleFiles (file :: rest)) s).2 =
    [EFetch (next_req (rt s)) "POST" "/upload" (BFormData "file" file)] /\
  currentFile (exec (handleFiles (file :: rest)) s).1 = Some file.
Proof. intros H. unfold exec, handleFiles. rewrite H. split; reflexivity. Qed.

Lemma handleFiles_reject (file : File) (rest : list File) (s : State) :
  endsWith (file_name file) ".csv" = false ->
  exec (handleFiles (file :: rest)) s =
    (with_upload (upd_status "Please upload a valid CSV file.") s, []).
Proof. intros H. unfold exec, handleFiles. rewrite H. reflexivity. Qed.

(** The comparison is case-sensitive. *)
Example upper_case_suffix_rejected :
  (exec (handleFiles [ {| file_name := "DATA.CSV"; file_content := "a,b" |} ])
        blank_page).2 = [].
Proof. reflexivity. Qed.

(** C1. For every file, submitting it issues a network call exactly when
    its name ends with the literal suffix [.csv]: then one POST to
    [/upload] carrying the file leaves; otherwise no effect at all is
    performed (so no network call) and the status line shows the
    validation message. *)
Theorem C1_submit_iff_csv (file : File) (rest : list File) (s : State) :
  let out := exec (handleFiles (file :: rest)) s in
  (Exists (fun e => is_fetch e = true) out.2 <->
     exists stem, file_name file = stem +:+ ".csv") /\
  (out.2 = [EFetch (next_req (rt s)) "POST" "/upload" (BFormData "file" file)] <->
     exists stem, file_name file = stem +:+ ".csv") /\
  (out.2 = [] /\ status_text (upload out.1) = "Please upload a valid CSV file." <->
     ~ exists stem, file_name file = stem +:+ ".csv").
Proof.
  cbn zeta. rewrite <- endsWith_spec.
  destruct (endsWith (file_name file) ".csv") eqn:Hcsv.
  - destruct (handleFiles_accept file rest s Hcsv) as [Heff _]. rewrite Heff.
    repeat split; try congruence; try discriminate.
    + intros _. constructor. reflexivity.
    + intros [H _]. discriminate H.
  - rewrite (handleFiles_reject file rest s Hcsv). cbn.
    repeat split; try congruence; try discriminate.
    intros H. inversion H.
Qed.

(** *** The tracked file *)

Ltac files_leaf :=
  try exact I; intros; subst;
  unfold tracks_valid_file, uploads_valid_file in *; cbn in *;
  intros; simplify_eq;
  try match goal with
      | H : negb (endsWith _ _) = false |- _ =>
          apply negb_false_iff, file_ok_endsWith in H
      end;
  eauto.

(** The tracked file always passed validation, and so did every file
    sent. *)
Lemma handle_keeps_valid_file (ev : Event) :
  inv tracks_valid_file uploads_valid_file (handle ev).
Proof. destruct ev; page_auto files_leaf. Qed.

Ltac frame_leaf :=
  try exact I; intros; subst; cbn in *; try congruence;
  try match goal with
      | H : negb ?b = false, H' : context [ if ?b then _ else _ ] |- _ =>
          destruct b; discriminate
      end.

(** Only a file that passes validation replaces the tracked file. *)
Lemma handle_keeps_currentFile (c : option File) (ev : Event) :
  validated ev = None ->
  inv (fun s => currentFile s = c) (fun _ => True) (handle ev).
Proof. intros Hv. destruct ev; page_auto frame_leaf. Qed.

Lemma step_currentFile (ev : Event) (s : State) :
  currentFile (step ev s).1 =
  match validated ev with Some f => Some f | None => currentFile s end.
Proof.
  destruct (validated ev) as [f|] eqn:Hv.
  - destruct ev as [| | | |files|files| | | | | | | | | | | | | | | | | | | |];
      try discriminate Hv;
      destruct files as [|file rest]; try discriminate Hv; cbn in Hv;
      destruct (endsWith (file_name file) ".csv") eqn:Hcsv;
      try discriminate Hv; injection Hv as <-.
    + rewrite step_Drop. apply handleFiles_accept, Hcsv.
    + rewrite step_FileInputChange. apply handleFiles_accept, Hcsv.
  - exact (proj1 (step_inv _ _ ev s
                    (handle_keeps_currentFile (currentFile s) ev Hv) eq_refl)).
Qed.

Lemma run_currentFile (evs : list Event) (s : State) :
  currentFile (run evs s).1 = last_valid (currentFile s) evs.
Proof.
  revert s. induction evs as [|ev evs IH]; intros s; [reflexivity | ].
  change (run (ev :: evs) s).1 with (run evs (step ev s).1).1.
  rewrite IH, step_currentFile. reflexivity.
Qed.

Lemma step_RetryClick (s : State) :
  (step RetryClick s).2 =
  match currentFile s with
  | Some file => [EFetch (next_req (rt s)) "POST" "/upload" (BFormData "file" file)]
  | None => []
  end.
Proof. unfold step, exec, handle, retry_click. cbn. now destruct (currentFile s). Qed.

(** C9. From the freshly loaded page and after any sequence of events:
    the tracked file, if any, has a name ending in [.csv]; it is the last
    file that passed validation; a click on retry sends exactly that file
    once (nothing when no file ever passed); and no upload request in the
    whole history, the retry included, carries a file that validation
    rejects. *)
Theorem C9_retry_resubmits_last_valid (s0 : State) (evs : list Event) :
  freshly_loaded s0 ->
  let s := (run evs s0).1 in
  tracks_valid_file s /\
  currentFile s = last_valid None evs /\
  (step RetryClick s).2 =
    match last_valid None evs with
    | Some file => [EFetch (next_req (rt s)) "POST" "/upload" (BFormData "file" file)]
    | None => []
    end /\
  Forall uploads_valid_file (run (evs ++ [RetryClick]) s0).2.
Proof.
  intros H0. cbn zeta.
  assert (Hcur : currentFile s0 = None) by apply H0.
  assert (Hinit : tracks_valid_file s0).
  { intros f Hf. congruence. }
  assert (Hrun : forall l, tracks_valid_file (run l s0).1 /\
                           Forall uploads_valid_file (run l s0).2).
  { intros l. apply run_inv; [ | exact Hinit].
    intros ev _. apply handle_keeps_valid_file. }
  split; [apply Hrun | ].
  split; [rewrite run_currentFile, Hcur; reflexivity | ].
  split; [ | apply Hrun].
  rewrite step_RetryClick, run_currentFile, Hcur. reflexivity.
Qed.

Lemma blank_page_freshly_loaded : freshly_loaded blank_page.
Proof. repeat split. Defined.

(** A valid file is picked, then a rejected one is dropped: retry sends
    the valid one. *)
Lemma C9_witness :
  freshly_loaded blank_page /\
  (let s := (run [FileInputChange [sample_csv]; Drop [sample_txt]] blank_page).1 in
   tracks_valid_file s /\
   currentFile s =
     last_valid None [FileInputChange [sample_csv]; Drop [sample_txt]] /\
   (step RetryClick s).2 =
     match last_valid None [FileInputChange [sample_csv]; Drop [sample_txt]] with
     | Some file => [EFetch (next_req (rt s)) "POST" "/upload" (BFormData "file" file)]
     | None => []
     end /\
   Forall uploads_valid_file
     (run ([FileInputChange [sample_csv]; Drop [sample_txt]] ++ [RetryClick])
          blank_page).2).
Proof.
  split; [exact blank_page_freshly_loaded | ].
  exact (C9_retry_resubmits_last_valid blank_page
           [FileInputChange [sample_csv]; Drop [sample_txt]]
           blank_page_freshly_loaded).
Defined.

(** The same history, evaluated. *)
Example retry_after_rejected_drop :
  (step RetryClick
     (run [FileInputChange [sample_csv]; Drop [sample_txt]] blank_page).1).2 =
  [EFetch 1 "POST" "/upload" (BFormData "file" sample_csv)].
Proof. vm_compute. reflexivity. Qed.

End Upload.

(* ===================================================================== *)
(** ** Progress polling                                                    *)
(* ===================================================================== *)

Section Polling.

(** A settled progress request resumes the callbacks of the tick that
    issued it. *)
Lemma step_ProgressSettled (s : State) (r i : nat) (res : Result ProgressData) :
  pending (rt s) !! r = Some (KProgress i) ->
  step (ProgressSettled r res) s =
  exec (pollProgress_settled i res) (with_rt (upd_pending (delete r)) s).
Proof.
  intros Hp. unfold step, exec, handle, settle. cbn. rewrite Hp. reflexivity.
Qed.

(** A tick of a cleared timer does nothing. *)
Lemma step_TimerFire_cleared (i : nat) (s : State) :
  timers (rt s) !! i = None -> step (TimerFire i) s = (s, []).
Proof.
  intros Ht. unfold step, exec, handle. cbn. rewrite Ht. reflexivity.
Qed.

Lemma stopped_quiet (i : nat) (ev : Event) (s : State) :
  stopped i s -> quiet i ev (step ev s).2.
Proof.
  intros [Ht Hi]. split.
  - intros ->. now rewrite step_TimerFire_cleared.
  - intros Hex.
    assert (Hcase : (exists j, ev = TimerFire j) \/ (forall j, ev <> TimerFire j))
      by (destruct ev;
          first [ left; eexists; reflexivity | right; intros j; discriminate ]).
    destruct Hcase as [[j ->]|Hno].
    + exists j. split; [reflexivity | ]. intros ->.
      rewrite step_TimerFire_cleared in Hex by exact Ht. inversion Hex.
    + exfalso.
      assert (Hall : Forall (fun e => is_progress e = false) (step ev s).2).
      { apply (step_inv (fun _ => True)); [ | exact I].
        apply progress_only_from_timer, Hno. }
      apply Exists_exists in Hex as (e & He & Hp).
      rewrite Forall_forall in Hall. rewrite (Hall e He) in Hp. discriminate.
Qed.

(** Once stopped, a polling loop is silent for good. *)
Lemma stopped_silent (i : nat) (s : State) : stopped i s -> silent_from i s.
Proof.
  intros Hs evs.
  apply (trace_inv (stopped i) (quiet i)); [ | | exact Hs].
  - intros ev. apply handle_keeps_stopped.
  - intros ev s' Hs'. apply stopped_quiet, Hs'.
Qed.

(** Clearing the timer of a loop whose handle was handed out stops it. *)
Lemma cleared_stopped (i : nat) (s s' : State) :
  (i < next_timer (rt s))%nat ->
  timers (rt s') = delete i (timers (rt s)) ->
  next_timer (rt s') = next_timer (rt s) ->
  stopped i s'.
Proof.
  intros Hi Ht Hn. split; [rewrite Ht; apply lookup_delete_eq | now rewrite Hn].
Qed.

(** A response that does not carry SUCCESS triggers no reload. *)
Lemma no_reload_without_success (s : State) (r i : nat) (res : Result ProgressData) :
  pending (rt s) !! r = Some (KProgress i) ->
  (forall d, res = Ok d -> state d <> JStr "SUCCESS") ->
  (step (ProgressSettled r res) s).2 = [].
Proof.
  intros Hp Hno. rewrite (step_ProgressSettled s r i _ Hp).
  destruct res as [err|d]; [reflexivity | ].
  unfold exec, pollProgress_settled, pollProgress_then.
  destruct (strict_eq_str (state d) "SUCCESS") eqn:Hs.
  - apply strict_eq_str_spec in Hs. now destruct (Hno d eq_refl).
  - now destruct (strict_eq_str (state d) "FAILURE").
Qed.

Lemma step_without_success (ev : Event) (s : State) :
  polls_without_success ev = true -> List.filter is_reload (step ev s).2 = [].
Proof.
  destruct ev; try discriminate; intros Hev.
  - unfold step, exec, handle. cbn.
    now destruct (timers (rt s) !! interval).
  - destruct (pending (rt s) !! r) as [c|] eqn:Hp.
    + destruct c;
        try (unfold step, exec, handle, settle; cbn; rewrite Hp; reflexivity).
      rewrite (no_reload_without_success s r interval res Hp); [reflexivity | ].
      intros d -> Hd. cbn in Hev. rewrite Hd in Hev. discriminate Hev.
    + unfold step, exec, handle, settle. cbn. rewrite Hp. reflexivity.
Qed.

(** Polling without a SUCCESS reloads nothing. *)
Lemma run_without_success (evs : list Event) (s : State) :
  Forall (fun ev => polls_without_success ev = true) evs ->
  List.filter is_reload (run evs s).2 = [].
Proof.
  intros Hevs. revert s. induction Hevs as [|ev evs Hev _ IH]; intros s.
  - reflexivity.
  - cbn [run snd]. rewrite List.filter_app, (step_without_success ev s Hev), IH.
    reflexivity.
Qed.

(** C2. When a poll response of loop [i] carries state SUCCESS: the
    loop's timer is cleared and the loop never asks for progress again,
    whatever happens afterwards; the status line shows the completion
    message; the handler performs exactly one request, the reload of the
    product listing; and in a poll sequence in which this is the only
    response carrying SUCCESS, this reload is the only one. *)
Theorem C2_success_stops_polling (s0 : State) (before after : list Event)
    (r i : nat) (d : ProgressData) :
  pending (rt (run before s0).1) !! r = Some (KProgress i) ->
  (i < next_timer (rt (run before s0).1))%nat ->
  state d = JStr "SUCCESS" ->
  let s := (run before s0).1 in
  let out := step (ProgressSettled r (Ok d)) s in
  timers (rt out.1) !! i = None /\
  silent_from i out.1 /\
  status_text (upload out.1) = "Import Complete!" /\
  out.2 = [EFetch (next_req (rt s)) "GET" (products_url s) BNone] /\
  length (List.filter is_reload out.2) = 1%nat /\
  (Forall (fun ev => polls_without_success ev = true) (before ++ after) ->
   length (List.filter is_reload
             (run (before ++ ProgressSettled r (Ok d) :: after) s0).2) = 1%nat).
Proof.
  intros Hp Hi Hst. cbn zeta.
  set (s := (run before s0).1) in *.
  assert (Hout :
    let out := exec (pollProgress_settled i (Ok d))
                    (with_rt (upd_pending (delete r)) s) in
    timers (rt out.1) = delete i (timers (rt s)) /\
    next_timer (rt out.1) = next_timer (rt s) /\
    status_text (upload out.1) = "Import Complete!" /\
    out.2 = [EFetch (next_req (rt s)) "GET" (products_url s) BNone]).
  { unfold exec, pollProgress_settled, pollProgress_then. rewrite Hst. cbn.
    unfold products_url. rewrite !or_empty. repeat split. }
  cbn zeta in Hout. rewrite <- (step_ProgressSettled s r i _ Hp) in Hout.
  destruct Hout as (Ht & Hn & Hmsg & Heff).
  pose proof (cleared_stopped i s _ Hi Ht Hn) as Hstop.
  split; [apply Hstop | ].
  split; [apply stopped_silent, Hstop | ].
  split; [exact Hmsg | ].
  split; [exact Heff | ].
  split; [rewrite Heff; reflexivity | ].
  intros Hall. apply Forall_app in Hall as [Hb Ha].
  rewrite run_app. cbn [snd run]. fold s.
  rewrite !List.filter_app, (run_without_success before s0 Hb),
    (run_without_success after _ Ha), Heff.
  reflexivity.
Qed.

Lemma C2_witness :
  pending (rt (run [TimerFire 0] polling_page).1) !! 1%nat = Some (KProgress 0) /\
  (0 < next_timer (rt (run [TimerFire 0] polling_page).1))%nat /\
  state poll_success = JStr "SUCCESS" /\
  (let s := (run [TimerFire 0] polling_page).1 in
   let out := step (ProgressSettled 1 (Ok poll_success)) s in
   timers (rt out.1) !! 0%nat = None /\
   silent_from 0 out.1 /\
   status_text (upload out.1) = "Import Complete!" /\
   out.2 = [EFetch (next_req (rt s)) "GET" (products_url s) BNone] /\
   length (List.filter is_reload out.2) = 1%nat /\
   (Forall (fun ev => polls_without_success ev = true) ([TimerFire 0] ++ [TimerFire 0]) ->
    length (List.filter is_reload
              (run ([TimerFire 0] ++ ProgressSettled 1 (Ok poll_success) :: [TimerFire 0])
                   polling_page).2) = 1%nat)).
Proof.
  assert (H1 : pending (rt (run [TimerFire 0] polling_page).1) !! 1%nat
               = Some (KProgress 0)) by (vm_compute; reflexivity).
  assert (H2 : (0 < next_timer (rt (run [TimerFire 0] polling_page).1))%nat)
    by (vm_compute; lia).
  assert (H3 : state poll_success = JStr "SUCCESS") by reflexivity.
  split; [exact H1 | ]. split; [exact H2 | ]. split; [exact H3 | ].
  exact (C2_success_stops_polling polling_page [TimerFire 0] [TimerFire 0]
           1 0 poll_success H1 H2 H3).
Defined.

(** C4. When a poll request of loop [i] is rejected (transport failure or
    unparsable body): the loop's timer is cleared and the loop never asks
    for progress again, whatever happens afterwards; the handler itself
    issues no request; the status line shows the fetch-error message and
    the retry button is shown. *)
Theorem C4_poll_error_stops_polling (s : State) (r i : nat) (err : string) :
  pending (rt s) !! r = Some (KProgress i) ->
  (i < next_timer (rt s))%nat ->
  let out := step (ProgressSettled r (Err err)) s in
  timers (rt out.1) !! i = None /\
  silent_from i out.1 /\
  out.2 = [] /\
  status_text (upload out.1) = "Error fetching progress." /\
  retry_display (upload out.1) = "inline-block".
Proof.
  intros Hp Hi. cbn zeta. rewrite (step_ProgressSettled s r i _ Hp).
  assert (Hstop : stopped i (exec (pollProgress_settled i (Err err))
                                  (with_rt (upd_pending (delete r)) s)).1).
  { apply (cleared_stopped i s); [exact Hi | reflexivity | reflexivity]. }
  split; [apply Hstop | ].
  split; [apply stopped_silent, Hstop | ].
  repeat split.
Qed.

Lemma C4_witness :
  pending (rt polling_page) !! 1%nat = Some (KProgress 0) /\
  (0 < next_timer (rt polling_page))%nat /\
  (let out := step (ProgressSettled 1 (Err "TypeError: Failed to fetch")) polling_page in
   timers (rt out.1) !! 0%nat = None /\
   silent_from 0 out.1 /\
   out.2 = [] /\
   status_text (upload out.1) = "Error fetching progress." /\
   retry_display (upload out.1) = "inline-block").
Proof.
  assert (H1 : pending (rt polling_page) !! 1%nat = Some (KProgress 0))
    by (vm_compute; reflexivity).
  assert (H2 : (0 < next_timer (rt polling_page))%nat) by (vm_compute; lia).
  split; [exact H1 | ]. split; [exact H2 | ].
  exact (C4_poll_error_stops_polling polling_page 1 0 _ H1 H2).
Defined.

(** C3, as stated, fails: for a FAILURE response whose status field is
    [disk full], polling stops, but the status line does not show
    [disk full]: it shows the text prefixed by the script. *)
Lemma C3_counterexample :
  ~ (forall (s : State) (r i : nat) (d : ProgressData),
       pending (rt s) !! r = Some (KProgress i) ->
       (i < next_timer (rt s))%nat ->
       state d = JStr "FAILURE" ->
       timers (rt (step (ProgressSettled r (Ok d)) s).1) !! i = None /\
       status_text (upload (step (ProgressSettled r (Ok d)) s).1) =
         claimed_failure_text d).
Proof.
  intros H.
  specialize (H polling_page 1%nat 0%nat poll_failure).
  assert (H1 : pending (rt polling_page) !! 1%nat = Some (KProgress 0))
    by (vm_compute; reflexivity).
  assert (H2 : (0 < next_timer (rt polling_page))%nat) by (vm_compute; lia).
  destruct (H H1 H2 eq_refl) as [_ Hmsg].
  vm_compute in Hmsg. discriminate Hmsg.
Qed.

(** C3, amended. When a poll response of loop [i] carries state FAILURE:
    the loop's timer is cleared and the loop never asks for progress
    again; the handler issues no request; the retry button is shown; and
    the status line shows [Failed: ] followed by the response's status
    field when that field is present and truthy, and [Failed: Error]
    otherwise (field absent, null or empty). *)
Theorem C3_failure_message (s : State) (r i : nat) (d : ProgressData) :
  pending (rt s) !! r = Some (KProgress i) ->
  (i < next_timer (rt s))%nat ->
  state d = JStr "FAILURE" ->
  let out := step (ProgressSettled r (Ok d)) s in
  timers (rt out.1) !! i = None /\
  silent_from i out.1 /\
  out.2 = [] /\
  status_text (upload out.1) = prefixed_failure_text d /\
  retry_display (upload out.1) = "inline-block".
Proof.
  intros Hp Hi Hst. cbn zeta. rewrite (step_ProgressSettled s r i _ Hp).
  assert (Hout :
    let out := exec (pollProgress_settled i (Ok d))
                    (with_rt (upd_pending (delete r)) s) in
    timers (rt out.1) = delete i (timers (rt s)) /\
    next_timer (rt out.1) = next_timer (rt s) /\
    out.2 = [] /\
    status_text (upload out.1) = prefixed_failure_text d /\
    retry_display (upload out.1) = "inline-block").
  { unfold exec, pollProgress_settled, pollProgress_then, prefixed_failure_text.
    rewrite Hst. cbn. unfold js_or. destruct (truthy (status d)); repeat split. }
  cbn zeta in Hout. destruct Hout as (Ht & Hn & Heff & Hmsg & Hretry).
  pose proof (cleared_stopped i s _ Hi Ht Hn) as Hstop.
  split; [apply Hstop | ].
  split; [apply stopped_silent, Hstop | ].
  repeat split; assumption.
Qed.

Lemma C3_witness :
  pending (rt polling_page) !! 1%nat = Some (KProgress 0) /\
  (0 < next_timer (rt polling_page))%nat /\
  state poll_failure = JStr "FAILURE" /\
  (let out := step (ProgressSettled 1 (Ok poll_failure)) polling_page in
   timers (rt out.1) !! 0%nat = None /\
   silent_from 0 out.1 /\
   out.2 = [] /\
   status_text (upload out.1) = prefixed_failure_text poll_failure /\
   retry_display (upload out.1) = "inline-block").
Proof.
  assert (H1 : pending (rt polling_page) !! 1%nat = Some (KProgress 0))
    by (vm_compute; reflexivity).
  assert (H2 : (0 < next_timer (rt polling_page))%nat) by (vm_compute; lia).
  assert (H3 : state poll_failure = JStr "FAILURE") by reflexivity.
  split; [exact H1 | ]. split; [exact H2 | ]. split; [exact H3 | ].
  exact (C3_failure_message polling_page 1 0 poll_failure H1 H2 H3).
Defined.

(** The messages of the two sample responses, evaluated. *)
Example failure_text_shown :
  status_text (upload (step (ProgressSettled 1 (Ok poll_failure)) polling_page).1)
  = "Failed: disk full".
Proof. vm_compute. reflexivity. Qed.

Example failure_text_absent :
  status_text (upload (step (ProgressSettled 1
      (Ok {| state := JStr "FAILURE"; progress := JUndefined; status := JUndefined |}))
      polling_page).1)
  = "Failed: Error".
Proof. vm_compute. reflexivity. Qed.

(** An empty status field falls back as an absent one does. *)
Example failure_text_empty :
  status_text (upload (step (ProgressSettled 1
      (Ok {| state := JStr "FAILURE"; progress := JNum 40; status := JStr EmptyString |}))
      polling_page).1)
  = "Failed: Error".
Proof. vm_compute. reflexivity. Qed.

(** Responses still in flight when the loop stops are each handled on
    their own: two ticks answered with SUCCESS reload the listing twice. *)
Example overlapping_ticks_each_reload :
  List.filter is_reload
    (run [TimerFire 0;
          ProgressSettled 1 (Ok poll_success);
          ProgressSettled 2 (Ok poll_success);
          TimerFire 0] polling_page).2 =
  [EFetch 3 "GET" "/api/products?page=1&per_page=20&search=&active=" BNone;
   EFetch 4 "GET" "/api/products?page=1&per_page=20&search=&active=" BNone].
Proof. vm_compute. reflexivity. Qed.

End Polling.

(* ===================================================================== *)
(** ** Product listing, save and bulk delete                               *)
(* ===================================================================== *)

Section Crud.

(** *** Saving a product *)

Lemma step_FormSubmit (s : State) :
  listeners s = true -> step FormSubmit s = exec saveProduct s.
Proof. intros H. unfold step, exec, handle, when_listening. cbn. now rewrite H. Qed.

Lemma saveProduct_blocked (s : State) :
  sku_value (form s) = EmptyString \/ name_value (form s) = EmptyString ->
  exec saveProduct s = (s, [EAlert "SKU and Name are required."]).
Proof.
  intros H. unfold exec, saveProduct. cbn.
  destruct H as [-> | ->]; cbn; [reflexivity | ].
  now destruct (sku_value (form s)).
Qed.

Lemma saveProduct_sent (s : State) :
  sku_value (form s) <> EmptyString -> name_value (form s) <> EmptyString ->
  (exec saveProduct s).2 =
    [EFetch (next_req (rt s)) "POST" "/api/products" (BJson (form s))].
Proof.
  intros Hsku Hname. unfold exec, saveProduct. cbn.
  destruct (sku_value (form s)); [congruence | ].
  destruct (name_value (form s)); [congruence | ].
  reflexivity.
Qed.

(** C5. A submission of the product form with an empty sku or an empty
    name performs exactly one effect, the validation alert: no request is
    sent.  The page state is untouched, so the modal stays as it was. *)
Theorem C5_save_requires_sku_and_name (s : State) :
  listeners s = true ->
  sku_value (form s) = EmptyString \/ name_value (form s) = EmptyString ->
  let out := step FormSubmit s in
  out.2 = [EAlert "SKU and Name are required."] /\
  List.filter is_fetch out.2 = [] /\
  out.1 = s /\
  modal out.1 = modal s.
Proof.
  intros Hl Hempty. cbn zeta.
  rewrite (step_FormSubmit s Hl), (saveProduct_blocked s Hempty).
  repeat split.
Qed.

Lemma C5_witness :
  listeners loaded_page = true /\
  (sku_value (form loaded_page) = EmptyString \/
   name_value (form loaded_page) = EmptyString) /\
  (let out := step FormSubmit loaded_page in
   out.2 = [EAlert "SKU and Name are required."] /\
   List.filter is_fetch out.2 = [] /\
   out.1 = loaded_page /\
   modal out.1 = modal loaded_page).
Proof.
  assert (H1 : listeners loaded_page = true) by reflexivity.
  assert (H2 : sku_value (form loaded_page) = EmptyString \/
               name_value (form loaded_page) = EmptyString)
    by (left; reflexivity).
  split; [exact H1 | ]. split; [exact H2 | ].
  exact (C5_save_requires_sku_and_name loaded_page H1 H2).
Defined.

(** *** The page label *)

Lemma step_ProductsSettled (s : State) (r : nat) (res : Result ProductsData) :
  pending (rt s) !! r = Some KLoadProducts ->
  step (ProductsSettled r res) s =
  exec (loadProducts_settled res) (with_rt (upd_pending (delete r)) s).
Proof.
  intros Hp. unfold step, exec, handle, settle. cbn. rewrite Hp. reflexivity.
Qed.





(** A missing count reads as one page. *)
Example page_label_without_total :
  page_label {| products := []; page := JNum 1; total := None |} = "Page 1 of 1".
Proof. reflexivity. Qed.

(** *** Bulk delete *)

Lemma step_BulkDeleteClick (s : State) (answer : bool) :
  listeners s = true -> btn_disabled (bulk_btn s) = false ->
  step (BulkDeleteClick answer) s = exec (bulkDeleteProducts answer) s.
Proof.
  intros Hl Hd. unfold step, exec, handle, when_listening. cbn.
  rewrite Hl. cbn. rewrite Hd. reflexivity.
Qed.

Lemma step_BulkSettled (s : State) (r : nat) (res : Result BulkData) :
  pending (rt s) !! r = Some KBulkDelete ->
  step (BulkSettled r res) s =
  exec (bulkDeleteProducts_settled res) (with_rt (upd_pending (delete r)) s).
Proof.
  intros Hp. unfold step, exec, handle, settle. cbn. rewrite Hp. reflexivity.
Qed.

Ltac bulk_leaf :=
  try exact I; intros; subst; unfold bulk_in_flight in *; cbn in *;
  repeat match goal with H : _ /\ _ |- _ => destruct H end;
  try match goal with
      | H : bulk_btn ?s = _, H' : btn_disabled (bulk_btn ?s) = false |- _ =>
          rewrite H in H'; discriminate H'
      end;
  repeat split; try assumption; try lia;
  rewrite ?lookup_insert_ne by lia;
  rewrite ?lookup_delete_ne by (intros ->; congruence);
  try assumption.

(** While a bulk delete is in flight, nothing but its own settling
    touches the trigger or the waiting continuation. *)
Lemma handle_keeps_bulk_in_flight (r : nat) (ev : Event) :
  is_bulk_settled ev = false ->
  inv (bulk_in_flight r) (fun _ => True) (handle ev).
Proof. intros Hev. destruct ev; try discriminate Hev; page_auto bulk_leaf. Qed.

Lemma bulk_settled_restores (s : State) (r : nat) (res : Result BulkData) :
  pending (rt s) !! r = Some KBulkDelete ->
  bulk_btn (step (BulkSettled r res) s).1 =
    {| btn_disabled := false; btn_text := "Delete All Products" |}.
Proof.
  intros Hp. rewrite (step_BulkSettled s r res Hp).
  unfold exec, bulkDeleteProducts_settled.
  destruct res as [err|data]; [reflexivity | ].
  now destruct (strict_eq_str (bulk_status data) "success").
Qed.

Lemma bulk_settled_success (s : State) (r : nat) (data : BulkData) :
  pending (rt s) !! r = Some KBulkDelete ->
  bulk_status data = JStr "success" ->
  (step (BulkSettled r (Ok data)) s).2 =
    [EAlert ("All products deleted (" +:+ ToString (deleted_count data) +:+ ")");
     EFetch (next_req (rt s)) "GET" (products_url s) BNone].
Proof.
  intros Hp Hs. rewrite (step_BulkSettled s r _ Hp).
  unfold exec, bulkDeleteProducts_settled. rewrite Hs. cbn.
  unfold products_url. rewrite !or_empty. reflexivity.
Qed.

(** C7. A click on the enabled bulk-delete control labelled
    [Delete All Products]: the confirmation prompt comes first, and when
    it is declined nothing else happens; when it is confirmed, one POST to
    [/api/products/bulk_delete] follows the prompt and the control is
    disabled and reads [Deleting...]; it stays so through every turn until
    the request settles; when the request settles, whatever the outcome,
    the control is enabled and carries its label again; and on a
    success response the deleted count is alerted and the listing is
    reloaded. *)
Theorem C7_bulk_delete (s : State) (evs : list Event) (res : Result BulkData) :
  listeners s = true ->
  bulk_btn s = {| btn_disabled := false; btn_text := "Delete All Products" |} ->
  Forall (fun ev => is_bulk_settled ev = false) evs ->
  let declined := step (BulkDeleteClick false) s in
  let clicked := step (BulkDeleteClick true) s in
  let waiting := (run evs clicked.1).1 in
  let settled := step (BulkSettled (next_req (rt s)) res) waiting in
  declined = (s, [EConfirm "Are you sure? This cannot be undone."]) /\
  clicked.2 = [EConfirm "Are you sure? This cannot be undone.";
               EFetch (next_req (rt s)) "POST" "/api/products/bulk_delete" BNone] /\
  bulk_btn clicked.1 = {| btn_disabled := true; btn_text := "Deleting..." |} /\
  bulk_btn waiting = {| btn_disabled := true; btn_text := "Deleting..." |} /\
  bulk_btn settled.1 = bulk_btn s /\
  (forall data, res = Ok data -> bulk_status data = JStr "success" ->
     settled.2 =
       [EAlert ("All products deleted (" +:+ ToString (deleted_count data) +:+ ")");
        EFetch (next_req (rt waiting)) "GET" (products_url waiting) BNone]).
Proof.
  intros Hl Hbtn Hevs. cbn zeta.
  assert (Hd : btn_disabled (bulk_btn s) = false) by now rewrite Hbtn.
  rewrite !(step_BulkDeleteClick s _ Hl Hd).
  assert (Hflight : bulk_in_flight (next_req (rt s))
                      (exec (bulkDeleteProducts true) s).1).
  { unfold bulk_in_flight, exec, bulkDeleteProducts. cbn.
    rewrite lookup_insert_eq. repeat split. lia. }
  assert (Hwait : bulk_in_flight (next_req (rt s))
                    (run evs (exec (bulkDeleteProducts true) s).1).1).
  { apply (run_inv (bulk_in_flight (next_req (rt s))) (fun _ => True));
      [ | exact Hflight].
    intros ev Hev. apply handle_keeps_bulk_in_flight.
    rewrite Forall_forall in Hevs. apply Hevs, Hev. }
  destruct Hwait as (Hp & _ & Hw).
  split; [reflexivity | ].
  split; [reflexivity | ].
  split; [reflexivity | ].
  split; [exact Hw | ].
  split; [rewrite Hbtn; apply bulk_settled_restores, Hp | ].
  intros data -> Hs. apply bulk_settled_success; assumption.
Qed.

Lemma C7_witness :
  listeners loaded_page = true /\
  bulk_btn loaded_page =
    {| btn_disabled := false; btn_text := "Delete All Products" |} /\
  Forall (fun ev => is_bulk_settled ev = false) [NextPageClick; BulkDeleteClick true] /\
  (let declined := step (BulkDeleteClick false) loaded_page in
   let clicked := step (BulkDeleteClick true) loaded_page in
   let waiting := (run [NextPageClick; BulkDeleteClick true] clicked.1).1 in
   let settled := step (BulkSettled (next_req (rt loaded_page)) (Ok bulk_success))
                       waiting in
   declined = (loaded_page, [EConfirm "Are you sure? This cannot be undone."]) /\
   clicked.2 = [EConfirm "Are you sure? This cannot be undone.";
                EFetch (next_req (rt loaded_page)) "POST"
                       "/api/products/bulk_delete" BNone] /\
   bulk_btn clicked.1 = {| btn_disabled := true; btn_text := "Deleting..." |} /\
   bulk_btn waiting = {| btn_disabled := true; btn_text := "Deleting..." |} /\
   bulk_btn settled.1 = bulk_btn loaded_page /\
   (forall data, Ok bulk_success = Ok data -> bulk_status data = JStr "success" ->
      settled.2 =
        [EAlert ("All products deleted (" +:+ ToString (deleted_count data) +:+ ")");
         EFetch (next_req (rt waiting)) "GET" (products_url waiting) BNone])).
Proof.
  assert (H1 : listeners loaded_page = true) by reflexivity.
  assert (H2 : bulk_btn loaded_page =
               {| btn_disabled := false; btn_text := "Delete All Products" |})
    by reflexivity.
  assert (H3 : Forall (fun ev => is_bulk_settled ev = false)
                      [NextPageClick; BulkDeleteClick true])
    by (repeat constructor).
  split; [exact H1 | ]. split; [exact H2 | ]. split; [exact H3 | ].
  exact (C7_bulk_delete loaded_page [NextPageClick; BulkDeleteClick true]
           (Ok bulk_success) H1 H2 H3).
Defined.

(** The scenario of the specification, evaluated: seven products deleted. *)
Example bulk_delete_scenario :
  (run [BulkDeleteClick true; BulkSettled 1 (Ok bulk_success)] loaded_page).2 =
  [EConfirm "Are you sure? This cannot be undone.";
   EFetch 1 "POST" "/api/products/bulk_delete" BNone;
   EAlert "All products deleted (7)";
   EFetch 2 "GET" "/api/products?page=1&per_page=20&search=&active=" BNone].
Proof. vm_compute. reflexivity. Qed.

End Crud.

(* ===================================================================== *)
(** ** Save conventions and escaping                                       *)
(* ===================================================================== *)

Section Saving.

Lemma saveWebhook_request (w : WebhooksPage.State) :
  (exec WebhooksPage.saveWebhook w).2 =
    [WebhooksPage.EFetch (WebhooksPage.next_req w)
       (if is_empty (WebhooksPage.webhookId_value (WebhooksPage.form w))
        then "POST" else "PUT")
       (if is_empty (WebhooksPage.webhookId_value (WebhooksPage.form w))
        then "/api/webhooks"
        else "/api/webhooks/" +:+ WebhooksPage.webhookId_value (WebhooksPage.form w))
       (WebhooksPage.BJson
          (WebhooksPage.url_value (WebhooksPage.form w))
          (WebhooksPage.event_type_value (WebhooksPage.form w))
          (WebhooksPage.enabled_checked (WebhooksPage.form w)))].
Proof.
  unfold exec, WebhooksPage.saveWebhook. cbn.
  now destruct (WebhooksPage.webhookId_value (WebhooksPage.form w)).
Qed.

(** C8. A product save that passes validation sends one POST to
    [/api/products], whatever the id field of the form holds; a webhook
    save sends one PUT to [/api/webhooks/{id}] when the id field of the
    form is not empty, and one POST to [/api/webhooks] when it is. *)
Theorem C8_save_methods (s : State) (id : string)
    (w_edit w_new : WebhooksPage.State) :
  listeners s = true ->
  sku_value (form s) <> EmptyString ->
  name_value (form s) <> EmptyString ->
  WebhooksPage.webhookId_value (WebhooksPage.form w_edit) <> EmptyString ->
  WebhooksPage.webhookId_value (WebhooksPage.form w_new) = EmptyString ->
  (step FormSubmit (with_form (upd_productId id) s)).2 =
    [EFetch (next_req (rt s)) "POST" "/api/products"
            (BJson (upd_productId id (form s)))] /\
  (exec WebhooksPage.saveWebhook w_edit).2 =
    [WebhooksPage.EFetch (WebhooksPage.next_req w_edit) "PUT"
       ("/api/webhooks/" +:+ WebhooksPage.webhookId_value (WebhooksPage.form w_edit))
       (WebhooksPage.BJson
          (WebhooksPage.url_value (WebhooksPage.form w_edit))
          (WebhooksPage.event_type_value (WebhooksPage.form w_edit))
          (WebhooksPage.enabled_checked (WebhooksPage.form w_edit)))] /\
  (exec WebhooksPage.saveWebhook w_new).2 =
    [WebhooksPage.EFetch (WebhooksPage.next_req w_new) "POST" "/api/webhooks"
       (WebhooksPage.BJson
          (WebhooksPage.url_value (WebhooksPage.form w_new))
          (WebhooksPage.event_type_value (WebhooksPage.form w_new))
          (WebhooksPage.enabled_checked (WebhooksPage.form w_new)))].
Proof.
  intros Hl Hsku Hname Hid Hnew. split; [ | split].
  - rewrite step_FormSubmit by exact Hl.
    apply (saveProduct_sent (with_form (upd_productId id) s)); assumption.
  - rewrite saveWebhook_request.
    destruct (WebhooksPage.webhookId_value (WebhooksPage.form w_edit));
      [congruence | reflexivity].
  - rewrite saveWebhook_request, Hnew. reflexivity.
Qed.

Lemma C8_witness :
  listeners filled_page = true /\
  sku_value (form filled_page) <> EmptyString /\
  name_value (form filled_page) <> EmptyString /\
  WebhooksPage.webhookId_value
    (WebhooksPage.form (WebhooksPage.page_with WebhooksPage.edited_hook))
    <> EmptyString /\
  WebhooksPage.webhookId_value
    (WebhooksPage.form (WebhooksPage.page_with WebhooksPage.new_hook))
    = EmptyString /\
  ((step FormSubmit (with_form (upd_productId "12") filled_page)).2 =
     [EFetch (next_req (rt filled_page)) "POST" "/api/products"
             (BJson (upd_productId "12" (form filled_page)))] /\
   (exec WebhooksPage.saveWebhook (WebhooksPage.page_with WebhooksPage.edited_hook)).2 =
     [WebhooksPage.EFetch
        (WebhooksPage.next_req (WebhooksPage.page_with WebhooksPage.edited_hook)) "PUT"
        ("/api/webhooks/" +:+
         WebhooksPage.webhookId_value
           (WebhooksPage.form (WebhooksPage.page_with WebhooksPage.edited_hook)))
        (WebhooksPage.BJson
           (WebhooksPage.url_value
              (WebhooksPage.form (WebhooksPage.page_with WebhooksPage.edited_hook)))
           (WebhooksPage.event_type_value
              (WebhooksPage.form (WebhooksPage.page_with WebhooksPage.edited_hook)))
           (WebhooksPage.enabled_checked
              (WebhooksPage.form (WebhooksPage.page_with WebhooksPage.edited_hook))))] /\
   (exec WebhooksPage.saveWebhook (WebhooksPage.page_with WebhooksPage.new_hook)).2 =
     [WebhooksPage.EFetch
        (WebhooksPage.next_req (WebhooksPage.page_with WebhooksPage.new_hook)) "POST"
        "/api/webhooks"
        (WebhooksPage.BJson
           (WebhooksPage.url_value
              (WebhooksPage.form (WebhooksPage.page_with WebhooksPage.new_hook)))
           (WebhooksPage.event_type_value
              (WebhooksPage.form (WebhooksPage.page_with WebhooksPage.new_hook)))
           (WebhooksPage.enabled_checked
              (WebhooksPage.form (WebhooksPage.page_with WebhooksPage.new_hook))))]).
Proof.
  assert (H1 : listeners filled_page = true) by reflexivity.
  assert (H2 : sku_value (form filled_page) <> EmptyString) by discriminate.
  assert (H3 : name_value (form filled_page) <> EmptyString) by discriminate.
  assert (H4 : WebhooksPage.webhookId_value
                 (WebhooksPage.form (WebhooksPage.page_with WebhooksPage.edited_hook))
               <> EmptyString) by discriminate.
  assert (H5 : WebhooksPage.webhookId_value
                 (WebhooksPage.form (WebhooksPage.page_with WebhooksPage.new_hook))
               = EmptyString) by reflexivity.
  split; [exact H1 | ]. split; [exact H2 | ]. split; [exact H3 | ].
  split; [exact H4 | ]. split; [exact H5 | ].
  exact (C8_save_methods filled_page "12"
           (WebhooksPage.page_with WebhooksPage.edited_hook)
           (WebhooksPage.page_with WebhooksPage.new_hook) H1 H2 H3 H4 H5).
Defined.

(** The two webhook saves, evaluated. *)
Example webhook_save_requests :
  (exec WebhooksPage.saveWebhook (WebhooksPage.page_with WebhooksPage.edited_hook)).2 =
    [WebhooksPage.EFetch 0 "PUT" "/api/webhooks/12"
       (WebhooksPage.BJson "https://example.org/hook" "product.created" true)] /\
  (exec WebhooksPage.saveWebhook (WebhooksPage.page_with WebhooksPage.new_hook)).2 =
    [WebhooksPage.EFetch 0 "POST" "/api/webhooks"
       (WebhooksPage.BJson "https://example.org/hook" "product.created" true)].
Proof. split; reflexivity. Qed.

End Saving.

Section Escaping.

Lemma escapeHtml_cons (c : ascii) (text : string) :
  WebhooksPage.escapeHtml (String c text) =
  WebhooksPage.entity c +:+ WebhooksPage.escapeHtml text.
Proof.
  unfold WebhooksPage.escapeHtml, WebhooksPage.entity. cbn [replace_class].
  unfold WebhooksPage.special, WebhooksPage.map, WebhooksPage.amp,
    WebhooksPage.lt, WebhooksPage.gt, WebhooksPage.quot, WebhooksPage.apos.
  cbn [obj_get].
  rewrite !(Ascii.eqb_sym _ c).
  destruct (Ascii.eqb c "&") eqn:E1; [reflexivity | ].
  destruct (Ascii.eqb c "<") eqn:E2; [reflexivity | ].
  destruct (Ascii.eqb c ">") eqn:E3; [reflexivity | ].
  destruct (Ascii.eqb c "034") eqn:E4; [reflexivity | ].
  destruct (Ascii.eqb c "'") eqn:E5; reflexivity.
Qed.

(** The script's escaping is the escaping of the specification. *)
Lemma escapeHtml_escaped (text : string) :
  WebhooksPage.escapeHtml text = WebhooksPage.escaped text.
Proof.
  induction text as [|c text IH]; [reflexivity | ].
  rewrite escapeHtml_cons, IH. reflexivity.
Qed.




Lemma tbody_after_render (p : Product) (ps : list Product) (s : State) :
  tbody_rows (listing (exec (renderProductsTable (p :: ps)) s).1) =
  List.map product_row (p :: ps).
Proof. reflexivity. Qed.


End Escaping.

(* ===================================================================== *)
(** ** More on the upload flow                                             *)
(* ===================================================================== *)

Section UploadFlow.
Import Flows.

(** X1. An empty file list: a drop without files is ignored after the hover
    mark is removed, whereas a change of the file input that selects nothing
    throws. Neither sends anything, and neither touches the tracked file, the
    status line or the timers. *)
Theorem empty_selection (s : State) :
  step (Drop []) s = (with_upload (upd_hover false) s, []) /\
  step (FileInputChange []) s = (s, [EUncaught "TypeError"]) /\
  currentFile (step (Drop []) s).1 = currentFile s /\
  status_text (upload (step (Drop []) s).1) = status_text (upload s) /\
  rt (step (Drop []) s).1 = rt s.
Proof. repeat split. Qed.

Lemma step_UploadSettled (s : State) (r : nat) (res : Result UploadData) :
  pending (rt s) !! r = Some KUpload ->
  step (UploadSettled r res) s =
  exec (uploadCSV_settled res) (with_rt (upd_pending (delete r)) s).
Proof.
  intros Hp. unfold step, exec, handle, settle. cbn. rewrite Hp. reflexivity.
Qed.

(** X2. When an upload request settles with a truthy task id, nothing is
    sent yet and nothing on screen changes: a new polling loop is installed
    under a fresh handle, and the next tick of that loop asks for the
    progress of exactly that task. *)
Theorem upload_accepted_starts_poll (s : State) (r : nat) (data : UploadData) :
  pending (rt s) !! r = Some KUpload ->
  truthy (task_id data) = true ->
  let out := step (UploadSettled r (Ok data)) s in
  out.2 = [] /\
  upload out.1 = upload s /\
  timers (rt out.1) = <[next_timer (rt s) := task_id data]> (timers (rt s)) /\
  (step (TimerFire (next_timer (rt s))) out.1).2 =
    [EFetch (next_req (rt s)) "GET" ("/progress/" +:+ ToString (task_id data)) BNone].
Proof.
  intros Hp Ht. cbn zeta. rewrite (step_UploadSettled s r _ Hp).
  unfold exec, uploadCSV_settled, uploadCSV_then. rewrite Ht.
  repeat split. unfold step, exec, handle. cbn.
  rewrite lookup_insert_eq. reflexivity.
Qed.

Lemma upload_accepted_witness :
  pending (rt (step (FileInputChange [sample_csv]) blank_page).1) !! 0%nat = Some KUpload /\
  truthy (task_id {| task_id := JStr "abc" |}) = true /\
  (let out := step (UploadSettled 0 (Ok {| task_id := JStr "abc" |}))
                   (step (FileInputChange [sample_csv]) blank_page).1 in
   out.2 = [] /\
   upload out.1 = upload (step (FileInputChange [sample_csv]) blank_page).1 /\
   timers (rt out.1) =
     <[next_timer (rt (step (FileInputChange [sample_csv]) blank_page).1)
       := task_id {| task_id := JStr "abc" |}]>
       (timers (rt (step (FileInputChange [sample_csv]) blank_page).1)) /\
   (step (TimerFire (next_timer (rt (step (FileInputChange [sample_csv]) blank_page).1)))
         out.1).2 =
     [EFetch (next_req (rt (step (FileInputChange [sample_csv]) blank_page).1)) "GET"
        ("/progress/" +:+ ToString (task_id {| task_id := JStr "abc" |})) BNone]).
Proof.
  assert (H1 : pending (rt (step (FileInputChange [sample_csv]) blank_page).1) !! 0%nat
               = Some KUpload) by (vm_compute; reflexivity).
  assert (H2 : truthy (task_id {| task_id := JStr "abc" |}) = true) by reflexivity.
  split; [exact H1 | ]. split; [exact H2 | ].
  exact (upload_accepted_starts_poll _ 0%nat {| task_id := JStr "abc" |} H1 H2).
Defined.

(** X3. When an upload request is rejected, or its response carries no
    task id (absent, null, empty, 0 or false), the status line reads
    [Upload failed. Please try again.] and the retry button is shown; no
    polling loop is started and nothing is sent: there is no automatic
    retry. *)
Theorem upload_failure_offers_retry (s : State) (r : nat) (res : Result UploadData) :
  pending (rt s) !! r = Some KUpload ->
  (forall data, res = Ok data -> truthy (task_id data) = false) ->
  let out := step (UploadSettled r res) s in
  out.2 = [] /\
  status_text (upload out.1) = "Upload failed. Please try again." /\
  retry_display (upload out.1) = "inline-block" /\
  timers (rt out.1) = timers (rt s) /\
  currentFile out.1 = currentFile s.
Proof.
  intros Hp Hno. cbn zeta. rewrite (step_UploadSettled s r _ Hp).
  unfold exec, uploadCSV_settled, uploadCSV_then.
  destruct res as [err|data]; [repeat split | ].
  rewrite (Hno data eq_refl). repeat split.
Qed.

Lemma upload_failure_witness :
  pending (rt (step (FileInputChange [sample_csv]) blank_page).1) !! 0%nat = Some KUpload /\
  (forall data, Ok {| task_id := JNull |} = Ok data -> truthy (task_id data) = false) /\
  (let out := step (UploadSettled 0 (Ok {| task_id := JNull |}))
                   (step (FileInputChange [sample_csv]) blank_page).1 in
   out.2 = [] /\
   status_text (upload out.1) = "Upload failed. Please try again." /\
   retry_display (upload out.1) = "inline-block" /\
   timers (rt out.1) = timers (rt (step (FileInputChange [sample_csv]) blank_page).1) /\
   currentFile out.1 = currentFile (step (FileInputChange [sample_csv]) blank_page).1).
Proof.
  assert (H1 : pending (rt (step (FileInputChange [sample_csv]) blank_page).1) !! 0%nat
               = Some KUpload) by (vm_compute; reflexivity).
  assert (H2 : forall data, Ok {| task_id := JNull |} = Ok data ->
                            truthy (task_id data) = false)
    by (intros data [= <-]; reflexivity).
  split; [exact H1 | ]. split; [exact H2 | ].
  exact (upload_failure_offers_retry _ 0%nat (Ok {| task_id := JNull |}) H1 H2).
Defined.



(** The spec's scenario, evaluated: 40 percent, then completion. *)
Example progress_then_success :
  bar_width (upload (step (ProgressSettled 1 (Ok progress_update)) polling_page).1)
  = "40%".
Proof. vm_compute. reflexivity. Qed.

(** What settling a poll request does to the timers: nothing, or it clears
    the loop of the request. *)
Lemma poll_settled_timers (j : nat) (res : Result ProgressData) (s : State) :
  (timers (rt (exec (pollProgress_settled j res) s).1) = timers (rt s) \/
   timers (rt (exec (pollProgress_settled j res) s).1) = delete j (timers (rt s))) /\
  next_timer (rt (exec (pollProgress_settled j res) s).1) = next_timer (rt s).
Proof.
  unfold exec, pollProgress_settled, pollProgress_then.
  destruct res as [err|d]; [split; [right | ]; reflexivity | ].
  destruct (strict_eq_str (state d) "SUCCESS") eqn:E1;
    destruct (strict_eq_str (state d) "FAILURE") eqn:E2; cbn;
    try (split; [right | ]; reflexivity).
  - split; [right | reflexivity]. now rewrite delete_delete_eq.
  - split; [left | ]; reflexivity.
Qed.

Ltac loop_leaf :=
  first
    [ exact I
    | intros; subst; cbn in *;
      repeat match goal with H : _ /\ _ |- _ => destruct H end;
      split;
      [ first [ assumption | rewrite lookup_insert_ne by lia; assumption ] | lia ] ].

Lemma handle_keeps_loop (i : nat) (t : jsval) (ev : Event) :
  is_progress_settled ev = false ->
  inv (fun s => timers (rt s) !! i = Some t /\ (i < next_timer (rt s))%nat)
      (fun _ => True) (handle ev).
Proof. intros Hev. destruct ev; try discriminate Hev; page_auto loop_leaf. Qed.

Lemma step_keeps_loop (ev : Event) (s : State) (i : nat) (t : jsval) :
  timers (rt s) !! i = Some t ->
  (i < next_timer (rt s))%nat ->
  (forall r res, ev = ProgressSettled r res ->
                 pending (rt s) !! r <> Some (KProgress i)) ->
  timers (rt (step ev s).1) !! i = Some t /\ (i < next_timer (rt (step ev s).1))%nat.
Proof.
  intros Ht Hi Hown.
  destruct (is_progress_settled ev) eqn:Hev.
  - destruct ev; try discriminate Hev.
    specialize (Hown r res eq_refl).
    destruct (pending (rt s) !! r) as [c|] eqn:Hp.
    + destruct c as [| j | | | |];
        try (unfold step, exec, handle, settle; cbn; rewrite Hp; cbn;
             split; assumption).
      assert (j <> i) by congruence.
      rewrite (step_ProgressSettled s r j res Hp).
      destruct (poll_settled_timers j res (with_rt (upd_pending (delete r)) s))
        as [[-> | ->] ->]; cbn.
      * split; assumption.
      * rewrite lookup_delete_ne by assumption. split; assumption.
    + unfold step, exec, handle, settle. cbn. rewrite Hp. cbn. split; assumption.
  - exact (proj1 (step_inv _ _ ev s (handle_keeps_loop i t ev Hev) (conj Ht Hi))).
Qed.

(** X5. Nothing but a response to one of its own requests stops a polling
    loop. In particular a loop survives every sequence of events that
    settles no progress request (a second upload, a retry, any product
    management): its timer stays, and its next tick still asks for the
    progress of its task. *)
Theorem polling_stopped_only_by_own_response (s : State) (ev : Event)
    (evs : list Event) (i : nat) (t : jsval) :
  timers (rt s) !! i = Some t ->
  (i < next_timer (rt s))%nat ->
  (forall r res, ev = ProgressSettled r res ->
                 pending (rt s) !! r <> Some (KProgress i)) ->
  Forall (fun e => is_progress_settled e = false) evs ->
  timers (rt (step ev s).1) !! i = Some t /\
  timers (rt (run evs s).1) !! i = Some t /\
  (step (TimerFire i) (run evs s).1).2 =
    [EFetch (next_req (rt (run evs s).1)) "GET" ("/progress/" +:+ ToString t) BNone].
Proof.
  intros Ht Hi Hown Hevs.
  split; [apply step_keeps_loop; assumption | ].
  assert (Hrun : timers (rt (run evs s).1) !! i = Some t /\
                 (i < next_timer (rt (run evs s).1))%nat).
  { refine (proj1 (run_inv
               (fun s => timers (rt s) !! i = Some t /\ (i < next_timer (rt s))%nat)
               (fun _ => True) evs _ s (conj Ht Hi))).
    intros e He. apply handle_keeps_loop.
    rewrite Forall_forall in Hevs. apply Hevs, He. }
  split; [apply Hrun | ].
  unfold step, exec, handle. cbn. rewrite (proj1 Hrun). reflexivity.
Qed.

Lemma polling_survives_witness :
  timers (rt polling_page) !! 0%nat = Some (JStr "abc") /\
  (0 < next_timer (rt polling_page))%nat /\
  (forall r res, FileInputChange [sample_csv] = ProgressSettled r res ->
                 pending (rt polling_page) !! r <> Some (KProgress 0)) /\
  Forall (fun e => is_progress_settled e = false)
         [FileInputChange [sample_csv]; RetryClick] /\
  (timers (rt (step (FileInputChange [sample_csv]) polling_page).1) !! 0%nat
     = Some (JStr "abc") /\
   timers (rt (run [FileInputChange [sample_csv]; RetryClick] polling_page).1) !! 0%nat
     = Some (JStr "abc") /\
   (step (TimerFire 0)
         (run [FileInputChange [sample_csv]; RetryClick] polling_page).1).2 =
     [EFetch (next_req (rt (run [FileInputChange [sample_csv]; RetryClick]
                                polling_page).1))
             "GET" ("/progress/" +:+ ToString (JStr "abc")) BNone]).
Proof.
  assert (H1 : timers (rt polling_page) !! 0%nat = Some (JStr "abc"))
    by (vm_compute; reflexivity).
  assert (H2 : (0 < next_timer (rt polling_page))%nat) by (vm_compute; lia).
  assert (H3 : forall r res, FileInputChange [sample_csv] = ProgressSettled r res ->
                 pending (rt polling_page) !! r <> Some (KProgress 0))
    by (intros r res [=]).
  assert (H4 : Forall (fun e => is_progress_settled e = false)
                      [FileInputChange [sample_csv]; RetryClick])
    by (repeat constructor).
  split; [exact H1 | ]. split; [exact H2 | ]. split; [exact H3 | ]. split; [exact H4 | ].
  exact (polling_stopped_only_by_own_response polling_page
           (FileInputChange [sample_csv]) [FileInputChange [sample_csv]; RetryClick]
           0 (JStr "abc") H1 H2 H3 H4).
Defined.

End UploadFlow.

(* ===================================================================== *)
(** ** More on the product listing                                         *)
(* ===================================================================== *)

Section ListingFlow.
Import Flows.

Ltac page_leaf :=
  first
    [ exact I
    | intros; subst; cbn in *;
      repeat match goal with
             | H : (_ <? _) = true |- _ => apply Z.ltb_lt in H
             end;
      lia ].

Lemma handle_keeps_page (ev : Event) :
  inv (fun s => 1 <= currentPage s) (fun _ => True) (handle ev).
Proof. destruct ev; page_auto page_leaf. Qed.

(** X6. The page cursor never drops below 1: from the freshly loaded page
    and through any sequence of events, [currentPage >= 1]. *)
Theorem currentPage_at_least_one (s0 : State) (evs : list Event) :
  freshly_loaded s0 -> 1 <= currentPage (run evs s0).1.
Proof.
  intros H0.
  refine (proj1 (run_inv (fun s => 1 <= currentPage s) (fun _ => True) evs _ s0 _)).
  - intros ev _. apply handle_keeps_page.
  - destruct H0 as (_ & -> & _). lia.
Qed.

Lemma currentPage_witness :
  freshly_loaded blank_page /\
  1 <= currentPage (run [DOMContentLoaded; PrevPageClick; NextPageClick; PrevPageClick;
                         PrevPageClick] blank_page).1.
Proof.
  split; [exact blank_page_freshly_loaded | ].
  exact (currentPage_at_least_one blank_page
           [DOMContentLoaded; PrevPageClick; NextPageClick; PrevPageClick; PrevPageClick]
           blank_page_freshly_loaded).
Defined.

Lemma step_NextPageClick (s : State) :
  listeners s = true ->
  step NextPageClick s =
    exec loadProducts (with_currentPage (currentPage s + 1) s).
Proof. intros Hl. unfold step, exec, handle, when_listening. cbn. now rewrite Hl. Qed.

Lemma step_PrevPageClick (s : State) :
  listeners s = true -> 1 < currentPage s ->
  step PrevPageClick s =
    exec loadProducts (with_currentPage (currentPage s - 1) s).
Proof.
  intros Hl Hp. unfold step, exec, handle, when_listening. cbn. rewrite Hl. cbn.
  apply Z.ltb_lt in Hp. now rewrite Hp.
Qed.

Lemma step_PrevPageClick_first (s : State) :
  currentPage s <= 1 -> step PrevPageClick s = (s, []).
Proof.
  intros Hp. unfold step, exec, handle, when_listening. cbn.
  destruct (listeners s); [ | reflexivity]. cbn.
  destruct (Z.ltb_spec 1 (currentPage s)); [lia | reflexivity].
Qed.

Lemma loadProducts_state (s : State) :
  currentPage (exec loadProducts s).1 = currentPage s /\
  listeners (exec loadProducts s).1 = listeners s /\
  listing (exec loadProducts s).1 = listing s /\
  next_req (rt (exec loadProducts s).1) = S (next_req (rt s)).
Proof. repeat split. Qed.

Lemma next_page_n_times (n : nat) (s : State) :
  listeners s = true ->
  currentPage (run (repeat NextPageClick n) s).1 = currentPage s + Z.of_nat n /\
  length (List.filter is_reload (run (repeat NextPageClick n) s).2) = n.
Proof.
  revert s. induction n as [|n IH]; intros s Hl.
  - cbn. split; [lia | reflexivity].
  - cbn [repeat run fst snd]. rewrite (step_NextPageClick s Hl).
    destruct (IH (exec loadProducts (with_currentPage (currentPage s + 1) s)).1 Hl)
      as [Hp Hr].
    split.
    + rewrite Hp. cbn. lia.
    + rewrite List.filter_app, length_app, Hr, exec_loadProducts. reflexivity.
Qed.

(** X7. Paging. On the first page the previous-page button does nothing:
    no request, no change. From any page, next followed by previous asks for
    the following page and then for the page one started from, and leaves
    the cursor where it was. The next-page button has no upper bound: [n]
    clicks advance the cursor by [n] and send [n] requests, whatever the
    number of pages the server reported. *)
Theorem paging (s : State) (n : nat) :
  listeners s = true ->
  1 <= currentPage s ->
  (currentPage s = 1 -> step PrevPageClick s = (s, [])) /\
  currentPage (run [NextPageClick; PrevPageClick] s).1 = currentPage s /\
  (run [NextPageClick; PrevPageClick] s).2 =
    [EFetch (next_req (rt s)) "GET"
            (products_url (with_currentPage (currentPage s + 1) s)) BNone;
     EFetch (S (next_req (rt s))) "GET" (products_url s) BNone] /\
  currentPage (run (repeat NextPageClick n) s).1 = currentPage s + Z.of_nat n /\
  length (List.filter is_reload (run (repeat NextPageClick n) s).2) = n.
Proof.
  intros Hl Hp.
  split; [intros H1; apply step_PrevPageClick_first; lia | ].
  assert (Hrun : run [NextPageClick; PrevPageClick] s =
                 ((step PrevPageClick (step NextPageClick s).1).1,
                  (step NextPageClick s).2 ++
                  (step PrevPageClick (step NextPageClick s).1).2)).
  { cbn [run fst snd]. now rewrite app_nil_r. }
  rewrite Hrun. rewrite (step_NextPageClick s Hl).
  rewrite step_PrevPageClick; [ | exact Hl | cbn; lia].
  cbn [fst snd]. rewrite !exec_loadProducts.
  split; [cbn; lia | ].
  split; [ | apply next_page_n_times, Hl].
  cbn [app]. do 2 f_equal. f_equal.
  unfold products_url. cbn.
  replace (currentPage s + 1 - 1) with (currentPage s) by lia. reflexivity.
Qed.

Lemma paging_witness :
  listeners loaded_page = true /\
  1 <= currentPage loaded_page /\
  ((currentPage loaded_page = 1 -> step PrevPageClick loaded_page = (loaded_page, [])) /\
   currentPage (run [NextPageClick; PrevPageClick] loaded_page).1
     = currentPage loaded_page /\
   (run [NextPageClick; PrevPageClick] loaded_page).2 =
     [EFetch (next_req (rt loaded_page)) "GET"
             (products_url (with_currentPage (currentPage loaded_page + 1) loaded_page))
             BNone;
      EFetch (S (next_req (rt loaded_page))) "GET" (products_url loaded_page) BNone] /\
   currentPage (run (repeat NextPageClick 3) loaded_page).1
     = currentPage loaded_page + Z.of_nat 3 /\
   length (List.filter is_reload (run (repeat NextPageClick 3) loaded_page).2) = 3%nat).
Proof.
  assert (H1 : listeners loaded_page = true) by reflexivity.
  assert (H2 : 1 <= currentPage loaded_page) by (vm_compute; discriminate).
  split; [exact H1 | ]. split; [exact H2 | ].
  exact (paging loaded_page 3 H1 H2).
Defined.

(** Applying the filter goes back to the first page, wherever the
    cursor was: the request asks for page 1 with the search text and the
    active filter of the inputs inserted as they are. *)
Theorem filter_resets_page (s : State) :
  listeners s = true ->
  currentPage (step FilterClick s).1 = 1 /\
  (step FilterClick s).2 =
    [EFetch (next_req (rt s)) "GET"
       ("/api/products?page=1&per_page=20&search=" +:+ search_value (listing s) +:+
        "&active=" +:+ activeFilter_value (listing s)) BNone].
Proof.
  intros Hl. unfold step, exec, handle, when_listening. cbn. rewrite Hl. cbn.
  rewrite !or_empty. split; reflexivity.
Qed.

Lemma filter_witness :
  listeners (run (repeat NextPageClick 4) loaded_page).1 = true /\
  currentPage (step FilterClick (run (repeat NextPageClick 4) loaded_page).1).1 = 1 /\
  (step FilterClick (run (repeat NextPageClick 4) loaded_page).1).2 =
    [EFetch (next_req (rt (run (repeat NextPageClick 4) loaded_page).1)) "GET"
       ("/api/products?page=1&per_page=20&search=" +:+
        search_value (listing (run (repeat NextPageClick 4) loaded_page).1) +:+
        "&active=" +:+
        activeFilter_value (listing (run (repeat NextPageClick 4) loaded_page).1))
       BNone].
Proof.
  assert (H1 : listeners (run (repeat NextPageClick 4) loaded_page).1 = true)
    by (vm_compute; reflexivity).
  split; [exact H1 | ].
  exact (filter_resets_page _ H1).
Defined.

(** X8. Rendering a product list replaces the rows of the table: with no
    product there is exactly one row, the placeholder; with N products
    there are exactly N rows, one per product in the order received.  Rows
    rendered earlier never remain. *)
Theorem rows_match_products (s : State) (r : nat) (data : ProductsData) :
  pending (rt s) !! r = Some KLoadProducts ->
  let rows := tbody_rows (listing (step (ProductsSettled r (Ok data)) s).1) in
  (products data = [] -> rows = [no_products_row]) /\
  (products data <> [] -> rows = List.map product_row (products data)) /\
  length rows = Nat.max 1 (length (products data)).
Proof.
  intros Hp. cbn zeta. rewrite (step_ProductsSettled s r _ Hp).
  unfold exec, loadProducts_settled, renderProductsTable.
  destruct (products data) as [|p ps]; cbn.
  - repeat split. congruence.
  - repeat split; [discriminate | ]. now rewrite length_map.
Qed.

Lemma rows_witness :
  pending (rt loaded_page) !! 0%nat = Some KLoadProducts /\
  (let rows := tbody_rows (listing (step (ProductsSettled 0 (Ok first_page_of_45))
                                         loaded_page).1) in
   (products first_page_of_45 = [] -> rows = [no_products_row]) /\
   (products first_page_of_45 <> [] ->
    rows = List.map product_row (products first_page_of_45)) /\
   length rows = Nat.max 1 (length (products first_page_of_45))).
Proof.
  assert (H1 : pending (rt loaded_page) !! 0%nat = Some KLoadProducts)
    by (vm_compute; reflexivity).
  split; [exact H1 | ].
  exact (rows_match_products loaded_page 0%nat first_page_of_45 H1).
Defined.

(** X9. A failed page load is reported and leaves the table and the page
    label as they were; but the cursor moved by the click that asked for
    the page stays moved, so after a failed next-page the cursor is one
    ahead of what is displayed. *)
Theorem failed_load_keeps_table (s : State) (err : string) :
  listeners s = true ->
  let out := run [NextPageClick; ProductsSettled (next_req (rt s)) (Err err)] s in
  out.2 = [EFetch (next_req (rt s)) "GET"
                  (products_url (with_currentPage (currentPage s + 1) s)) BNone;
           EAlert "Failed to load products.";
           EConsoleError err] /\
  listing out.1 = listing s /\
  currentPage out.1 = currentPage s + 1.
Proof.
  intros Hl. cbn zeta. cbn [run fst snd].
  rewrite (step_NextPageClick s Hl), app_nil_r.
  rewrite step_ProductsSettled by (cbn; apply lookup_insert_eq).
  rewrite exec_loadProducts. repeat split.
Qed.

Lemma failed_load_witness :
  listeners loaded_page = true /\
  (let out := run [NextPageClick;
                   ProductsSettled (next_req (rt loaded_page)) (Err "TypeError")]
                  loaded_page in
   out.2 = [EFetch (next_req (rt loaded_page)) "GET"
                   (products_url (with_currentPage (currentPage loaded_page + 1)
                                                   loaded_page)) BNone;
            EAlert "Failed to load products.";
            EConsoleError "TypeError"] /\
   listing out.1 = listing loaded_page /\
   currentPage out.1 = currentPage loaded_page + 1).
Proof.
  assert (H1 : listeners loaded_page = true) by reflexivity.
  split; [exact H1 | ].
  exact (failed_load_keeps_table loaded_page "TypeError" H1).
Defined.

End ListingFlow.

(* ===================================================================== *)
(** ** More on the product form, delete and bulk delete                    *)
(* ===================================================================== *)

Section CrudFlow.
Import Flows.

Lemma string_of_Z_not_empty (n : Z) : string_of_Z n <> EmptyString.
Proof.
  unfold string_of_Z, NilZero.string_of_int.
  destruct (Z.to_int n) as [d|d]; [ | discriminate].
  unfold NilZero.string_of_uint. destruct d; discriminate.
Qed.

(** X10. Opening the modal fixes every field of the form: after Add
    Product the fields hold the form's defaults and the id is empty, after
    Edit they hold the arguments of the call. Nothing typed or loaded into
    the form before (an unsaved edit, the id of a product edited earlier)
    survives. *)
Theorem opening_modal_fixes_form (s : State) (before : ProductForm)
    (id sku name description active : jsval) :
  listeners s = true ->
  let dirty := with_form (fun _ => before) s in
  form (step CreateClick dirty).1 = upd_productId EmptyString (form_default s) /\
  form (step (EditClick id sku name description active) dirty).1 =
    {| productId_value := to_value id; sku_value := to_value sku;
       name_value := to_value name; description_value := to_value description;
       active_checked := truthy active |} /\
  modal (step CreateClick dirty).1 =
    {| modal_display := "block"; modalTitle_text := "Create Product" |} /\
  modal (step (EditClick id sku name description active) dirty).1 =
    {| modal_display := "block"; modalTitle_text := "Edit Product" |}.
Proof.
  intros Hl. cbn zeta. unfold step, exec, handle, when_listening. cbn.
  rewrite Hl. repeat split.
Qed.

Lemma opening_modal_witness :
  listeners loaded_page = true /\
  (let dirty := with_form (fun _ => form filled_page) loaded_page in
   form (step CreateClick dirty).1 = upd_productId EmptyString (form_default loaded_page) /\
   form (step (EditClick (JNum 7) (JStr "S") (JStr "N") JNull (JBool true)) dirty).1 =
     {| productId_value := to_value (JNum 7); sku_value := to_value (JStr "S");
        name_value := to_value (JStr "N"); description_value := to_value JNull;
        active_checked := truthy (JBool true) |} /\
   modal (step CreateClick dirty).1 =
     {| modal_display := "block"; modalTitle_text := "Create Product" |} /\
   modal (step (EditClick (JNum 7) (JStr "S") (JStr "N") JNull (JBool true)) dirty).1 =
     {| modal_display := "block"; modalTitle_text := "Edit Product" |}).
Proof.
  assert (H1 : listeners loaded_page = true) by reflexivity.
  split; [exact H1 | ].
  exact (opening_modal_fixes_form loaded_page (form filled_page)
           (JNum 7) (JStr "S") (JStr "N") JNull (JBool true) H1).
Defined.

(** X11. Edit followed by submit: editing a product with a numeric id and
    a non-empty sku and name, and submitting the form untouched, sends one
    POST to [/api/products] whose body carries that id in decimal and the
    very sku, name, description and active flag the edit was opened
    with. *)
Theorem edit_then_save (s : State) (id : Z) (sku name description : string)
    (active : bool) :
  listeners s = true ->
  sku <> EmptyString ->
  name <> EmptyString ->
  (run [EditClick (JNum id) (JStr sku) (JStr name) (JStr description) (JBool active);
        FormSubmit] s).2 =
    [EFetch (next_req (rt s)) "POST" "/api/products"
       (BJson {| productId_value := string_of_Z id; sku_value := sku;
                 name_value := name; description_value := description;
                 active_checked := active |})].
Proof.
  intros Hl Hsku Hname. cbn [run fst snd]. rewrite app_nil_r.
  set (s1 := (step (EditClick (JNum id) (JStr sku) (JStr name) (JStr description)
                              (JBool active)) s).1).
  assert (Hl1 : listeners s1 = true) by exact Hl.
  rewrite (step_FormSubmit s1 Hl1).
  rewrite (saveProduct_sent s1); [reflexivity | exact Hsku | exact Hname].
Qed.

Lemma edit_then_save_witness :
  listeners loaded_page = true /\
  "SKU-1"%string <> EmptyString /\
  "Lamp"%string <> EmptyString /\
  (run [EditClick (JNum 12) (JStr "SKU-1") (JStr "Lamp") (JStr "desk") (JBool true);
        FormSubmit] loaded_page).2 =
    [EFetch (next_req (rt loaded_page)) "POST" "/api/products"
       (BJson {| productId_value := string_of_Z 12; sku_value := "SKU-1";
                 name_value := "Lamp"; description_value := "desk";
                 active_checked := true |})].
Proof.
  assert (H1 : listeners loaded_page = true) by reflexivity.
  assert (H2 : "SKU-1"%string <> EmptyString) by discriminate.
  assert (H3 : "Lamp"%string <> EmptyString) by discriminate.
  split; [exact H1 | ]. split; [exact H2 | ]. split; [exact H3 | ].
  exact (edit_then_save loaded_page 12 "SKU-1" "Lamp" "desk" true H1 H2 H3).
Defined.

Lemma step_SaveSettled (s : State) (r : nat) (res : Result SaveData) :
  pending (rt s) !! r = Some KSaveProduct ->
  step (SaveSettled r res) s =
  exec (saveProduct_settled res) (with_rt (upd_pending (delete r)) s).
Proof.
  intros Hp. unfold step, exec, handle, settle. cbn. rewrite Hp. reflexivity.
Qed.

(** X12. How a save ends. When the response's status is [success] the
    modal is closed and the listing is reloaded, and nothing is alerted.
    With any other status the server's message is alerted after [Error: ]
    (the text [Failed to save product] when there is no message), the modal
    and the form stay as they are and nothing is reloaded. When the request
    is rejected the error is logged and [Failed to save product.] is
    alerted, again with the modal and the form untouched. *)
Theorem save_outcomes (s : State) (r : nat) (data : SaveData) (err : string) :
  pending (rt s) !! r = Some KSaveProduct ->
  (save_status data = JStr "success" ->
     (step (SaveSettled r (Ok data)) s).2 =
       [EFetch (next_req (rt s)) "GET" (products_url s) BNone] /\
     modal_display (modal (step (SaveSettled r (Ok data)) s).1) = "none") /\
  (save_status data <> JStr "success" ->
     (step (SaveSettled r (Ok data)) s).2 =
       [EAlert ("Error: " +:+ (if truthy (save_message data)
                               then ToString (save_message data)
                               else "Failed to save product"))] /\
     modal (step (SaveSettled r (Ok data)) s).1 = modal s /\
     form (step (SaveSettled r (Ok data)) s).1 = form s) /\
  (step (SaveSettled r (Err err)) s).2 =
    [EConsoleError err; EAlert "Failed to save product."] /\
  modal (step (SaveSettled r (Err err)) s).1 = modal s /\
  form (step (SaveSettled r (Err err)) s).1 = form s.
Proof.
  intros Hp. rewrite !(step_SaveSettled s r _ Hp).
  unfold exec, saveProduct_settled. split; [ | split; [ | repeat split]].
  - intros ->. cbn. unfold products_url. rewrite !or_empty. split; reflexivity.
  - intros Hne.
    destruct (strict_eq_str (save_status data) "success") eqn:E;
      [apply strict_eq_str_spec in E; contradiction | ].
    unfold js_or. cbn. destruct (truthy (save_message data)); repeat split.
Qed.

Lemma save_outcomes_witness :
  pending (rt (step FormSubmit filled_page).1) !! 1%nat = Some KSaveProduct /\
  ((save_status {| save_status := JStr "error"; save_message := JUndefined |}
      = JStr "success" ->
      (step (SaveSettled 1 (Ok {| save_status := JStr "error";
                                  save_message := JUndefined |}))
            (step FormSubmit filled_page).1).2 =
        [EFetch (next_req (rt (step FormSubmit filled_page).1)) "GET"
                (products_url (step FormSubmit filled_page).1) BNone] /\
      modal_display (modal (step (SaveSettled 1
          (Ok {| save_status := JStr "error"; save_message := JUndefined |}))
          (step FormSubmit filled_page).1).1) = "none") /\
   (save_status {| save_status := JStr "error"; save_message := JUndefined |}
      <> JStr "success" ->
      (step (SaveSettled 1 (Ok {| save_status := JStr "error";
                                  save_message := JUndefined |}))
            (step FormSubmit filled_page).1).2 =
        [EAlert ("Error: " +:+
                 (if truthy (save_message {| save_status := JStr "error";
                                             save_message := JUndefined |})
                  then ToString (save_message {| save_status := JStr "error";
                                                 save_message := JUndefined |})
                  else "Failed to save product"))] /\
      modal (step (SaveSettled 1 (Ok {| save_status := JStr "error";
                                        save_message := JUndefined |}))
                  (step FormSubmit filled_page).1).1
        = modal (step FormSubmit filled_page).1 /\
      form (step (SaveSettled 1 (Ok {| save_status := JStr "error";
                                       save_message := JUndefined |}))
                 (step FormSubmit filled_page).1).1
        = form (step FormSubmit filled_page).1) /\
   (step (SaveSettled 1 (Err "TypeError")) (step FormSubmit filled_page).1).2 =
     [EConsoleError "TypeError"; EAlert "Failed to save product."] /\
   modal (step (SaveSettled 1 (Err "TypeError")) (step FormSubmit filled_page).1).1
     = modal (step FormSubmit filled_page).1 /\
   form (step (SaveSettled 1 (Err "TypeError")) (step FormSubmit filled_page).1).1
     = form (step FormSubmit filled_page).1).
Proof.
  assert (H1 : pending (rt (step FormSubmit filled_page).1) !! 1%nat = Some KSaveProduct)
    by (vm_compute; reflexivity).
  split; [exact H1 | ].
  exact (save_outcomes (step FormSubmit filled_page).1 1%nat
           {| save_status := JStr "error"; save_message := JUndefined |}
           "TypeError" H1).
Defined.

Lemma step_DeleteSettled (s : State) (r : nat) (res : Result DeleteData) :
  pending (rt s) !! r = Some KDeleteProduct ->
  step (DeleteSettled r res) s =
  exec (deleteProduct_settled res) (with_rt (upd_pending (delete r)) s).
Proof.
  intros Hp. unfold step, exec, handle, settle. cbn. rewrite Hp. reflexivity.
Qed.

(** X13. How a product delete ends. Only the status [deleted] counts as
    success: then the listing is reloaded and nothing is alerted. Any other
    status (the [success] that the other endpoints answer included) and a
    rejected request alert [Failed to delete product.] and reload nothing;
    the table stays as it was. *)
Theorem delete_outcomes (s : State) (r : nat) (data : DeleteData) (err : string) :
  pending (rt s) !! r = Some KDeleteProduct ->
  (delete_status data = JStr "deleted" ->
     (step (DeleteSettled r (Ok data)) s).2 =
       [EFetch (next_req (rt s)) "GET" (products_url s) BNone]) /\
  (delete_status data <> JStr "deleted" ->
     (step (DeleteSettled r (Ok data)) s).2 = [EAlert "Failed to delete product."]) /\
  (step (DeleteSettled r (Ok {| delete_status := JStr "success" |})) s).2 =
    [EAlert "Failed to delete product."] /\
  (step (DeleteSettled r (Err err)) s).2 =
    [EConsoleError err; EAlert "Failed to delete product."] /\
  listing (step (DeleteSettled r (Ok data)) s).1 = listing s.
Proof.
  intros Hp. rewrite !(step_DeleteSettled s r _ Hp).
  unfold exec, deleteProduct_settled. split; [ | split; [ | repeat split]].
  - intros ->. cbn. unfold products_url. rewrite !or_empty. reflexivity.
  - intros Hne.
    destruct (strict_eq_str (delete_status data) "deleted") eqn:E;
      [apply strict_eq_str_spec in E; contradiction | reflexivity].
  - now destruct (strict_eq_str (delete_status data) "deleted").
Qed.

Lemma delete_outcomes_witness :
  pending (rt (step (DeleteClick (JNum 5) true) loaded_page).1) !! 1%nat
    = Some KDeleteProduct /\
  ((delete_status {| delete_status := JStr "deleted" |} = JStr "deleted" ->
      (step (DeleteSettled 1 (Ok {| delete_status := JStr "deleted" |}))
            (step (DeleteClick (JNum 5) true) loaded_page).1).2 =
        [EFetch (next_req (rt (step (DeleteClick (JNum 5) true) loaded_page).1)) "GET"
                (products_url (step (DeleteClick (JNum 5) true) loaded_page).1) BNone]) /\
   (delete_status {| delete_status := JStr "deleted" |} <> JStr "deleted" ->
      (step (DeleteSettled 1 (Ok {| delete_status := JStr "deleted" |}))
            (step (DeleteClick (JNum 5) true) loaded_page).1).2 =
        [EAlert "Failed to delete product."]) /\
   (step (DeleteSettled 1 (Ok {| delete_status := JStr "success" |}))
         (step (DeleteClick (JNum 5) true) loaded_page).1).2 =
     [EAlert "Failed to delete product."] /\
   (step (DeleteSettled 1 (Err "TypeError"))
         (step (DeleteClick (JNum 5) true) loaded_page).1).2 =
     [EConsoleError "TypeError"; EAlert "Failed to delete product."] /\
   listing (step (DeleteSettled 1 (Ok {| delete_status := JStr "deleted" |}))
                 (step (DeleteClick (JNum 5) true) loaded_page).1).1
     = listing (step (DeleteClick (JNum 5) true) loaded_page).1).
Proof.
  assert (H1 : pending (rt (step (DeleteClick (JNum 5) true) loaded_page).1) !! 1%nat
               = Some KDeleteProduct) by (vm_compute; reflexivity).
  split; [exact H1 | ].
  exact (delete_outcomes (step (DeleteClick (JNum 5) true) loaded_page).1 1%nat
           {| delete_status := JStr "deleted" |} "TypeError" H1).
Defined.

(** Every handler but the two delete clicks sends nothing that deletes. *)
Lemma only_delete_clicks_delete (ev : Event) :
  (forall id, ev <> DeleteClick id true) ->
  ev <> BulkDeleteClick true ->
  inv (fun _ => True) (fun e => is_destructive e = false) (handle ev).
Proof.
  intros Hd Hb.
  destruct ev as [| | | | | | | | | | | | | | | | | | | | | answer | | id answer | |].
  22: { destruct answer; [now destruct Hb | ].
        intros s _. split; [exact I | ].
        unfold handle, when_listening, bulkDeleteProducts, confirm. cbn.
        destruct (listeners s); cbn; [ | constructor].
        destruct (btn_disabled (bulk_btn s)); cbn; repeat constructor. }
  23: { destruct answer; [now destruct (Hd id) | ].
        intros s _. split; [exact I | ]. cbn. repeat constructor. }
  all: page_auto ltac:(first [exact I | intros; exact I | reflexivity | discriminate]).
Qed.

(** X14. No delete without a confirmation. Whatever the event and the
    state, a turn of the event loop that sends a deleting request (a DELETE
    of a product, or the bulk delete) consists of exactly the confirmation
    prompt followed by that request; so every deleting request ever sent was
    confirmed just before. *)
Theorem delete_needs_confirmation (ev : Event) (s : State) (e : Effect) :
  In e (step ev s).2 ->
  is_destructive e = true ->
  exists msg, (step ev s).2 = [EConfirm msg; e].
Proof.
  intros He Hde.
  assert (Hcase : (exists id, ev = DeleteClick id true) \/ ev = BulkDeleteClick true \/
                  ((forall id, ev <> DeleteClick id true) /\ ev <> BulkDeleteClick true)).
  { destruct ev as [| | | | | | | | | | | | | | | | | | | | | answer | | id answer | |];
      try (right; right; split; [intros ?; discriminate | discriminate]).
    - destruct answer; [right; left; reflexivity | ].
      right; right; split; [intros ?; discriminate | discriminate].
    - destruct answer; [left; eexists; reflexivity | ].
      right; right; split; [intros ?; discriminate | discriminate]. }
  destruct Hcase as [[id ->] | [-> | [Hd Hb]]].
  - revert He. unfold step, exec, handle, deleteProduct. cbn.
    intros [<- | [<- | []]]; [discriminate Hde | eauto].
  - revert He. unfold step, exec, handle, when_listening. cbn.
    destruct (listeners s); cbn; [ | intros []].
    destruct (btn_disabled (bulk_btn s)); cbn; [intros [] | ].
    intros [<- | [<- | []]]; [discriminate Hde | eauto].
  - exfalso.
    pose proof (proj2 (step_inv _ _ ev s (only_delete_clicks_delete ev Hd Hb) I)) as Hall.
    rewrite Forall_forall in Hall. apply list_elem_of_In in He.
    rewrite (Hall e He) in Hde. discriminate.
Qed.

Lemma delete_needs_confirmation_witness :
  In (EFetch 1 "DELETE" "/api/products/5" BNone)
     (step (DeleteClick (JNum 5) true) loaded_page).2 /\
  is_destructive (EFetch 1 "DELETE" "/api/products/5" BNone) = true /\
  (exists msg, (step (DeleteClick (JNum 5) true) loaded_page).2 =
               [EConfirm msg; EFetch 1 "DELETE" "/api/products/5" BNone]).
Proof.
  assert (H1 : In (EFetch 1 "DELETE" "/api/products/5" BNone)
                  (step (DeleteClick (JNum 5) true) loaded_page).2)
    by (right; left; reflexivity).
  assert (H2 : is_destructive (EFetch 1 "DELETE" "/api/products/5" BNone) = true)
    by reflexivity.
  split; [exact H1 | ]. split; [exact H2 | ].
  exact (delete_needs_confirmation (DeleteClick (JNum 5) true) loaded_page _ H1 H2).
Defined.

End CrudFlow.

(* ===================================================================== *)
(** ** The bulk-delete guard, and the separation of the two flows          *)
(* ===================================================================== *)

Section Guards.
Import Flows.

Lemma guard_frame (s s' : State) :
  bulk_btn s' = bulk_btn s -> pending (rt s') = pending (rt s) ->
  next_req (rt s') = next_req (rt s) ->
  bulk_guarded s -> bulk_guarded s'.
Proof.
  unfold bulk_guarded, bulk_pending. intros -> -> ->. exact (fun H => H).
Qed.

Lemma guard_insert (s : State) (k : Cont) :
  k <> KBulkDelete ->
  bulk_guarded s ->
  bulk_guarded (with_rt (fun x => upd_next_req (S (next_req (rt s)))
                                    (upd_pending (insert (next_req (rt s)) k) x)) s).
Proof.
  intros Hk (Hiff & Huniq & Hbound).
  assert (Hfresh : pending (rt s) !! next_req (rt s) = None).
  { destruct (pending (rt s) !! next_req (rt s)) eqn:E; [ | reflexivity].
    apply Hbound in E. lia. }
  unfold bulk_guarded, bulk_pending in *. cbn. repeat split.
  - intros Hd. destruct (proj1 Hiff Hd) as [r Hr]. exists r.
    rewrite lookup_insert_ne; [exact Hr | congruence].
  - intros [r Hr]. apply Hiff. rewrite lookup_insert in Hr.
    case_decide; [congruence | eauto].
  - intros r1 r2 H1 H2. rewrite lookup_insert in H1, H2.
    repeat case_decide; simplify_eq; eauto.
  - intros r k' Hr. rewrite lookup_insert in Hr. case_decide; simplify_eq; [lia | ].
    apply Hbound in Hr. lia.
Qed.

Lemma guard_delete (s : State) (r : nat) (c : Cont) :
  pending (rt s) !! r = Some c -> c <> KBulkDelete ->
  bulk_guarded s ->
  bulk_guarded (with_rt (upd_pending (delete r)) s).
Proof.
  intros Hr Hc (Hiff & Huniq & Hbound).
  unfold bulk_guarded, bulk_pending in *. cbn. repeat split.
  - intros Hd. destruct (proj1 Hiff Hd) as [r' Hr']. exists r'.
    rewrite lookup_delete_ne; [exact Hr' | congruence].
  - intros [r' Hr']. apply Hiff. rewrite lookup_delete in Hr'.
    case_decide; [discriminate | eauto].
  - intros r1 r2 H1 H2. rewrite lookup_delete in H1, H2.
    repeat case_decide; simplify_eq; eauto.
  - intros r' k' Hr'. rewrite lookup_delete in Hr'. case_decide; simplify_eq.
    eapply Hbound, Hr'.
Qed.

Ltac guard_leaf :=
  first
    [ exact I
    | intros; subst;
      first
        [ assumption
        | apply guard_insert; [discriminate | assumption]
        | eapply guard_delete; [eassumption | discriminate | assumption]
        | eapply guard_frame; [ | | | eassumption]; reflexivity ] ].

Lemma handle_keeps_guard (ev : Event) :
  (forall answer, ev <> BulkDeleteClick answer) ->
  is_bulk_settled ev = false ->
  inv bulk_guarded (fun _ => True) (handle ev).
Proof.
  intros Hc Hs.
  destruct ev; try discriminate Hs; try (now destruct (Hc answer));
    page_auto guard_leaf.
Qed.

Lemma step_BulkDeleteClick_guard (answer : bool) (s : State) :
  bulk_guarded s -> bulk_guarded (step (BulkDeleteClick answer) s).1.
Proof.
  intros Hg. pose proof Hg as (Hiff & Huniq & Hbound).
  unfold step, exec, handle, when_listening. cbn.
  destruct (listeners s); cbn; [ | exact Hg].
  destruct (btn_disabled (bulk_btn s)) eqn:Hd; cbn; [exact Hg | ].
  destruct answer; cbn; [ | exact Hg].
  assert (Hnone : forall r, pending (rt s) !! r <> Some KBulkDelete).
  { intros r Hr. assert (Habs : false = true) by (apply Hiff; eexists; exact Hr).
    discriminate Habs. }
  assert (Hfresh : pending (rt s) !! next_req (rt s) = None).
  { destruct (pending (rt s) !! next_req (rt s)) eqn:E; [ | reflexivity].
    apply Hbound in E. lia. }
  unfold bulk_guarded, bulk_pending. cbn. repeat split.
  - intros _. exists (next_req (rt s)). apply lookup_insert_eq.
  - intros r1 r2 H1 H2. rewrite lookup_insert in H1, H2.
    repeat case_decide; simplify_eq; try reflexivity; exfalso; eapply Hnone; eauto.
  - intros r k Hr. rewrite lookup_insert in Hr. case_decide; simplify_eq; [lia | ].
    apply Hbound in Hr. lia.
Qed.

Lemma bulk_settled_state (res : Result BulkData) (s : State) :
  bulk_btn (exec (bulkDeleteProducts_settled res) s).1 =
    {| btn_disabled := false; btn_text := "Delete All Products" |} /\
  ((pending (rt (exec (bulkDeleteProducts_settled res) s).1) = pending (rt s) /\
    next_req (rt (exec (bulkDeleteProducts_settled res) s).1) = next_req (rt s)) \/
   (pending (rt (exec (bulkDeleteProducts_settled res) s).1) =
      <[next_req (rt s) := KLoadProducts]> (pending (rt s)) /\
    next_req (rt (exec (bulkDeleteProducts_settled res) s).1) = S (next_req (rt s)))).
Proof.
  unfold exec, bulkDeleteProducts_settled.
  destruct res as [err|data]; [split; [ | left; split]; reflexivity | ].
  destruct (strict_eq_str (bulk_status data) "success"); cbn.
  - split; [ | right; split]; reflexivity.
  - split; [ | left; split]; reflexivity.
Qed.

Lemma step_BulkSettled_guard (r : nat) (res : Result BulkData) (s : State) :
  bulk_guarded s -> bulk_guarded (step (BulkSettled r res) s).1.
Proof.
  intros Hg. pose proof Hg as (Hiff & Huniq & Hbound).
  destruct (pending (rt s) !! r) as [c|] eqn:Hp;
    [ | unfold step, exec, handle, settle; cbn; rewrite Hp; exact Hg ].
  destruct c; try (unfold step, exec, handle, settle; cbn; rewrite Hp; exact Hg).
  rewrite (step_BulkSettled s r res Hp).
  destruct (bulk_settled_state res (with_rt (upd_pending (delete r)) s))
    as [Hbtn Hpend].
  assert (Hnone : forall r', delete r (pending (rt s)) !! r' <> Some KBulkDelete).
  { intros r' Hr'. rewrite lookup_delete in Hr'. case_decide; [discriminate | ].
    pose proof (Huniq _ _ Hp Hr'). congruence. }
  unfold bulk_guarded, bulk_pending. rewrite Hbtn.
  destruct Hpend as [[-> ->] | [-> ->]]; cbn; repeat split.
  - discriminate.
  - intros [r' Hr']. now destruct (Hnone r').
  - intros r1 r2 H1. now destruct (Hnone r1).
  - intros r' k Hr'. rewrite lookup_delete in Hr'. case_decide; [discriminate | ].
    eapply Hbound, Hr'.
  - discriminate.
  - intros [r' Hr']. rewrite lookup_insert in Hr'. case_decide; [discriminate | ].
    now destruct (Hnone r').
  - intros r1 r2 H1. rewrite lookup_insert in H1. case_decide; [discriminate | ].
    now destruct (Hnone r1).
  - intros r' k Hr'. rewrite lookup_insert in Hr'. case_decide; simplify_eq; [lia | ].
    rewrite lookup_delete in Hr'. case_decide; [discriminate | ].
    apply Hbound in Hr'. lia.
Qed.

Lemma step_keeps_guard (ev : Event) (s : State) :
  bulk_guarded s -> bulk_guarded (step ev s).1.
Proof.
  intros Hg.
  assert (Hcase : (exists answer, ev = BulkDeleteClick answer) \/
                  (exists r res, ev = BulkSettled r res) \/
                  ((forall answer, ev <> BulkDeleteClick answer) /\
                   is_bulk_settled ev = false)).
  { destruct ev; eauto; right; right; split; try reflexivity; intros ?; discriminate. }
  destruct Hcase as [[answer ->] | [(r & res & ->) | [Hc Hs]]].
  - apply step_BulkDeleteClick_guard, Hg.
  - apply step_BulkSettled_guard, Hg.
  - exact (proj1 (step_inv _ _ ev s (handle_keeps_guard ev Hc Hs) Hg)).
Qed.

(** X15. The bulk-delete control guards its own request. On a page loaded
    with the control enabled, after any sequence of events: the control is
    disabled exactly while a bulk delete is in flight, and at no time are
    two bulk deletes in flight. *)
Theorem bulk_delete_is_guarded (s0 : State) (evs : list Event) :
  freshly_loaded s0 ->
  btn_disabled (bulk_btn s0) = false ->
  bulk_guarded (run evs s0).1.
Proof.
  intros H0 Hd.
  assert (Hinit : bulk_guarded s0).
  { destruct H0 as (_ & _ & _ & _ & _ & Hp & _).
    unfold bulk_guarded, bulk_pending. rewrite Hp, Hd. repeat split.
    - discriminate.
    - intros [r Hr]. rewrite lookup_empty in Hr. discriminate.
    - intros r1 r2 H1. rewrite lookup_empty in H1. discriminate.
    - intros r k Hr. rewrite lookup_empty in Hr. discriminate. }
  clear H0 Hd. revert s0 Hinit.
  induction evs as [|ev evs IH]; intros s Hs; [exact Hs | ].
  cbn [run fst]. apply IH, step_keeps_guard, Hs.
Qed.

Lemma bulk_guard_witness :
  freshly_loaded blank_page /\
  btn_disabled (bulk_btn blank_page) = false /\
  bulk_guarded (run [DOMContentLoaded; BulkDeleteClick true; BulkDeleteClick true;
                     NextPageClick] blank_page).1.
Proof.
  assert (H2 : btn_disabled (bulk_btn blank_page) = false) by reflexivity.
  split; [exact blank_page_freshly_loaded | ]. split; [exact H2 | ].
  exact (bulk_delete_is_guarded blank_page
           [DOMContentLoaded; BulkDeleteClick true; BulkDeleteClick true; NextPageClick]
           blank_page_freshly_loaded H2).
Defined.

(** A second click while the first bulk delete is in flight sends nothing. *)
Example second_bulk_click_ignored :
  (run [BulkDeleteClick true; BulkDeleteClick true] loaded_page).2 =
  [EConfirm "Are you sure? This cannot be undone.";
   EFetch 1 "POST" "/api/products/bulk_delete" BNone].
Proof. vm_compute. reflexivity. Qed.

(** *** The two flows *)

Ltac side_leaf :=
  first
    [ exact I
    | intros; subst; cbn in *; first [ assumption | reflexivity | discriminate ] ].

Lemma handle_keeps_upload_side (ev : Event)
    (v : UploadView * option File * gmap nat jsval * nat) :
  is_upload_event ev = false ->
  inv (fun s => upload_side s = v) (fun _ => True) (handle ev).
Proof. intros Hev. destruct ev; try discriminate Hev; page_auto side_leaf. Qed.

Lemma handle_keeps_crud_side (ev : Event)
    (v : Z * ListView * Modal * ProductForm * ProductForm * Button * bool) :
  is_upload_event ev = true ->
  inv (fun s => crud_side s = v)
      (fun e => is_api_request e = true -> is_reload e = true) (handle ev).
Proof. intros Hev. destruct ev; try discriminate Hev; page_auto side_leaf. Qed.

(** X16. Product management never touches the upload flow: an event that
    is not part of the upload flow (paging, filter, modal, save, delete,
    bulk delete, the settling of their requests, typing) leaves the upload
    section of the page, the tracked file and every polling timer as they
    were. *)
Theorem crud_leaves_upload_alone (ev : Event) (s : State) :
  is_upload_event ev = false ->
  upload (step ev s).1 = upload s /\
  currentFile (step ev s).1 = currentFile s /\
  timers (rt (step ev s).1) = timers (rt s).
Proof.
  intros Hev.
  pose proof (proj1 (step_inv _ _ ev s
                       (handle_keeps_upload_side ev (upload_side s) Hev) eq_refl)) as H.
  unfold upload_side in H. injection H as H1 H2 H3 H4.
  repeat split; assumption.
Qed.

Lemma crud_leaves_upload_witness :
  is_upload_event (BulkDeleteClick true) = false /\
  upload (step (BulkDeleteClick true) polling_page).1 = upload polling_page /\
  currentFile (step (BulkDeleteClick true) polling_page).1 = currentFile polling_page /\
  timers (rt (step (BulkDeleteClick true) polling_page).1) = timers (rt polling_page).
Proof.
  split; [reflexivity | ].
  exact (crud_leaves_upload_alone (BulkDeleteClick true) polling_page eq_refl).
Defined.

(** X17. The upload flow touches product management in one way only. An
    event of the upload flow (drag and drop, file selection, retry, timer
    tick, settling of an upload or progress request) leaves the page
    cursor, the table, the page label, the filter inputs, the modal, the
    form and the bulk-delete control as they were; and the only request to
    the product API it can send is the reload of the listing. *)
Theorem upload_touches_crud_by_reload_only (ev : Event) (s : State) :
  is_upload_event ev = true ->
  crud_side (step ev s).1 = crud_side s /\
  Forall (fun e => is_api_request e = true -> is_reload e = true) (step ev s).2.
Proof.
  intros Hev.
  exact (step_inv _ _ ev s (handle_keeps_crud_side ev (crud_side s) Hev) eq_refl).
Qed.

Lemma upload_touches_crud_witness :
  is_upload_event (ProgressSettled 1 (Ok poll_success)) = true /\
  crud_side (step (ProgressSettled 1 (Ok poll_success)) polling_page).1
    = crud_side polling_page /\
  Forall (fun e => is_api_request e = true -> is_reload e = true)
         (step (ProgressSettled 1 (Ok poll_success)) polling_page).2.
Proof.
  split; [reflexivity | ].
  exact (upload_touches_crud_by_reload_only (ProgressSettled 1 (Ok poll_success))
           polling_page eq_refl).
Defined.

End Guards.

(* ===================================================================== *)
(** ** More on the webhooks page                                           *)
(* ===================================================================== *)

Section WebhooksFlow.
Import WebhookProps.

Lemma append_assoc (a b c : string) : (a +:+ b) +:+ c = a +:+ (b +:+ c).
Proof.
  induction a as [|x a IH]; [reflexivity | ].
  change ((String x a +:+ b) +:+ c) with (String x ((a +:+ b) +:+ c)).
  change (String x a +:+ (b +:+ c)) with (String x (a +:+ (b +:+ c))).
  now rewrite IH.
Qed.

Ltac entity_cases :=
  unfold WebhooksPage.entity;
  repeat match goal with
         | |- context [Ascii.eqb ?c ?k] => destruct (Ascii.eqb_spec c k); subst
         end.

Lemma entity_not_empty (c : ascii) : WebhooksPage.entity c <> EmptyString.
Proof. entity_cases; discriminate. Qed.

Lemma entity_length (c : ascii) : (1 <= String.length (WebhooksPage.entity c))%nat.
Proof. entity_cases; cbn; lia. Qed.

(** An entity at the head of a text can be read back in one way only. *)
Lemma entity_app_inj (c1 c2 : ascii) (r1 r2 : string) :
  WebhooksPage.entity c1 +:+ r1 = WebhooksPage.entity c2 +:+ r2 ->
  c1 = c2 /\ r1 = r2.
Proof.
  entity_cases; cbn; intros H; inversion H; subst; try congruence; auto.
Qed.

Lemma escaped_inj (a b : string) :
  WebhooksPage.escaped a = WebhooksPage.escaped b -> a = b.
Proof.
  revert b. induction a as [|c a IH]; intros [|d b] H; cbn in H.
  - reflexivity.
  - symmetry in H. destruct (WebhooksPage.entity d) eqn:E;
      [now destruct (entity_not_empty d) | discriminate H].
  - destruct (WebhooksPage.entity c) eqn:E;
      [now destruct (entity_not_empty c) | discriminate H].
  - apply entity_app_inj in H as [-> H]. f_equal. apply IH, H.
Qed.

Lemma escaped_app (a b : string) :
  WebhooksPage.escaped (a +:+ b) = WebhooksPage.escaped a +:+ WebhooksPage.escaped b.
Proof.
  induction a as [|c a IH]; [reflexivity | ].
  change (String c a +:+ b) with (String c (a +:+ b)).
  cbn [WebhooksPage.escaped]. now rewrite IH, append_assoc.
Qed.

Lemma escaped_length (t : string) :
  (String.length t <= String.length (WebhooksPage.escaped t))%nat.
Proof.
  induction t as [|c t IH]; [reflexivity | ].
  cbn [WebhooksPage.escaped String.length]. rewrite length_append.
  pose proof (entity_length c). lia.
Qed.

Lemma entity_plain (c : ascii) :
  WebhooksPage.special c = false -> WebhooksPage.entity c = String c EmptyString.
Proof.
  unfold WebhooksPage.special, WebhooksPage.amp, WebhooksPage.lt, WebhooksPage.gt,
    WebhooksPage.quot, WebhooksPage.apos.
  intros H. entity_cases; cbn in H; try discriminate H; try reflexivity;
    rewrite ?Ascii.eqb_refl in H; cbn in H; try discriminate H;
    rewrite ?orb_true_r in H; discriminate H.
Qed.

Lemma entity_special (c : ascii) :
  WebhooksPage.special c = true ->
  exists rest, WebhooksPage.entity c = String "&" rest /\
               (2 <= String.length (WebhooksPage.entity c))%nat.
Proof.
  unfold WebhooksPage.special, WebhooksPage.amp, WebhooksPage.lt, WebhooksPage.gt,
    WebhooksPage.quot, WebhooksPage.apos.
  intros H. entity_cases; try (eexists; split; [reflexivity | cbn; lia]).
  exfalso. repeat match goal with
                  | Hn : c <> _ |- _ => apply Ascii.eqb_neq in Hn; rewrite Hn in H
                  end.
  discriminate H.
Qed.

Lemma special_amp : WebhooksPage.special "&" = true.
Proof. reflexivity. Qed.

Lemma escaped_fixed (t : string) :
  WebhooksPage.escaped t = t <-> plain t = true.
Proof.
  induction t as [|c t IH]; [split; reflexivity | ].
  cbn [WebhooksPage.escaped plain].
  destruct (WebhooksPage.special c) eqn:Hs; cbn [negb andb].
  - split; [ | discriminate]. intros H.
    destruct (entity_special c Hs) as (rest & He & Hlen).
    pose proof (f_equal String.length H) as Hl.
    rewrite length_append in Hl. cbn [String.length] in Hl.
    pose proof (escaped_length t). lia.
  - rewrite (entity_plain c Hs).
    change (String c EmptyString +:+ WebhooksPage.escaped t)
      with (String c (WebhooksPage.escaped t)).
    rewrite <- IH. split; [intros [= H]; exact H | intros ->; reflexivity].
Qed.

Lemma plain_app (a b : string) : plain (a +:+ b) = plain a && plain b.
Proof.
  induction a as [|c a IH]; [reflexivity | ].
  change (String c a +:+ b) with (String c (a +:+ b)).
  cbn [plain]. now rewrite IH, andb_assoc.
Qed.

Lemma escaped_plain (t : string) : plain (WebhooksPage.escaped t) = plain t.
Proof.
  induction t as [|c t IH]; [reflexivity | ].
  cbn [WebhooksPage.escaped plain]. rewrite plain_app, IH.
  destruct (WebhooksPage.special c) eqn:Hs.
  - destruct (entity_special c Hs) as (rest & -> & _). reflexivity.
  - rewrite (entity_plain c Hs). cbn [plain]. now rewrite Hs.
Qed.

(** X18. [escapeHtml] loses nothing: two different texts never escape to
    the same text. *)
Theorem escapeHtml_injective (a b : string) :
  WebhooksPage.escapeHtml a = WebhooksPage.escapeHtml b -> a = b.
Proof. rewrite !escapeHtml_escaped. apply escaped_inj. Qed.

Lemma escapeHtml_injective_witness :
  WebhooksPage.escapeHtml "a<b" = WebhooksPage.escapeHtml "a<b" /\
  "a<b"%string = "a<b"%string.
Proof.
  split; [reflexivity | ].
  exact (escapeHtml_injective "a<b" "a<b" eq_refl).
Defined.

(** X19. [escapeHtml] works piece by piece and never shortens: the escape
    of a concatenation is the concatenation of the escapes, and the result
    is at least as long as the text. *)
Theorem escapeHtml_append (a b : string) :
  WebhooksPage.escapeHtml (a +:+ b) =
    WebhooksPage.escapeHtml a +:+ WebhooksPage.escapeHtml b /\
  (String.length (a +:+ b) <= String.length (WebhooksPage.escapeHtml (a +:+ b)))%nat.
Proof.
  rewrite !escapeHtml_escaped. split; [apply escaped_app | apply escaped_length].
Qed.

(** X20. [escapeHtml] returns a text unchanged exactly when the text holds
    none of the five characters; and escaping an escaped text changes it
    again unless there was nothing to escape in the first place (every
    entity starts with an ampersand, which is escaped in turn). *)
Theorem escapeHtml_fixed_points (t : string) :
  (WebhooksPage.escapeHtml t = t <-> plain t = true) /\
  (WebhooksPage.escapeHtml (WebhooksPage.escapeHtml t) = WebhooksPage.escapeHtml t
     <-> plain t = true).
Proof.
  rewrite !escapeHtml_escaped. split; [apply escaped_fixed | ].
  rewrite escaped_fixed. now rewrite escaped_plain.
Qed.

Example escaping_twice :
  WebhooksPage.escapeHtml (WebhooksPage.escapeHtml "a<b") = "a&amp;lt;b".
Proof. reflexivity. Qed.

(** *** Rendering the list *)

Lemma webhook_row_well_formed (w : WebhooksPage.Webhook) :
  well_formed w = true -> WebhooksPage.webhook_row w = Some (row_html w).
Proof.
  unfold well_formed, WebhooksPage.webhook_row, row_html.
  destruct (WebhooksPage.w_url w); try discriminate.
  destruct (WebhooksPage.w_event_type w); try discriminate. reflexivity.
Qed.

Lemma webhook_row_malformed (w : WebhooksPage.Webhook) :
  well_formed w = false -> WebhooksPage.webhook_row w = None.
Proof.
  unfold well_formed, WebhooksPage.webhook_row.
  destruct (WebhooksPage.w_url w); try reflexivity.
  destruct (WebhooksPage.w_event_type w); try reflexivity. discriminate.
Qed.

Lemma append_rows_good (good rest : list WebhooksPage.Webhook) (rows : list string) :
  Forall (fun w => well_formed w = true) good ->
  WebhooksPage.append_rows (good ++ rest) rows =
  WebhooksPage.append_rows rest (rows ++ List.map row_html good).
Proof.
  intros Hg. revert rows. induction Hg as [|w good Hw _ IH]; intros rows.
  - cbn. now rewrite app_nil_r.
  - cbn [app WebhooksPage.append_rows List.map].
    rewrite (webhook_row_well_formed w Hw), IH, <- app_assoc. reflexivity.
Qed.

Lemma loadWebhooks_nonempty (s : WebhooksPage.State) (w : WebhooksPage.Webhook)
    (ws : list WebhooksPage.Webhook) :
  exec (WebhooksPage.loadWebhooks_settled
          (WebhooksPage.Ok {| WebhooksPage.webhooks := w :: ws |})) s =
  ((exec (WebhooksPage.set_tbody (WebhooksPage.append_rows (w :: ws) []).1) s).1,
   if (WebhooksPage.append_rows (w :: ws) []).2
   then [WebhooksPage.EAlert ("Failed to load webhooks: " +:+ "TypeError")]
   else []).
Proof.
  unfold exec, WebhooksPage.loadWebhooks_settled. cbn [WebhooksPage.webhooks].
  generalize (WebhooksPage.append_rows (w :: ws) []). intros [rows b].
  destruct b; reflexivity.
Qed.

(** X21. Rendering the webhook list. With no webhook the table holds
    exactly the placeholder row. With webhooks whose url and event type are
    strings it holds exactly one row per webhook, in order, and nothing is
    alerted. When a webhook's url or event type is not a string, rendering
    stops there: the rows of the webhooks before it stay in the table,
    those after it are never rendered, and one alert reports the failure. *)
Theorem webhook_rows (s : WebhooksPage.State) (good rest : list WebhooksPage.Webhook)
    (bad : WebhooksPage.Webhook) :
  Forall (fun w => well_formed w = true) good ->
  well_formed bad = false ->
  WebhooksPage.tbody_rows
    (exec (WebhooksPage.loadWebhooks_settled
             (WebhooksPage.Ok {| WebhooksPage.webhooks := [] |})) s).1
    = [WebhooksPage.no_webhooks_row] /\
  (good <> [] ->
   exec (WebhooksPage.loadWebhooks_settled
           (WebhooksPage.Ok {| WebhooksPage.webhooks := good |})) s
     = ((exec (WebhooksPage.set_tbody (List.map row_html good)) s).1, [])) /\
  (exists msg,
     exec (WebhooksPage.loadWebhooks_settled
             (WebhooksPage.Ok {| WebhooksPage.webhooks := good ++ bad :: rest |})) s
       = ((exec (WebhooksPage.set_tbody (List.map row_html good)) s).1,
          [WebhooksPage.EAlert msg])).
Proof.
  intros Hg Hb. split; [reflexivity | split].
  - intros Hne.
    pose proof (append_rows_good good [] [] Hg) as Hrows.
    rewrite app_nil_r in Hrows. cbn [WebhooksPage.append_rows app] in Hrows.
    destruct good as [|w good]; [congruence | ].
    rewrite loadWebhooks_nonempty, Hrows. reflexivity.
  - eexists.
    pose proof (append_rows_good good (bad :: rest) [] Hg) as Hrows.
    cbn [WebhooksPage.append_rows app] in Hrows.
    rewrite (webhook_row_malformed bad Hb) in Hrows.
    destruct (good ++ bad :: rest) as [|w l] eqn:E;
      [now destruct good | ].
    rewrite loadWebhooks_nonempty, Hrows. reflexivity.
Qed.

Lemma webhook_rows_witness :
  Forall (fun w => well_formed w = true) [good_hook] /\
  well_formed bad_hook = false /\
  (WebhooksPage.tbody_rows
     (exec (WebhooksPage.loadWebhooks_settled
              (WebhooksPage.Ok {| WebhooksPage.webhooks := [] |}))
           (WebhooksPage.page_with WebhooksPage.new_hook)).1
     = [WebhooksPage.no_webhooks_row] /\
   ([good_hook] <> [] ->
    exec (WebhooksPage.loadWebhooks_settled
            (WebhooksPage.Ok {| WebhooksPage.webhooks := [good_hook] |}))
         (WebhooksPage.page_with WebhooksPage.new_hook)
      = ((exec (WebhooksPage.set_tbody (List.map row_html [good_hook]))
               (WebhooksPage.page_with WebhooksPage.new_hook)).1, [])) /\
   (exists msg,
      exec (WebhooksPage.loadWebhooks_settled
              (WebhooksPage.Ok {| WebhooksPage.webhooks :=
                                    [good_hook] ++ bad_hook :: [good_hook] |}))
           (WebhooksPage.page_with WebhooksPage.new_hook)
        = ((exec (WebhooksPage.set_tbody (List.map row_html [good_hook]))
                 (WebhooksPage.page_with WebhooksPage.new_hook)).1,
           [WebhooksPage.EAlert msg]))).
Proof.
  assert (H1 : Forall (fun w => well_formed w = true) [good_hook])
    by (repeat constructor).
  assert (H2 : well_formed bad_hook = false) by reflexivity.
  split; [exact H1 | ]. split; [exact H2 | ].
  exact (webhook_rows (WebhooksPage.page_with WebhooksPage.new_hook)
           [good_hook] [good_hook] bad_hook H1 H2).
Defined.

(** *** Save, and delete *)

(** X22. Which request a save sends is decided by how the modal was
    opened. After Add Webhook the id field is empty and submitting sends a
    POST to [/api/webhooks], even right after an edit. After Edit with a
    numeric id, submitting sends a PUT to [/api/webhooks/] followed by the
    id in decimal, with the url, event type and enabled flag the edit was
    opened with. The script checks no field: the request leaves whatever
    the fields hold, empty url and event type included. *)
Theorem webhook_edit_or_create_then_save (s : WebhooksPage.State) (id : Z)
    (url event_type : string) (enabled : bool) :
  let edited := (exec (WebhooksPage.editWebhook (JNum id) (JStr url) (JStr event_type)
                                                (JBool enabled)) s).1 in
  let created := (exec WebhooksPage.openModal edited).1 in
  (exec WebhooksPage.saveWebhook edited).2 =
    [WebhooksPage.EFetch (WebhooksPage.next_req s) "PUT"
       ("/api/webhooks/" +:+ string_of_Z id)
       (WebhooksPage.BJson url event_type enabled)] /\
  (exec WebhooksPage.saveWebhook created).2 =
    [WebhooksPage.EFetch (WebhooksPage.next_req s) "POST" "/api/webhooks"
       (WebhooksPage.BJson
          (WebhooksPage.url_value (WebhooksPage.form_default s))
          (WebhooksPage.event_type_value (WebhooksPage.form_default s))
          (WebhooksPage.enabled_checked (WebhooksPage.form_default s)))] /\
  WebhooksPage.modalTitle_text edited = "Edit Webhook" /\
  WebhooksPage.modalTitle_text created = "Create Webhook".
Proof.
  cbn zeta. rewrite !saveWebhook_request. cbn.
  pose proof (string_of_Z_not_empty id) as Hne.
  destruct (string_of_Z id) eqn:E; [congruence | ].
  repeat split.
Qed.

(** X23. A webhook save keeps its button busy and frees it whatever
    happens: from the submit to the settling of the request the submit
    button is disabled and reads [Saving...]; once the request has settled
    (success, failure reported by the server, or rejection) it is enabled
    and reads [Save]. On success the modal is closed and the list is asked
    for again; otherwise one alert is shown and the modal stays as it was. *)
Theorem webhook_save_outcomes (s : WebhooksPage.State)
    (res : WebhooksPage.Result WebhooksPage.StatusData) :
  let busy := (exec WebhooksPage.saveWebhook s).1 in
  let out := exec (WebhooksPage.saveWebhook_settled res) busy in
  WebhooksPage.submit_disabled busy = true /\
  WebhooksPage.submit_text busy = "Saving..." /\
  WebhooksPage.submit_disabled out.1 = false /\
  WebhooksPage.submit_text out.1 = "Save" /\
  ((exists data, res = WebhooksPage.Ok data /\
                 WebhooksPage.status data = JStr "success") ->
     out.2 = [WebhooksPage.EFetch (WebhooksPage.next_req busy) "GET" "/api/webhooks"
                                  WebhooksPage.BNone] /\
     WebhooksPage.modal_display out.1 = "none") /\
  ((forall data, res = WebhooksPage.Ok data ->
                 WebhooksPage.status data <> JStr "success") ->
     (exists msg, out.2 = [WebhooksPage.EAlert msg]) /\
     WebhooksPage.modal_display out.1 = WebhooksPage.modal_display s /\
     WebhooksPage.form out.1 = WebhooksPage.form s).
Proof.
  cbn zeta. unfold exec, WebhooksPage.saveWebhook_settled.
  split; [reflexivity | ]. split; [reflexivity | ].
  destruct res as [err|data].
  - split; [reflexivity | ]. split; [reflexivity | ]. split.
    + intros (data & Heq & _). discriminate Heq.
    + intros _. split; [eexists; reflexivity | split; reflexivity].
  - destruct (strict_eq_str (WebhooksPage.status data) "success") eqn:E.
    + split; [reflexivity | ]. split; [reflexivity | ]. split.
      * intros _. split; reflexivity.
      * intros H. exfalso. apply strict_eq_str_spec in E. exact (H data eq_refl E).
    + split; [reflexivity | ]. split; [reflexivity | ]. split.
      * intros (d & Heq & Hd). injection Heq as <-. rewrite Hd in E. discriminate E.
      * intros _. split; [eexists; reflexivity | split; reflexivity].
Qed.

(** X24. Deleting a webhook. A declined confirmation sends nothing and
    changes nothing; a confirmed one sends, after the prompt, one DELETE to
    [/api/webhooks/] followed by the id. When the request settles with
    status [success] the list is asked for again; otherwise one alert is
    shown and no request is sent, so the table stays as it was. *)
Theorem webhook_delete (s : WebhooksPage.State) (id : jsval)
    (res : WebhooksPage.Result WebhooksPage.StatusData) :
  exec (WebhooksPage.deleteWebhook id false) s =
    (s, [WebhooksPage.EConfirm "Are you sure you want to delete this webhook?"]) /\
  (exec (WebhooksPage.deleteWebhook id true) s).2 =
    [WebhooksPage.EConfirm "Are you sure you want to delete this webhook?";
     WebhooksPage.EFetch (WebhooksPage.next_req s) "DELETE"
       ("/api/webhooks/" +:+ ToString id) WebhooksPage.BNone] /\
  ((exists data, res = WebhooksPage.Ok data /\
                 WebhooksPage.status data = JStr "success") ->
     (exec (WebhooksPage.deleteWebhook_settled res) s).2 =
       [WebhooksPage.EFetch (WebhooksPage.next_req s) "GET" "/api/webhooks"
                            WebhooksPage.BNone]) /\
  ((forall data, res = WebhooksPage.Ok data ->
                 WebhooksPage.status data <> JStr "success") ->
     exists msg, exec (WebhooksPage.deleteWebhook_settled res) s =
                 (s, [WebhooksPage.EAlert msg])).
Proof.
  split; [reflexivity | ]. split; [reflexivity | ].
  unfold exec, WebhooksPage.deleteWebhook_settled.
  destruct res as [err|data].
  - split; [intros (data & [=] & _) | intros _; eexists; reflexivity].
  - destruct (strict_eq_str (WebhooksPage.status data) "success") eqn:E.
    + apply strict_eq_str_spec in E. split; [reflexivity | ].
      intros H. now destruct (H data eq_refl).
    + split; [ | intros _; eexists; reflexivity].
      intros (d & [= <-] & Hd). rewrite Hd in E. discriminate E.
Qed.

End WebhooksFlow.

(* ===================================================================== *)
(** ** The Test button of a webhook row                                    *)
(* ===================================================================== *)

Section TestButton.

Lemma step_TestClick (id : jsval) (btn : nat) (b : WebhookTest.Button)
    (s : WebhookTest.State) :
  WebhookTest.buttons s !! btn = Some b ->
  WebhookTest.btn_disabled b = false ->
  WebhookTest.step (WebhookTest.TestClick id btn) s =
    ({| WebhookTest.buttons :=
          <[btn := {| WebhookTest.btn_disabled := true;
                      WebhookTest.btn_text := "Testing..." |}]> (WebhookTest.buttons s);
        WebhookTest.pending := <[WebhookTest.next_req s := btn]> (WebhookTest.pending s);
        WebhookTest.next_req := S (WebhookTest.next_req s) |},
     [WebhookTest.EFetch (WebhookTest.next_req s) "POST"
        ("/api/webhooks/" +:+ ToString id +:+ "/test")]).
Proof.
  intros Hb Hd. unfold WebhookTest.step, exec, WebhookTest.handle. cbn.
  rewrite Hb. cbn. rewrite Hd. reflexivity.
Qed.

Lemma step_TestClick_ignored (id : jsval) (btn : nat) (s : WebhookTest.State) :
  (forall b, WebhookTest.buttons s !! btn = Some b ->
             WebhookTest.btn_disabled b = true) ->
  WebhookTest.step (WebhookTest.TestClick id btn) s = (s, []).
Proof.
  intros H. unfold WebhookTest.step, exec, WebhookTest.handle. cbn.
  destruct (WebhookTest.buttons s !! btn) as [b|] eqn:Hb; [ | reflexivity].
  cbn. rewrite (H b eq_refl). reflexivity.
Qed.

Lemma step_TestSettled (r btn : nat) (res : WebhooksPage.Result WebhookTest.TestData)
    (s : WebhookTest.State) :
  WebhookTest.pending s !! r = Some btn ->
  (WebhookTest.step (WebhookTest.TestSettled r res) s).1 =
    {| WebhookTest.buttons :=
         <[btn := {| WebhookTest.btn_disabled := false;
                     WebhookTest.btn_text := "Test" |}]> (WebhookTest.buttons s);
       WebhookTest.pending := delete r (WebhookTest.pending s);
       WebhookTest.next_req := WebhookTest.next_req s |} /\
  exists msg, (WebhookTest.step (WebhookTest.TestSettled r res) s).2 =
              [WebhookTest.EAlert msg].
Proof.
  intros Hp. unfold WebhookTest.step, exec, WebhookTest.handle. cbn.
  rewrite Hp. cbn. unfold WebhookTest.testWebhook_settled.
  destruct res as [err|data]; cbn; [eauto | ].
  destruct (strict_eq_str (WebhookTest.status data) "success"); cbn; eauto.
Qed.

Lemma step_TestSettled_unknown (r : nat) (res : WebhooksPage.Result WebhookTest.TestData)
    (s : WebhookTest.State) :
  WebhookTest.pending s !! r = None ->
  WebhookTest.step (WebhookTest.TestSettled r res) s = (s, []).
Proof.
  intros Hp. unfold WebhookTest.step, exec, WebhookTest.handle. cbn.
  rewrite Hp. reflexivity.
Qed.

Lemma rendered_consistent (s : WebhookTest.State) :
  WebhookTest.rendered s -> WebhookTest.consistent s.
Proof.
  intros [Hb Hp]. unfold WebhookTest.consistent, WebhookTest.testing.
  rewrite Hp. repeat split.
  - intros btn b Hl. left. split; [eauto | ].
    intros [r Hr]. rewrite lookup_empty in Hr. discriminate.
  - intros r1 r2 btn H1. rewrite lookup_empty in H1. discriminate.
  - rewrite lookup_empty in H. discriminate.
  - rewrite lookup_empty in H. discriminate.
Qed.

Lemma step_consistent (ev : WebhookTest.Event) (s : WebhookTest.State) :
  WebhookTest.consistent s -> WebhookTest.consistent (WebhookTest.step ev s).1.
Proof.
  intros Hc. pose proof Hc as (Hbtn & Huniq & Hbound).
  destruct ev as [id btn | r res].
  - destruct (WebhookTest.buttons s !! btn) as [b|] eqn:Hb;
      [ | rewrite step_TestClick_ignored; [exact Hc | congruence] ].
    destruct (WebhookTest.btn_disabled b) eqn:Hd;
      [ rewrite step_TestClick_ignored; [exact Hc | congruence] | ].
    rewrite (step_TestClick id btn b s Hb Hd). cbn.
    assert (Hidle : ~ WebhookTest.testing btn s).
    { destruct (Hbtn btn b Hb) as [[_ H]|[-> _]]; [exact H | discriminate Hd]. }
    assert (Hfresh : WebhookTest.pending s !! WebhookTest.next_req s = None).
    { destruct (WebhookTest.pending s !! WebhookTest.next_req s) eqn:E; [ | reflexivity].
      apply Hbound in E. lia. }
    unfold WebhookTest.consistent, WebhookTest.testing in *. cbn. repeat split.
    + intros btn' b' Hl. destruct (decide (btn' = btn)) as [->|Hne].
      * rewrite lookup_insert_eq in Hl. injection Hl as <-. right.
        split; [reflexivity | ]. exists (WebhookTest.next_req s).
        apply lookup_insert_eq.
      * rewrite lookup_insert_ne in Hl by congruence.
        destruct (Hbtn btn' b' Hl) as [[-> Hn]|[-> [r Hr]]].
        -- left. split; [reflexivity | ]. intros [r Hr].
           rewrite lookup_insert in Hr. case_decide; [congruence | eauto].
        -- right. split; [reflexivity | ]. exists r.
           rewrite lookup_insert_ne; [exact Hr | congruence].
    + intros r1 r2 btn' H1 H2. rewrite lookup_insert in H1, H2.
      repeat case_decide; simplify_eq; eauto; exfalso; eauto.
    + rewrite lookup_insert in H. case_decide; simplify_eq; [lia | ].
      apply Hbound in H. lia.
    + rewrite lookup_insert in H. case_decide; simplify_eq.
      * rewrite lookup_insert_eq. eauto.
      * apply Hbound in H as [_ [b' Hb']].
        rewrite lookup_insert. case_decide; eauto.
  - destruct (WebhookTest.pending s !! r) as [btn|] eqn:Hp;
      [ | rewrite step_TestSettled_unknown by exact Hp; exact Hc ].
    rewrite (proj1 (step_TestSettled r btn res s Hp)).
    unfold WebhookTest.consistent, WebhookTest.testing in *. cbn. repeat split.
    + intros btn' b' Hl. destruct (decide (btn' = btn)) as [->|Hne].
      * rewrite lookup_insert_eq in Hl. injection Hl as <-. left.
        split; [reflexivity | ]. intros [r' Hr'].
        rewrite lookup_delete in Hr'. case_decide; [discriminate | ].
        pose proof (Huniq _ _ _ Hp Hr'). congruence.
      * rewrite lookup_insert_ne in Hl by congruence.
        destruct (Hbtn btn' b' Hl) as [[-> Hn]|[-> [r' Hr']]].
        -- left. split; [reflexivity | ]. intros [r' Hr'].
           rewrite lookup_delete in Hr'. case_decide; [discriminate | eauto].
        -- right. split; [reflexivity | ]. exists r'.
           rewrite lookup_delete_ne; [exact Hr' | congruence].
    + intros r1 r2 btn' H1 H2. rewrite lookup_delete in H1, H2.
      repeat case_decide; simplify_eq. eauto.
    + rewrite lookup_delete in H. case_decide; simplify_eq.
      apply Hbound in H. lia.
    + rewrite lookup_delete in H. case_decide; simplify_eq.
      apply Hbound in H as [_ [b' Hb']].
      rewrite lookup_insert. case_decide; eauto.
Qed.

(** X25. From a freshly rendered table and through any sequence of clicks
    and settled test requests: every Test button is either enabled and
    labelled [Test] with no test of it in flight, or disabled and labelled
    [Testing...] with exactly one test of it in flight. *)
Theorem test_buttons_consistent (s : WebhookTest.State) (evs : list WebhookTest.Event) :
  WebhookTest.rendered s -> WebhookTest.consistent (WebhookTest.run evs s).1.
Proof.
  intros H. apply rendered_consistent in H. revert s H.
  induction evs as [|ev evs IH]; intros s H; [exact H | ].
  cbn. apply IH, step_consistent, H.
Qed.

Lemma three_rows_rendered : WebhookTest.rendered WebhookTest.three_rows.
Proof.
  split; [ | reflexivity]. intros btn b. unfold WebhookTest.three_rows. cbn.
  rewrite !lookup_insert. repeat case_decide; intros Hl; simplify_eq; reflexivity.
Defined.

Lemma test_buttons_witness :
  WebhookTest.rendered WebhookTest.three_rows /\
  WebhookTest.consistent
    (WebhookTest.run [WebhookTest.TestClick (JNum 7) 1; WebhookTest.TestClick (JNum 7) 1;
                      WebhookTest.TestClick (JNum 8) 2;
                      WebhookTest.TestSettled 0 (WebhooksPage.Err "TypeError")]
                     WebhookTest.three_rows).1.
Proof.
  split; [exact three_rows_rendered | ].
  exact (test_buttons_consistent WebhookTest.three_rows
           [WebhookTest.TestClick (JNum 7) 1; WebhookTest.TestClick (JNum 7) 1;
            WebhookTest.TestClick (JNum 8) 2;
            WebhookTest.TestSettled 0 (WebhooksPage.Err "TypeError")]
           three_rows_rendered).
Defined.

(** X26. One test, from click to answer. A click on an idle Test button
    sends one POST to [/api/webhooks/{id}/test] without any prompt; when
    that request settles, whatever the outcome, exactly one alert is shown,
    no further request is sent (the list is not reloaded), and the button
    is enabled and labelled [Test] again. On success the alert reports the
    response code and the time. *)
Theorem test_round_trip (s : WebhookTest.State) (id : jsval) (btn : nat)
    (res : WebhooksPage.Result WebhookTest.TestData) :
  WebhookTest.buttons s !! btn =
    Some {| WebhookTest.btn_disabled := false; WebhookTest.btn_text := "Test" |} ->
  let out := WebhookTest.run [WebhookTest.TestClick id btn;
                              WebhookTest.TestSettled (WebhookTest.next_req s) res] s in
  (exists msg,
     out.2 = [WebhookTest.EFetch (WebhookTest.next_req s) "POST"
                ("/api/webhooks/" +:+ ToString id +:+ "/test");
              WebhookTest.EAlert msg] /\
     (forall data, res = WebhooksPage.Ok data ->
        WebhookTest.status data = JStr "success" ->
        msg = "Webhook test successful! Response code: " +:+
              ToString (WebhookTest.response_code data) +:+ ", Time: " +:+
              ToString (WebhookTest.response_time data) +:+ "ms")) /\
  WebhookTest.buttons out.1 !! btn =
    Some {| WebhookTest.btn_disabled := false; WebhookTest.btn_text := "Test" |} /\
  (forall other, other <> btn ->
     WebhookTest.buttons out.1 !! other = WebhookTest.buttons s !! other).
Proof.
  intros Hb. cbn zeta. cbn [WebhookTest.run fst snd]. rewrite app_nil_r.
  rewrite (step_TestClick id btn _ s Hb eq_refl). cbn [fst snd].
  set (s1 := {| WebhookTest.buttons := _; WebhookTest.pending := _;
                WebhookTest.next_req := _ |}).
  assert (Hp : WebhookTest.pending s1 !! WebhookTest.next_req s = Some btn)
    by apply lookup_insert_eq.
  destruct (step_TestSettled _ btn res s1 Hp) as [Hst _].
  rewrite Hst. cbn [WebhookTest.buttons s1]. split; [ | split].
  - unfold WebhookTest.step, exec, WebhookTest.handle. cbn. rewrite lookup_insert_eq.
    unfold WebhookTest.testWebhook_settled.
    destruct res as [err|data]; cbn.
    + eexists. split; [reflexivity | ]. intros data [=].
    + destruct (strict_eq_str (WebhookTest.status data) "success") eqn:E; cbn.
      * eexists. split; [reflexivity | ]. intros d [= <-] _. reflexivity.
      * eexists. split; [reflexivity | ]. intros d [= <-] Hd.
        rewrite Hd in E. discriminate E.
  - apply lookup_insert_eq.
  - intros other Hne. rewrite !lookup_insert_ne by congruence. reflexivity.
Qed.

Lemma test_round_trip_witness :
  WebhookTest.buttons WebhookTest.three_rows !! 1%nat =
    Some {| WebhookTest.btn_disabled := false; WebhookTest.btn_text := "Test" |} /\
  (let out := WebhookTest.run
                [WebhookTest.TestClick (JNum 7) 1;
                 WebhookTest.TestSettled (WebhookTest.next_req WebhookTest.three_rows)
                                         (WebhooksPage.Err "TypeError")]
                WebhookTest.three_rows in
   (exists msg,
      out.2 = [WebhookTest.EFetch (WebhookTest.next_req WebhookTest.three_rows) "POST"
                 ("/api/webhooks/" +:+ ToString (JNum 7) +:+ "/test");
               WebhookTest.EAlert msg] /\
      (forall data, WebhooksPage.Err "TypeError" = WebhooksPage.Ok data ->
         WebhookTest.status data = JStr "success" ->
         msg = "Webhook test successful! Response code: " +:+
               ToString (WebhookTest.response_code data) +:+ ", Time: " +:+
               ToString (WebhookTest.response_time data) +:+ "ms")) /\
   WebhookTest.buttons out.1 !! 1%nat =
     Some {| WebhookTest.btn_disabled := false; WebhookTest.btn_text := "Test" |} /\
   (forall other, other <> 1%nat ->
      WebhookTest.buttons out.1 !! other
        = WebhookTest.buttons WebhookTest.three_rows !! other)).
Proof.
  assert (H1 : WebhookTest.buttons WebhookTest.three_rows !! 1%nat =
               Some {| WebhookTest.btn_disabled := false;
                       WebhookTest.btn_text := "Test" |})
    by (vm_compute; reflexivity).
  split; [exact H1 | ].
  exact (test_round_trip WebhookTest.three_rows (JNum 7) 1%nat
           (WebhooksPage.Err "TypeError") H1).
Defined.

End TestButton.
